(** * WhatsBlast: the resumable message dispatcher of [main.py]

    A shallow embedding of [main.py] (with the parts of [utils.py] it
    calls) and the properties of its target loading, its results ledger,
    its per-target send operation and its batching loop. *)

From Stdlib Require Import ZArith NArith List String Ascii Bool Lia.
From stdpp Require Import base list gmap sets.

Local Open Scope N_scope.

(** ** Python strings

    A Python [str] is a sequence of Unicode code points. *)

Abbreviation char := N (only parsing).
Abbreviation str := (list N) (only parsing).

(** An ASCII literal as a [str]. *)
Definition py (s : string) : str :=
  List.map N_of_ascii (list_ascii_of_string s).

(** The code points for which [str.isdecimal] holds (general category Nd),
    as closed intervals; this is the class the [re] module uses for [\d] on
    [str] patterns.  Table of Unicode 14.0, the database of CPython 3.11. *)
Definition unicode_Nd : list (N * N) :=
  [ (48, 57); (1632, 1641); (1776, 1785); (1984, 1993); (2406, 2415);
    (2534, 2543); (2662, 2671); (2790, 2799); (2918, 2927); (3046, 3055);
    (3174, 3183); (3302, 3311); (3430, 3439); (3558, 3567); (3664, 3673);
    (3792, 3801); (3872, 3881); (4160, 4169); (4240, 4249); (6112, 6121);
    (6160, 6169); (6470, 6479); (6608, 6617); (6784, 6793); (6800, 6809);
    (6992, 7001); (7088, 7097); (7232, 7241); (7248, 7257); (42528, 42537);
    (43216, 43225); (43264, 43273); (43472, 43481); (43504, 43513);
    (43600, 43609); (44016, 44025); (65296, 65305); (66720, 66729);
    (68912, 68921); (69734, 69743); (69872, 69881); (69942, 69951);
    (70096, 70105); (70384, 70393); (70736, 70745); (70864, 70873);
    (71248, 71257); (71360, 71369); (71472, 71481); (71904, 71913);
    (72016, 72025); (72784, 72793); (73040, 73049); (73120, 73129);
    (92768, 92777); (92864, 92873); (93008, 93017); (120782, 120831);
    (123200, 123209); (123632, 123641); (125264, 125273); (130032, 130041) ].

(** The code points for which [str.isspace] holds; [str.strip()] removes
    them from both ends. *)
Definition unicode_space : list (N * N) :=
  [ (9, 13); (28, 32); (133, 133); (160, 160); (5760, 5760); (8192, 8202);
    (8232, 8233); (8239, 8239); (8287, 8287); (12288, 12288) ].

Definition in_ranges (tbl : list (N * N)) (c : char) : bool :=
  existsb (fun r => (fst r <=? c) && (c <=? snd r)) tbl.

Definition isdecimal (c : char) : bool := in_ranges unicode_Nd c.
Definition isspace (c : char) : bool := in_ranges unicode_space c.

(** [re.sub(pattern, repl, s)] for a pattern that is a single character
    class: the scan goes left to right, a matching character is replaced by
    [repl], any other is copied. *)
Fixpoint re_sub_class (cls : char -> bool) (repl s : str) : str :=
  match s with
  | [] => []
  | c :: rest => (if cls c then repl else [c]) ++ re_sub_class cls repl rest
  end.

(** The class [\D]. *)
Definition non_digit (c : char) : bool := negb (isdecimal c).

(** [clean_number = re.sub(r'\D', '', row[0])] (main.py, lines 76 and 113):
    the canonical form of a raw phone number. *)
Definition clean_number (raw : str) : str := re_sub_class non_digit [] raw.

(** [s.strip()] *)
Fixpoint lstrip (s : str) : str :=
  match s with
  | [] => []
  | c :: rest => if isspace c then lstrip rest else s
  end.

Definition strip (s : str) : str := rev (lstrip (rev (lstrip s))).

(** What [file.read()] returns for the decoded text of a file opened with
    [mode='r'] and no [newline] argument: every line ending, ["\r\n"] or a
    lone ["\r"], comes out as ["\n"]. *)
Fixpoint universal_newlines (s : str) : str :=
  match s with
  | [] => []
  | c :: rest =>
      if c =? 13 then
        10 :: match rest with
              | d :: rest' =>
                  if d =? 10 then universal_newlines rest'
                  else universal_newlines rest
              | [] => []
              end
      else c :: universal_newlines rest
  end.

(** [s.split('\n')]: never empty, one more piece than there are newlines. *)
Fixpoint split_lines (s : str) : list str :=
  match s with
  | [] => [[]]
  | c :: rest =>
      if c =? 10 then [] :: split_lines rest
      else match split_lines rest with
           | [] => [[c]]
           | l :: ls => (c :: l) :: ls
           end
  end.

(** ** Files

    What [csv.reader] yields for a file, item by item: a row (the list of
    its columns; a blank line is the empty row), or an exception where the
    text cannot be decoded or parsed.  A file that cannot be opened is
    [None].  [csv.writer.writerow] of a list of strings appends the row the
    reader gives back for it. *)
Inductive line :=
| Row (cols : list str)
| Corrupt.

Abbreviation file := (option (list line)) (only parsing).

(** ** Exceptions

    The subclasses of [Exception] the code tells apart:
    [asyncio.TimeoutError] (with its subclasses, as raised by pyppeteer's
    waits) and everything else.  The argument is [str(e)].  What is not an
    [Exception] (a keyboard interrupt, a cancellation) ends the process
    and is not part of the model. *)
Inductive exn :=
| TimeoutError (msg : str)
| Error (msg : str).

Definition exn_str (e : exn) : str :=
  match e with TimeoutError m | Error m => m end.

Inductive res (A : Type) :=
| Ok (a : A)
| Raise (e : exn).
Arguments Ok {A} a.
Arguments Raise {A} e.

(** ** Reading the input list and the ledger *)

(** The loop of [read_phone_numbers_from_csv] (lines 73-77) over what is
    left of the reader, [phone_numbers] being the list built so far.  An
    exception leaves the loop for the handler of line 79, which keeps the
    list as it is. *)
Fixpoint phone_rows (rows : list line) (phone_numbers : list str)
  : list str * option exn :=
  match rows with
  | [] => (phone_numbers, None)
  | Corrupt :: _ => (phone_numbers, Some (Error (py "cannot read row")))
  | Row [] :: rest => phone_rows rest phone_numbers
  | Row (c0 :: _) :: rest => phone_rows rest (phone_numbers ++ [clean_number c0])
  end.

(** [next(reader, None)]: drops the first item, raises where it is corrupt. *)
Definition skip_header (rows : list line) : res (list line) :=
  match rows with
  | [] => Ok []
  | Corrupt :: _ => Raise (Error (py "cannot read row"))
  | Row _ :: rest => Ok rest
  end.

(** The value and the exception caught, if any, of
    [read_phone_numbers_from_csv] (lines 61-81). *)
Definition scan_phone_numbers (f : file) : list str * option exn :=
  match f with
  | None => ([], Some (Error (py "cannot open file")))
  | Some rows =>
      match skip_header rows with
      | Raise e => ([], Some e)
      | Ok rest => phone_rows rest []
      end
  end.

Definition sent_successfully : str := py "Sent successfully".

(** The loop of [read_processed_numbers] (lines 111-113).  [row[1]] raises
    [IndexError] on a row of one column; [row and ...] skips the empty row
    before it is indexed. *)
Fixpoint processed_rows (rows : list line) (processed_numbers : gset str)
  : gset str * option exn :=
  match rows with
  | [] => (processed_numbers, None)
  | Corrupt :: _ => (processed_numbers, Some (Error (py "cannot read row")))
  | Row [] :: rest => processed_rows rest processed_numbers
  | Row [_] :: _ =>
      (processed_numbers, Some (Error (py "list index out of range")))
  | Row (c0 :: c1 :: _) :: rest =>
      if decide (c1 = sent_successfully)
      then processed_rows rest (processed_numbers ∪ {[ clean_number c0 ]})
      else processed_rows rest processed_numbers
  end.

(** The value and the exception caught, if any, of [read_processed_numbers]
    (lines 99-117). *)
Definition scan_processed_numbers (f : file) : gset str * option exn :=
  match f with
  | None => (∅, Some (Error (py "cannot open file")))
  | Some rows =>
      match skip_header rows with
      | Raise e => (∅, Some e)
      | Ok rest => processed_rows rest ∅
      end
  end.

(** [[num for num in phone_numbers if num not in processed_numbers]]
    (line 220). *)
Definition to_send (phone_numbers : list str) (processed_numbers : gset str)
  : list str :=
  filter (fun num => num ∉ processed_numbers) phone_numbers.


(** ** Python ranges and slices *)

Local Open Scope Z_scope.

(** [range(0, stop, step)]: [ValueError] for a zero step, the length as
    CPython computes it otherwise. *)
Definition py_range (stop step : Z) : res (list Z) :=
  if step =? 0 then Raise (Error (py "range() arg 3 must not be zero"))
  else
    let len := if (0 <? step) && (0 <? stop) then (stop - 1) / step + 1
               else if (step <? 0) && (stop <? 0) then (- stop - 1) / (- step) + 1
               else 0 in
    Ok ((fun k => k * step) <$> seqZ 0 len).

(** A slice bound, clamped to the list as Python does. *)
Definition clamp (len i : Z) : Z :=
  if i <? 0 then Z.max 0 (i + len) else Z.min i len.

(** [l[lo:hi]] *)
Definition py_slice {A} (l : list A) (lo hi : Z) : list A :=
  let len := Z.of_nat (length l) in
  let lo' := clamp len lo in
  let hi' := clamp len hi in
  take (Z.to_nat (hi' - lo')) (drop (Z.to_nat lo') l).

(** [random.choice(l)], [k] being the draw. *)
Definition choice (l : list nat) (k : nat) : nat :=
  nth (k mod length l)%nat l 0%nat.

(** ** What a run does: the trace *)

Inductive level := INFO | WARNING | ERROR | CRITICAL.

(** The elements the code waits for, by their CSS selectors:
    [div[role=alert]], [div[contenteditable=true][data-tab=10]] and
    [div[contenteditable=true][data-tab=3]]. *)
Inductive selector := AlertBox | MessageBox | LoginBox.

Abbreviation handle := N (only parsing).

Inductive mode := Write_ | Append_.

(** The calls that leave the program: pyppeteer's and [open] for writing on
    the results file. *)
Inductive op :=
| Launch
| NewPage
| Goto (url : str)
| WaitForSelector (sel : selector) (timeout_ms : Z)
| TextContent (element : handle)
| TypeText (element : handle) (text : str)
| Press (element : handle) (key : str)
| KeyboardDown (key : str)
| KeyboardPress (key : str)
| KeyboardUp (key : str)
| PageClose
| BrowserClose
| OpenResults (m : mode).

(** The texts logged and printed, with their parameters. *)
Inductive note :=
| Error_initializing_browser_and_page (e : exn)
| Browser_and_page_closed
| Error_closing_browser_page (e : exn)
| Read_phone_numbers (n : nat)
| Failed_to_read_phone_numbers (e : exn)
| Read_message
| Failed_to_read_message (e : exn)
| Read_processed_phone_numbers (n : nat)
| Failed_to_read_processed_phone_numbers (e : exn)
| Processing_number (phone_number : str)
| Invalid_phone_number (phone_number error_message : str)
| Message_box_not_found (phone_number : str)
| Message_sent_successfully (phone_number : str)
| An_error_occurred_while_sending (phone_number : str) (e : exn)
| Starting_to_send (total_numbers : nat)
| Processing_batch (number : Z) (size : nat)
| Completed_batch (number : Z)
| Completed_sending
| No_phone_numbers
| All_processed
| Initialized_with_headers
| Failed_to_initialize (e : exn)
| Unhandled_exception_during_execution (e : exn)
| An_error_occurred (e : exn)
| Script_execution_completed
| Results_saved_to
| Check_log
| Unhandled_exception_in_main (e : exn)
| An_unhandled_exception_occurred (e : exn)
| Please_scan_the_QR_code.

(** The calls are recorded with the exception they raised, if any. *)
Inductive event :=
| Log (lvl : level) (n : note)
| Print (n : note)
| Sleep (seconds : nat)
| Call (o : op) (raised : option exn)
| WriteRow (row : list str).

(** The exception of a result, if any. *)
Definition raised {A} (r : res A) : option exn :=
  match r with Ok _ => None | Raise e => Some e end.

(** ** The world outside the program

    The browser, the page it shows and the file system under the results
    file answer the program's calls; [random_draw] feeds [random.choice]. *)
Class World (W : Type) := {
  effect : op → W → res unit * W;
  wait_for_selector : selector → Z → W → res (option handle) * W;
  text_content : handle → W → res str * W;
  random_draw : W → nat * W;
}.

(** The state a run threads: the world and [message_sending_results.csv]
    ([None] while it does not exist), as the rows written to it through
    the program's file handles, in order.  The buffer of the I/O layer
    between a handle and the disk is not modelled: the file is what a
    reader finds once the handle is flushed or closed. *)
Record state (W : Type) := State { world : W; results : file }.
Arguments State {W} world results.
Arguments world {W} s.
Arguments results {W} s.

(** A computation: from a state to a result or an exception, the state
    after, and the trace of what it did. *)
Definition M (W A : Type) : Type := state W → res A * state W * list event.

Section Monad.
Context {W : Type} `{World W}.

Definition ret {A} (a : A) : M W A := fun st => (Ok a, st, []).

Definition bind {A B} (m : M W A) (k : A → M W B) : M W B :=
  fun st =>
    match m st with
    | (Ok a, st1, t1) => let '(r, st2, t2) := k a st1 in (r, st2, t1 ++ t2)
    | (Raise e, st1, t1) => (Raise e, st1, t1)
    end.

Definition raise {A} (e : exn) : M W A := fun st => (Raise e, st, []).

(** [try: m / except Exception as e: h e] *)
Definition try_except {A} (m : M W A) (h : exn → M W A) : M W A :=
  fun st =>
    match m st with
    | (Ok a, st1, t1) => (Ok a, st1, t1)
    | (Raise e, st1, t1) => let '(r, st2, t2) := h e st1 in (r, st2, t1 ++ t2)
    end.

(** [try: m / except asyncio.TimeoutError: h]: any other exception
    passes. *)
Definition try_except_timeout {A} (m : M W A) (h : M W A) : M W A :=
  try_except m (fun e => match e with TimeoutError _ => h | Error _ => raise e end).

(** [try: m / finally: f] *)
Definition try_finally {A} (m : M W A) (f : M W unit) : M W A :=
  fun st =>
    let '(r, st1, t1) := m st in
    let '(rf, st2, t2) := f st1 in
    (match rf with Ok _ => r | Raise e => Raise e end, st2, t1 ++ t2).

Definition emit (ev : event) : M W unit := fun st => (Ok tt, st, [ev]).

Definition log (lvl : level) (n : note) : M W unit := emit (Log lvl n).
Definition print (n : note) : M W unit := emit (Print n).

(** [await asyncio.sleep(n)] *)
Definition sleep (n : nat) : M W unit := emit (Sleep n).

Definition call (o : op) : M W unit :=
  fun st =>
    let '(r, w) := effect o (world st) in
    (r, State w (results st), [Call o (raised r)]).

(** [await page.waitForSelector(sel, timeout=ms)] *)
Definition waitForSelector (sel : selector) (ms : Z) : M W (option handle) :=
  fun st =>
    let '(r, w) := wait_for_selector sel ms (world st) in
    (r, State w (results st), [Call (WaitForSelector sel ms) (raised r)]).

(** [await page.evaluate('(element) => element.textContent', element)] *)
Definition evaluate_textContent (element : handle) : M W str :=
  fun st =>
    let '(r, w) := text_content element (world st) in
    (r, State w (results st), [Call (TextContent element) (raised r)]).

(** [random.choice(l)] *)
Definition random_choice (l : list nat) : M W nat :=
  fun st =>
    let '(k, w) := random_draw (world st) in
    (Ok (choice l k), State w (results st), []).

(** [writer.writerow(row)] on a handle of the results file; a write that
    fails is not modelled. *)
Definition writerow (row : list str) : M W unit :=
  fun st =>
    (Ok tt, State (world st) (Some (default [] (results st) ++ [Row row])),
     [WriteRow row]).

Definition get_results : M W file := fun st => (Ok (results st), st, []).

(** [open(output_csv, 'w')]: creates or truncates. *)
Definition open_write : M W unit :=
  bind (call (OpenResults Write_))
       (fun _ st => (Ok tt, State (world st) (Some []), [])).

(** [open(output_csv, mode='a')]: creates the file when it is missing. *)
Definition open_append : M W unit :=
  bind (call (OpenResults Append_))
       (fun _ st => (Ok tt, State (world st) (Some (default [] (results st))), [])).

(** [for x in l: body x] *)
Fixpoint for_each {A} (l : list A) (body : A → M W unit) : M W unit :=
  match l with
  | [] => ret tt
  | x :: rest => bind (body x) (fun _ => for_each rest body)
  end.
End Monad.

Notation "x <- m ;; k" := (bind m (fun x => k))
  (at level 100, m at next level, k at level 200, right associativity, only parsing).
Notation "m ;;; k" := (bind m (fun _ => k))
  (at level 100, k at level 200, right associativity, only parsing).

(** ** The program *)

Section Program.
Context {W : Type} `{World W}.

(** [read_phone_numbers_from_csv] (lines 61-81) *)
Definition read_phone_numbers_from_csv (f : file) : M W (list str) :=
  let '(phone_numbers, err) := scan_phone_numbers f in
  match err with
  | None => log INFO (Read_phone_numbers (length phone_numbers))
  | Some e => log ERROR (Failed_to_read_phone_numbers e)
  end ;;;
  ret phone_numbers.

(** [read_message_from_text] (lines 83-97); [f] is the decoded text of the
    file, [None] where it cannot be opened or decoded.  The file is opened
    with [mode='r'] and no [newline] argument (line 91), so [file.read()]
    translates the line endings before [strip] is applied (line 92). *)
Definition read_message_from_text (f : option str) : M W str :=
  match f with
  | Some text => log INFO Read_message ;;; ret (strip (universal_newlines text))
  | None =>
      log ERROR (Failed_to_read_message (Error (py "cannot open file"))) ;;;
      ret []
  end.

(** [read_processed_numbers] (lines 99-117) *)
Definition read_processed_numbers (f : file) : M W (gset str) :=
  let '(processed_numbers, err) := scan_processed_numbers f in
  match err with
  | None => log INFO (Read_processed_phone_numbers (size processed_numbers))
  | Some e => log ERROR (Failed_to_read_processed_phone_numbers e)
  end ;;;
  ret processed_numbers.

Definition chat_url (phone_number : str) : str :=
  py "https://web.whatsapp.com/send?phone=" ++ phone_number.

(** [message_box.type(line)] and [message_box.press(key)], on what
    [waitForSelector] returned: [None] has neither method. *)
Definition box_type (message_box : option handle) (text : str) : M W unit :=
  match message_box with
  | Some h => call (TypeText h text)
  | None => raise (Error (py "'NoneType' object has no attribute 'type'"))
  end.

Definition box_press (message_box : option handle) (key : str) : M W unit :=
  match message_box with
  | Some h => call (Press h key)
  | None => raise (Error (py "'NoneType' object has no attribute 'press'"))
  end.

Definition invalid_status (error_message : str) : str :=
  py "Failed - Invalid number: " ++ error_message.

Definition failed_status (e : exn) : str := py "Failed - " ++ exn_str e.

(** Lines 134-144: [true] where the function returns from inside the
    block. *)
Definition check_invalid_number (phone_number : str) : M W bool :=
  try_except_timeout
    (invalid_number_element <- waitForSelector AlertBox 10000 ;;
     match invalid_number_element with
     | Some element =>
         error_message <- evaluate_textContent element ;;
         log WARNING (Invalid_phone_number phone_number error_message) ;;;
         writerow [phone_number; invalid_status error_message] ;;;
         ret true
     | None => ret false
     end)
    (ret false).

(** Lines 146-151: [None] where the function returns from the handler. *)
Definition find_message_box (phone_number : str) : M W (option (option handle)) :=
  try_except_timeout
    (message_box <- waitForSelector MessageBox 10000 ;; ret (Some message_box))
    (log WARNING (Message_box_not_found phone_number) ;;;
     writerow [phone_number; py "Failed"] ;;;
     ret None).

(** The body of the loop of lines 154-158. *)
Definition type_line (message_box : option handle) (line : str) : M W unit :=
  box_type message_box line ;;;
  call (KeyboardDown (py "Shift")) ;;;
  call (KeyboardPress (py "Enter")) ;;;
  call (KeyboardUp (py "Shift")).

(** Lines 153-163 *)
Definition type_and_send (phone_number message : str)
    (message_box : option handle) : M W unit :=
  for_each (split_lines message) (type_line message_box) ;;;
  box_press message_box (py "Enter") ;;;
  wait <- random_choice [1; 2; 3]%nat ;;
  sleep wait ;;;
  writerow [phone_number; sent_successfully] ;;;
  log INFO (Message_sent_successfully phone_number).

(** [send_message] (lines 119-168) *)
Definition send_message (phone_number message : str) : M W unit :=
  try_except
    (log INFO (Processing_number phone_number) ;;;
     call (Goto (chat_url phone_number)) ;;;
     sleep 3 ;;;
     returned <- check_invalid_number phone_number ;;
     if returned : bool then ret tt
     else
       found <- find_message_box phone_number ;;
       match found with
       | None => ret tt
       | Some message_box => type_and_send phone_number message message_box
       end)
    (fun e =>
       log ERROR (An_error_occurred_while_sending phone_number e) ;;;
       writerow [phone_number; failed_status e] ;;;
       sleep 10).

(** The body of the inner loop (lines 188-189). *)
Definition send_and_pause (message phone_number : str) : M W unit :=
  send_message phone_number message ;;;
  sleep 1.

(** [send_messages_in_batches] (lines 170-193) *)
Definition send_messages_in_batches (phone_numbers : list str)
    (message : str) (batch_size : Z) : M W unit :=
  let total_numbers := length phone_numbers in
  log INFO (Starting_to_send total_numbers) ;;;
  match py_range (Z.of_nat total_numbers) batch_size with
  | Raise e => raise e
  | Ok indices =>
      for_each indices (fun i =>
        let batch := py_slice phone_numbers i (i + batch_size) in
        log INFO (Processing_batch (i / batch_size + 1) (length batch)) ;;;
        for_each batch (send_and_pause message) ;;;
        log INFO (Completed_batch (i / batch_size + 1)))
  end ;;;
  log INFO Completed_sending.

(** [handle_qr_scan] (utils.py, lines 46-54) *)
Definition handle_qr_scan : M W unit :=
  call (Goto (py "https://web.whatsapp.com")) ;;;
  print Please_scan_the_QR_code ;;;
  _ <- waitForSelector LoginBox 60000 ;;
  ret tt.

(** The [finally] block of [get_browser_and_page] (lines 34-39);
    [page_bound] tells whether [page] was assigned: closing an unassigned
    [page] raises [UnboundLocalError] before anything is closed.  Its text
    is the one of CPython 3.11 and later, the version of the tables
    above. *)
Definition close_browser_and_page (page_bound : bool) : M W unit :=
  try_except
    ((if page_bound then call PageClose
      else raise (Error (py "cannot access local variable 'page' where it is not associated with a value"))) ;;;
     call BrowserClose ;;;
     log INFO Browser_and_page_closed)
    (fun e => log ERROR (Error_closing_browser_page e)).

Definition log_and_reraise {A} (e : exn) : M W A :=
  log ERROR (Error_initializing_browser_and_page e) ;;; raise e.

(** [m] with its exception, if any, as a value. *)
Definition attempt {A} (m : M W A) : M W (res A) :=
  fun st => let '(r, st1, t1) := m st in (Ok r, st1, t1).

(** [async with get_browser_and_page() as page: body] (lines 20-39, with
    [get_browser_instance] of utils.py for a first call): the [try] block
    up to the assignment of [page], then the rest with [body] at the
    [yield]; the handler and the [finally] block cover both. *)
Definition get_browser_and_page (body : M W unit) : M W unit :=
  acquired <- attempt (call Launch ;;; call NewPage) ;;
  match acquired with
  | Raise e =>
      try_finally (log_and_reraise e) (close_browser_and_page false)
  | Ok _ =>
      try_finally
        (try_except (handle_qr_scan ;;; body) log_and_reraise)
        (close_browser_and_page true)
  end.

(** The command line and the files it names, by their contents. *)
Record args := Args {
  phone_csv : file;
  message_txt : option str;
  batch_size : Z;
}.

Definition header : list str := [py "Phone Number"; py "Status"].

(** Lines 227-237: [false] where [main] returns from the handler. *)
Definition initialize_output (output : file) : M W bool :=
  match output with
  | Some _ => ret true
  | None =>
      try_except
        (open_write ;;;
         writerow header ;;;
         log INFO Initialized_with_headers ;;;
         ret true)
        (fun e =>
           log ERROR (Failed_to_initialize e) ;;;
           print (Failed_to_initialize e) ;;;
           ret false)
  end.

(** [main] (lines 195-250) *)
Definition main (a : args) : M W unit :=
  phone_numbers <- read_phone_numbers_from_csv (phone_csv a) ;;
  message <- read_message_from_text (message_txt a) ;;
  match phone_numbers with
  | [] => log ERROR No_phone_numbers ;;; print No_phone_numbers
  | _ :: _ =>
      output_csv <- get_results ;;
      processed_numbers <- read_processed_numbers output_csv ;;
      let phone_numbers_to_send := to_send phone_numbers processed_numbers in
      match phone_numbers_to_send with
      | [] => log INFO All_processed ;;; print All_processed
      | _ :: _ =>
          output_csv <- get_results ;;
          initialized <- initialize_output output_csv ;;
          if initialized : bool then
            try_finally
              (try_except
                 (open_append ;;;
                  get_browser_and_page
                    (send_messages_in_batches phone_numbers_to_send message
                       (batch_size a)))
                 (fun e =>
                    log CRITICAL (Unhandled_exception_during_execution e) ;;;
                    print (An_error_occurred e)))
              (log INFO Script_execution_completed ;;;
               print Results_saved_to ;;;
               print Check_log)
          else ret tt
      end
  end.

(** The script: the import of [utils] (which raises [FileNotFoundError]
    at its line 36 when no Chrome executable is found), then lines
    252-257. *)
Definition script (chrome_found : bool) (a : args) : M W unit :=
  (if chrome_found then ret tt
   else raise (Error (py "Chrome executable not found. Please install Google Chrome or specify the path manually."))) ;;;
  try_except (main a)
    (fun e =>
       log CRITICAL (Unhandled_exception_in_main e) ;;;
       print (An_unhandled_exception_occurred e)).

End Program.

(** ** A simulated WhatsApp Web

    A world to run the program in: a directory tells how the chat page of
    each number behaves. *)
Module Sim.
Inductive profile :=
| Registered                 (* the message box appears *)
| Invalid (reason : str)     (* the alert appears, with this text *)
| NoMessageBox               (* neither appears *)
| Broken (e : exn).          (* the navigation raises *)

Record sim := Sim {
  directory : list (str * profile);
  showing : profile;           (* the page shown now *)
  login_ok : bool;             (* whether the QR code gets scanned *)
  launch_ok : bool;            (* whether Chrome starts *)
}.

Fixpoint lookup_url (d : list (str * profile)) (url : str) : profile :=
  match d with
  | [] => Registered
  | (number, p) :: rest =>
      if decide (py "https://web.whatsapp.com/send?phone=" ++ number = url)
      then p else lookup_url rest url
  end.

Definition timeout (sel : selector) : exn :=
  TimeoutError (py "Waiting for selector failed: timeout exceeded").

Definition sim_effect (o : op) (w : sim) : res unit * sim :=
  match o with
  | Launch =>
      if launch_ok w then (Ok tt, w)
      else (Raise (Error (py "Browser closed unexpectedly")), w)
  | Goto url =>
      match lookup_url (directory w) url with
      | Broken e => (Raise e, w)
      | p => (Ok tt, Sim (directory w) p (login_ok w) (launch_ok w))
      end
  | _ => (Ok tt, w)
  end.

Definition sim_wait (sel : selector) (ms : Z) (w : sim)
  : res (option handle) * sim :=
  match sel, showing w with
  | AlertBox, Invalid _ => (Ok (Some 1%N), w)
  | MessageBox, Registered => (Ok (Some 2%N), w)
  | LoginBox, _ => if login_ok w then (Ok (Some 3%N), w) else (Raise (timeout sel), w)
  | _, _ => (Raise (timeout sel), w)
  end.

Definition sim_text (h : handle) (w : sim) : res str * sim :=
  match showing w with
  | Invalid reason => (Ok reason, w)
  | _ => (Ok [], w)
  end.

#[global] Instance sim_world : World sim := {
  effect := sim_effect;
  wait_for_selector := sim_wait;
  text_content := sim_text;
  random_draw w := (0%nat, w);
}.

(** A working browser with the given directory. *)
Definition start (d : list (str * profile)) : sim := Sim d Registered true true.
End Sim.


(** * Reading ledgers and traces *)

(** ** The done set *)

(** A row the ledger loop reads without raising: a blank line or a row of
    two columns or more. *)
Definition well_formed (l : line) : bool :=
  match l with
  | Row [] => true
  | Row (_ :: _ :: _) => true
  | _ => false
  end.

Definition readable (rows : list line) : Prop :=
  forallb well_formed rows = true.

(** [x] has a record of success among [rows]. *)
Definition sent_in (rows : list line) (x : str) : Prop :=
  ∃ c0 more, Row (c0 :: sent_successfully :: more) ∈ rows ∧ clean_number c0 = x.

(** ** Reading a trace *)

(** The pages the run navigated to, in order. *)
Definition gotos (t : list event) : list str :=
  omap (fun ev => match ev with Call (Goto url) _ => Some url | _ => None end) t.

(** The rows the run wrote, in order. *)
Definition rows_written (t : list event) : list (list str) :=
  omap (fun ev => match ev with WriteRow row => Some row | _ => None end) t.

(** The exceptions the world raised, with the calls that raised them. *)
Definition raises (t : list event) : list (op * exn) :=
  omap (fun ev => match ev with Call o (Some e) => Some (o, e) | _ => None end) t.

(** The seconds slept. *)
Definition sleeps (t : list event) : nat :=
  sum_list (omap (fun ev => match ev with Sleep n => Some n | _ => None end) t).

Definition is_call (ev : event) : bool :=
  match ev with Call _ _ => true | _ => false end.

Definition is_write (ev : event) : bool :=
  match ev with WriteRow _ => true | _ => false end.

(** What follows the last event that satisfies [mark]; nothing where no
    event does. *)
Fixpoint after_last (mark : event → bool) (t : list event) : list event :=
  match t with
  | [] => []
  | ev :: rest =>
      if existsb mark rest then after_last mark rest
      else if mark ev then rest else []
  end.

(** The seconds slept after the record was written, and after the last
    call to the page. *)
Definition pause_after_record (t : list event) : nat := sleeps (after_last is_write t).
Definition pause_after_call (t : list event) : nat := sleeps (after_last is_call t).

(** How [send_message] classifies a target, as its log tells. *)
Inductive outcome :=
| Success
| Skipped (reason : str)
| Failed (detail : option exn).   (* [None]: the message box was not found *)

Definition outcome_of_note (n : note) : option outcome :=
  match n with
  | Message_sent_successfully _ => Some Success
  | Invalid_phone_number _ reason => Some (Skipped reason)
  | Message_box_not_found _ => Some (Failed None)
  | An_error_occurred_while_sending _ e => Some (Failed (Some e))
  | _ => None
  end.

Definition outcomes (t : list event) : list outcome :=
  omap (fun ev => match ev with Log _ n => outcome_of_note n | _ => None end) t.

(** The status recorded for an outcome (lines 141, 150, 162 and 167). *)
Definition status_of (o : outcome) : str :=
  match o with
  | Success => sent_successfully
  | Skipped reason => invalid_status reason
  | Failed None => py "Failed"
  | Failed (Some e) => failed_status e
  end.

(** How [send_message] ends for an outcome: from the last thing it does
    before the record to its return. *)
Definition closing (phone_number : str) (o : outcome) (wait : nat) : list event :=
  match o with
  | Success =>
      [Sleep wait; WriteRow [phone_number; status_of o];
       Log INFO (Message_sent_successfully phone_number)]
  | Skipped reason =>
      [Log WARNING (Invalid_phone_number phone_number reason);
       WriteRow [phone_number; status_of o]]
  | Failed None =>
      [Log WARNING (Message_box_not_found phone_number);
       WriteRow [phone_number; status_of o]]
  | Failed (Some e) =>
      [Log ERROR (An_error_occurred_while_sending phone_number e);
       WriteRow [phone_number; status_of o]; Sleep 10%nat]
  end.

(** A call to the page other than a navigation. *)
Definition page_call (ev : event) : Prop :=
  match ev with
  | Call (Goto _) _ => False
  | Call _ _ => True
  | _ => False
  end.

(** The part of a [send_message] trace that talks to the page: the
    navigation, then, where it went through, the pause of 3 seconds and at
    least one more call. *)
Definition channel_part (phone_number : str) (body : list event) : Prop :=
  ∃ r0 rest,
    body = Log INFO (Processing_number phone_number)
           :: Call (Goto (chat_url phone_number)) r0 :: rest
    ∧ (rest = [] ∨ ∃ calls, rest = Sleep 3%nat :: calls ∧ calls ≠ [] ∧ Forall page_call calls).

(** An exception the inner handlers of lines 143-144 take for "no alert":
    a timeout of the wait for the alert or of the reading of its text. *)
Definition swallowed (c : op * exn) : Prop :=
  match c with
  | (WaitForSelector AlertBox _, TimeoutError _) => True
  | (TextContent _, TimeoutError _) => True
  | _ => False
  end.

(** An exception of a call is accounted for in the outcome: swallowed as
    above, or the timeout of the wait for the message box behind a plain
    [Failed], or the exception the record of failure shows. *)
Definition accounted (o : outcome) (c : op * exn) : Prop :=
  swallowed c
  ∨ (o = Failed None ∧ ∃ msg, c = (WaitForSelector MessageBox 10000, TimeoutError msg))
  ∨ o = Failed (Some (snd c)).

(** The timeout of the wait for the message box, which the handler of
    lines 148-151 takes. *)
Definition box_timeout (c : op * exn) : Prop :=
  match c with
  | (WaitForSelector MessageBox _, TimeoutError _) => True
  | _ => False
  end.

(** The exception Python raises where [message_box] is [None]: no call
    raised it. *)
Definition no_box (e : exn) : Prop :=
  e = Error (py "'NoneType' object has no attribute 'type'")
  ∨ e = Error (py "'NoneType' object has no attribute 'press'").

(** What leaves a part of the operation with the exception [e]: the call
    that raised it, alone among the exceptions of that part, or no call at
    all where the box is missing. *)
Definition leaves_with (rs : list (op * exn)) (e : exn) : Prop :=
  (∃ o, rs = [(o, e)] ∧ ¬ swallowed (o, e) ∧ ¬ box_timeout (o, e))
  ∨ (rs = [] ∧ no_box e).

(** How the exceptions raised during one target's operation decide its
    outcome.  The timeouts of the look for the alert are passed over.  A
    number is skipped only when nothing was raised, and reported as sent
    only when nothing else was.  The plain failure is the timeout of the
    wait for the message box, raised last; the failure with a text is any
    other exception: the one the last call raised, or the one of a missing
    box. *)
Definition decided_by (rs : list (op * exn)) (o : outcome) : Prop :=
  match o with
  | Success => Forall swallowed rs
  | Skipped _ => rs = []
  | Failed None =>
      ∃ pre c, rs = pre ++ [c] ∧ Forall swallowed pre ∧ box_timeout c
  | Failed (Some e) =>
      ∃ pre, Forall swallowed pre
        ∧ ((∃ o', rs = pre ++ [(o', e)]
                  ∧ ¬ swallowed (o', e) ∧ ¬ box_timeout (o', e))
           ∨ (rs = pre ∧ no_box e))
  end.

(** ** Batches *)

(** The two log lines per batch (lines 185 and 191). *)
Definition batch_note (ev : event) : bool :=
  match ev with
  | Log _ (Processing_batch _ _) | Log _ (Completed_batch _) => true
  | _ => false
  end.

(** A trace without its batch lines. *)
Definition operations (t : list event) : list event :=
  List.filter (fun ev => negb (batch_note ev)) t.

(** Two runs with the same result, the same state after, and the same
    trace apart from batch lines. *)
Definition same_operations {W A} (x y : res A * state W * list event) : Prop :=
  fst (fst x) = fst (fst y) ∧ snd (fst x) = snd (fst y)
  ∧ operations (snd x) = operations (snd y).

(** The loop of [send_messages_in_batches] with the batches taken out. *)
Definition send_to_each {W} `{World W} (phone_numbers : list str)
    (message : str) : M W unit :=
  log INFO (Starting_to_send (length phone_numbers)) ;;;
  for_each phone_numbers (send_and_pause message) ;;;
  log INFO Completed_sending.

(** The page of the login, where [handle_qr_scan] navigates. *)
Definition qr_url : str := py "https://web.whatsapp.com".

(** ** What a run respects

    A run [respects G] from a state when the results file after it is the
    file before it with rows added at its end, and every page it navigates
    to satisfies [G]. *)
Definition respects {W} `{World W} (G : str → Prop) {A} (m : M W A)
    (st : state W) : Prop :=
  default [] (results st) `prefix_of` default [] (results (snd (fst (m st))))
  ∧ Forall G (gotos (snd (m st))).

(** ** Inputs to run the program on *)

(** One row of one column per raw entry, under a header. *)
Definition phone_header : line := Row [py "Phone Number"].

Definition phone_file (raw : list str) : file :=
  Some (phone_header :: ((fun entry => Row [entry]) <$> raw)).

(** A working page and a results file with its header alone. *)
Definition one_number : state Sim.sim :=
  State (Sim.start []) (Some [Row header]).

(** A page on which 222 is not a WhatsApp number, an input list with that
    number alone, and the ledger the first run leaves. *)
Definition invalid_222 : Sim.sim := Sim.start [(py "222", Sim.Invalid (py "invalid"))].

Definition only_222 : args :=
  Args (phone_file [py "222"]) (Some (py "hello")) 5.

Definition ledger_after_222 : file :=
  Some [Row header; Row [py "222"; py "Failed - Invalid number: invalid"]].

(** Chrome does not start; the QR code is never scanned. *)
Definition no_launch : Sim.sim := Sim.Sim [] Sim.Registered true false.

(** A page on which the chat of 111 shows no message box. *)
Definition no_box_111 : Sim.sim := Sim.start [(py "111", Sim.NoMessageBox)].


(** ** More ways to read a message and a run *)

(** ["\n".join(lines)], the inverse of [split_lines]. *)
Fixpoint join_lines (lines : list str) : str :=
  match lines with
  | [] => []
  | [l] => l
  | l :: rest => l ++ 10%N :: join_lines rest
  end.

(** A number in canonical form: decimal digits only, left as it is by
    canonicalization. *)
Definition canonical (x : str) : Prop :=
  Forall (fun c => isdecimal c = true) x ∧ clean_number x = x.

(** The texts typed into the message box, in order. *)
Definition typed_texts (t : list event) : list str :=
  omap (fun ev => match ev with Call (TypeText _ text) _ => Some text | _ => None end) t.

(** The calls of a trace, in order, without what they raised. *)
Definition calls (t : list event) : list op :=
  omap (fun ev => match ev with Call o _ => Some o | _ => None end) t.

(** A call that only reads the page: it waits for an element or takes the
    text of one. *)
Definition reads_page (o : op) : Prop :=
  match o with
  | WaitForSelector _ _ | TextContent _ => True
  | _ => False
  end.


(** The typing of one line into the message box [element] (lines 155-158)
    and of a whole message (lines 154-159), as calls. *)
Definition typing_of_line (element : handle) (text : str) : list op :=
  [TypeText element text; KeyboardDown (py "Shift"); KeyboardPress (py "Enter");
   KeyboardUp (py "Shift")].

Definition typing_of_message (element : handle) (message : str) : list op :=
  concat (typing_of_line element <$> split_lines message)
  ++ [Press element (py "Enter")].

(** The session opens from world [w], leaving world [w']: Chrome starts, a
    page is created, the login page loads and the chat list appears within
    the minute (lines 26-28 with utils.py, lines 40-54). *)
Definition session_opens {W} `{World W} (w w' : W) : Prop :=
  ∃ w1 w2 w3 element,
    effect Launch w = (Ok tt, w1)
    ∧ effect NewPage w1 = (Ok tt, w2)
    ∧ effect (Goto qr_url) w2 = (Ok tt, w3)
    ∧ wait_for_selector LoginBox 60000 w3 = (Ok element, w').

(** What a run shows while the session opens. *)
Definition opening : list event :=
  [Call Launch None; Call NewPage None; Call (Goto qr_url) None;
   Print Please_scan_the_QR_code; Call (WaitForSelector LoginBox 60000) None].

(** The ledger a run starts to append to: the file as it is, or the
    header alone when lines 228-232 have just created it. *)
Definition started_ledger (f : file) : list line :=
  match f with
  | Some rows => rows
  | None => [Row header]
  end.

(** The results file is there when the session is about to start: it
    existed, or creating it (line 230) went through, from world [w] to
    world [w0]. *)
Definition results_ready {W} `{World W} (f : file) (w w0 : W) : Prop :=
  match f with
  | Some _ => w0 = w
  | None => effect (OpenResults Write_) w = (Ok tt, w0)
  end.



(** The message [read_message_from_text] returns. *)
Definition message_read (f : option str) : str :=
  match f with
  | Some text => strip (universal_newlines text)
  | None => []
  end.

(** An event that is neither a critical line of the log nor the typing of
    a text. *)
Definition aside (ev : event) : Prop :=
  match ev with
  | Log CRITICAL _ => False
  | Call (TypeText _ _) _ => False
  | _ => True
  end.


(** An event other than the typing of a text that is not in [allowed]. *)
Definition types_only (allowed : list str) (ev : event) : Prop :=
  match ev with
  | Call (TypeText _ text) _ => text ∈ allowed
  | _ => True
  end.

(** ** A scripted world

    A world that answers each call with the next answer of a list, whatever
    the call; past the end of the list, and where the answer is not of the
    kind the call expects, the call succeeds. *)
Module Script.
Inductive answer :=
| Fine
| Raises (e : exn)
| Element (element : option handle)
| Text (text : str)
| Draw (k : nat).

Definition next (w : list answer) : list answer := tail w.

Definition script_effect (o : op) (w : list answer) : res unit * list answer :=
  match w with
  | Raises e :: _ => (Raise e, next w)
  | _ => (Ok tt, next w)
  end.

Definition script_wait (sel : selector) (ms : Z) (w : list answer)
  : res (option handle) * list answer :=
  match w with
  | Raises e :: _ => (Raise e, next w)
  | Element element :: _ => (Ok element, next w)
  | _ => (Ok (Some 0%N), next w)
  end.

Definition script_text (element : handle) (w : list answer)
  : res str * list answer :=
  match w with
  | Raises e :: _ => (Raise e, next w)
  | Text text :: _ => (Ok text, next w)
  | _ => (Ok [], next w)
  end.

Definition script_draw (w : list answer) : nat * list answer :=
  match w with
  | Draw k :: _ => (k, next w)
  | _ => (0%nat, w)
  end.

#[global] Instance script_world : World (list answer) := {
  effect := script_effect;
  wait_for_selector := script_wait;
  text_content := script_text;
  random_draw := script_draw;
}.
End Script.


(** * The older sender of [utils.py]

    [main.py] imports [get_browser_instance] and [handle_qr_scan] from
    [utils.py]; run as a script, [utils.py] is a sender of its own, with
    its own readers and its own loop over the numbers. *)
Module Utils.
Section Program.
Context {W : Type} `{World W}.

(** The loop of [read_phone_numbers_from_csv] (utils.py, lines 96-97):
    [row[0]] of every row, as it is; the empty row has no [row[0]]. *)
Fixpoint first_columns (rows : list line) : res (list str) :=
  match rows with
  | [] => Ok []
  | Corrupt :: _ => Raise (Error (py "cannot read row"))
  | Row [] :: _ => Raise (Error (py "list index out of range"))
  | Row (c0 :: _) :: rest =>
      match first_columns rest with
      | Ok phone_numbers => Ok (c0 :: phone_numbers)
      | Raise e => Raise e
      end
  end.

(** [read_phone_numbers_from_csv] (utils.py, lines 91-98); [next(reader)]
    raises [StopIteration], whose text is empty, on a file without a first
    row.  Nothing is caught. *)
Definition read_phone_numbers_from_csv (f : file) : res (list str) :=
  match f with
  | None => Raise (Error (py "cannot open file"))
  | Some [] => Raise (Error [])
  | Some (Corrupt :: _) => Raise (Error (py "cannot read row"))
  | Some (Row _ :: rest) => first_columns rest
  end.

(** [read_message_from_text] (utils.py, lines 100-103), with the same
    translation of line endings. *)
Definition read_message_from_text (f : option str) : res str :=
  match f with
  | Some text => Ok (strip (universal_newlines text))
  | None => Raise (Error (py "cannot open file"))
  end.

(** A value or an exception computed without the world. *)
Definition lift {A} (r : res A) : M W A := fun st => (r, st, []).

(** The body of the loop of utils.py, lines 75-79: Enter is pressed in the
    message box. *)
Definition type_line (message_box : option handle) (line : str) : M W unit :=
  box_type message_box line ;;;
  call (KeyboardDown (py "Shift")) ;;;
  box_press message_box (py "Enter") ;;;
  call (KeyboardUp (py "Shift")).

(** The body of the loop over the numbers (utils.py, lines 69-87). *)
Definition send_to_number (message phone_number : str) : M W unit :=
  try_except
    (call (Goto (chat_url phone_number)) ;;;
     sleep 5 ;;;
     message_box <- waitForSelector MessageBox 60000 ;;
     for_each (split_lines message) (type_line message_box) ;;;
     box_press message_box (py "Enter") ;;;
     wait <- random_choice [1; 2; 3]%nat ;;
     sleep wait ;;;
     writerow [phone_number; sent_successfully])
    (fun e =>
       print (An_error_occurred_while_sending phone_number e) ;;;
       writerow [phone_number; py "Failed"] ;;;
       sleep 10).

(** [send_messages_to_multiple_numbers] (utils.py, lines 56-89) from its
    line 65 on, and whole. *)
Definition send_on_new_page (phone_numbers : list str) (message : str)
  : M W unit :=
  call NewPage ;;;
  handle_qr_scan ;;;
  for_each phone_numbers (send_to_number message) ;;;
  call PageClose.

Definition send_messages_to_multiple_numbers (phone_numbers : list str)
    (message : str) : M W unit :=
  call Launch ;;;
  send_on_new_page phone_numbers message.

(** The script (utils.py, line 36 and lines 111-134).  [close_browser] in
    the [finally] block closes the browser if [get_browser_instance] has
    set [browser_instance], that is, if Chrome was started: the block is
    split where that is known. *)
Definition script (chrome_found : bool) (phone_csv : file)
    (message_txt : option str) : M W unit :=
  (if chrome_found then ret tt
   else raise (Error (py "Chrome executable not found. Please install Google Chrome or specify the path manually."))) ;;;
  phone_numbers <- lift (read_phone_numbers_from_csv phone_csv) ;;
  message <- lift (read_message_from_text message_txt) ;;
  opened <- attempt (open_write ;;; writerow header) ;;
  match opened with
  | Raise e => raise e
  | Ok _ =>
      launched <- attempt (call Launch) ;;
      match launched with
      | Raise e => raise e
      | Ok _ =>
          try_finally
            (send_on_new_page phone_numbers message ;;;
             print Results_saved_to)
            (call BrowserClose)
      end
  end.
End Program.
End Utils.

(** The status of a record of the older sender is one of two. *)
Definition old_record (number : str) (row : list str) : Prop :=
  row = [number; sent_successfully] ∨ row = [number; py "Failed"].

(** * The checker of [whatsapp_checker.py]

    The script that comes before the sender: it visits the chat page of
    every number of its input list and files the number in
    [whatsapp_numbers.csv] -- the default input list of [main.py] -- or,
    with a reason, in [non_whatsapp_numbers.csv]. *)
Module Checker.

(** The elements the checker looks for, by their selectors:
    [div[contenteditable=true][data-tab=10]], [div._3J6wB] and
    [div[data-animate-modal-body=true]]. *)
Inductive selector := ChatInput | InvalidNumber | ErrorModal.

(** The two files it appends to. *)
Inductive output := WhatsappCsv | NonWhatsappCsv.

(** The calls that return nothing the program looks at. *)
Inductive op :=
| Launch
| NewPage
| Goto (url : str)
| WaitForLogin
| PageClose
| BrowserClose
| OpenWrite (o : output)
| OpenAppend (o : output).

Inductive note :=
| Error_within_browser_context (e : exn)
| Error_closing_browser_page (e : exn)
| Failed_to_append_number (o : output) (e : exn)
| Failed_to_read_numbers (o : output) (e : exn)
| Attempt_failed (attempt : Z) (phone_number : str) (e : exn)
| Starting_to_check (total_numbers : nat)
| Processing_batch (number : Z) (size : nat)
| Is_on_WhatsApp (phone_number : str)
| Is_not_on_WhatsApp (phone_number error_message : str)
| Completed_checking
| Failed_to_read_phone_numbers (e : exn)
| No_phone_numbers
| Failed_to_initialize (o : output) (e : exn)
| Numbers_saved_to (o : output)
| Script_execution_completed
| Unhandled_exception (e : exn)
| Please_scan_the_QR_code.

(** The trace: a [querySelector] and a reading of a text are recorded with
    what they returned. *)
Inductive event :=
| Log (lvl : level) (n : note)
| Print (n : note)
| Sleep (seconds : nat)
| Call (o : op) (raised : option exn)
| Query (sel : selector) (r : res (option handle))
| Text (element : handle) (r : res str)
| WriteRow (o : output) (row : list str).

Class Browser (W : Type) := {
  effect : op → W → res unit * W;
  query_selector : selector → W → res (option handle) * W;
  text_content : handle → W → res str * W;
}.

(** The world and the two output files, [None] while they do not exist. *)
Record state (W : Type) := State {
  world : W;
  whatsapp_csv : file;
  non_whatsapp_csv : file;
}.
Arguments State {W} world whatsapp_csv non_whatsapp_csv.
Arguments world {W} s.
Arguments whatsapp_csv {W} s.
Arguments non_whatsapp_csv {W} s.

Definition file_of {W} (o : output) (st : state W) : file :=
  match o with
  | WhatsappCsv => whatsapp_csv st
  | NonWhatsappCsv => non_whatsapp_csv st
  end.

Definition with_file {W} (o : output) (f : file) (st : state W) : state W :=
  match o with
  | WhatsappCsv => State (world st) f (non_whatsapp_csv st)
  | NonWhatsappCsv => State (world st) (whatsapp_csv st) f
  end.

Definition C (W A : Type) : Type := state W → res A * state W * list event.

(** ** Reading the files *)

(** The set comprehension of [read_existing_numbers] (line 61): an
    exception of the reader leaves it without a set. *)
Fixpoint existing_rows (rows : list line) : res (gset str) :=
  match rows with
  | [] => Ok ∅
  | Corrupt :: _ => Raise (Error (py "cannot read row"))
  | Row [] :: rest => existing_rows rest
  | Row (c0 :: _) :: rest =>
      match existing_rows rest with
      | Ok numbers => Ok ({[ c0 ]} ∪ numbers)
      | Raise e => Raise e
      end
  end.

(** The value and the exception caught, if any, of
    [read_existing_numbers] (lines 51-64); [None] is the file that does
    not exist. *)
Definition scan_existing_numbers (f : file) : gset str * option exn :=
  match f with
  | None => (∅, None)
  | Some rows =>
      match skip_header rows with
      | Raise e => (∅, Some e)
      | Ok rest =>
          match existing_rows rest with
          | Ok numbers => (numbers, None)
          | Raise e => (∅, Some e)
          end
      end
  end.

(** The loop of [read_phone_numbers_from_csv] (lines 178-180): the
    entries as they are. *)
Fixpoint raw_rows (rows : list line) (phone_numbers : list str)
  : list str * option exn :=
  match rows with
  | [] => (phone_numbers, None)
  | Corrupt :: _ => (phone_numbers, Some (Error (py "cannot read row")))
  | Row [] :: rest => raw_rows rest phone_numbers
  | Row (c0 :: _) :: rest => raw_rows rest (phone_numbers ++ [c0])
  end.

(** [read_phone_numbers_from_csv] (lines 166-183) *)
Definition scan_phone_numbers (f : file) : list str * option exn :=
  match f with
  | None => ([], Some (Error (py "cannot open file")))
  | Some rows =>
      match skip_header rows with
      | Raise e => ([], Some e)
      | Ok rest => raw_rows rest []
      end
  end.

Declare Scope checker_scope.
Local Open Scope checker_scope.

Section Program.
Context {W : Type} `{Browser W}.

Definition ret {A} (a : A) : C W A := fun st => (Ok a, st, []).

Definition bind {A B} (m : C W A) (k : A → C W B) : C W B :=
  fun st =>
    match m st with
    | (Ok a, st1, t1) => let '(r, st2, t2) := k a st1 in (r, st2, t1 ++ t2)
    | (Raise e, st1, t1) => (Raise e, st1, t1)
    end.

Notation "x <- m ;; k" := (bind m (fun x => k))
  (at level 100, m at next level, k at level 200, right associativity,
   only parsing) : checker_scope.
Notation "m ;;; k" := (bind m (fun _ => k))
  (at level 100, k at level 200, right associativity, only parsing)
  : checker_scope.

Definition raise {A} (e : exn) : C W A := fun st => (Raise e, st, []).

Definition try_except {A} (m : C W A) (h : exn → C W A) : C W A :=
  fun st =>
    match m st with
    | (Ok a, st1, t1) => (Ok a, st1, t1)
    | (Raise e, st1, t1) => let '(r, st2, t2) := h e st1 in (r, st2, t1 ++ t2)
    end.

Definition try_finally {A} (m : C W A) (f : C W unit) : C W A :=
  fun st =>
    let '(r, st1, t1) := m st in
    let '(rf, st2, t2) := f st1 in
    (match rf with Ok _ => r | Raise e => Raise e end, st2, t1 ++ t2).

Definition emit (ev : event) : C W unit := fun st => (Ok tt, st, [ev]).
Definition log (lvl : level) (n : note) : C W unit := emit (Log lvl n).
Definition print (n : note) : C W unit := emit (Print n).
Definition sleep (n : nat) : C W unit := emit (Sleep n).

Definition call (o : op) : C W unit :=
  fun st =>
    let '(r, w) := effect o (world st) in
    (r, State w (whatsapp_csv st) (non_whatsapp_csv st), [Call o (raised r)]).

(** [await page.querySelector(sel)] *)
Definition querySelector (sel : selector) : C W (option handle) :=
  fun st =>
    let '(r, w) := query_selector sel (world st) in
    (r, State w (whatsapp_csv st) (non_whatsapp_csv st), [Query sel r]).

(** [await page.evaluate('(element) => element.textContent', element)] *)
Definition evaluate_textContent (element : handle) : C W str :=
  fun st =>
    let '(r, w) := text_content element (world st) in
    (r, State w (whatsapp_csv st) (non_whatsapp_csv st), [Text element r]).

(** [writer.writerow(row)] on a handle of an output file. *)
Definition writerow (o : output) (row : list str) : C W unit :=
  fun st =>
    (Ok tt, with_file o (Some (default [] (file_of o st) ++ [Row row])) st,
     [WriteRow o row]).

Fixpoint for_each {A} (l : list A) (body : A → C W unit) : C W unit :=
  match l with
  | [] => ret tt
  | x :: rest => bind (body x) (fun _ => for_each rest body)
  end.

(** [handle_qr_scan] (utils.py, lines 46-54) *)
Definition handle_qr_scan : C W unit :=
  call (Goto (py "https://web.whatsapp.com")) ;;;
  print Please_scan_the_QR_code ;;;
  call WaitForLogin.

(** [async with get_browser_and_page() as page: body] (lines 17-35): the
    session is set up before the [try]. *)
Definition get_browser_and_page (body : C W unit) : C W unit :=
  call Launch ;;;
  call NewPage ;;;
  handle_qr_scan ;;;
  try_finally
    (try_except body
       (fun e => log ERROR (Error_within_browser_context e) ;;; raise e))
    (try_except
       (call PageClose ;;; call BrowserClose)
       (fun e => log ERROR (Error_closing_browser_page e))).

(** [append_number_to_file] (lines 37-49); [reason] is [None] without
    [include_reason]. *)
Definition append_number_to_file (number : str) (o : output)
    (reason : option str) : C W unit :=
  try_except
    (call (OpenAppend o) ;;;
     writerow o (match reason with
                 | Some reason => [number; reason]
                 | None => [number]
                 end))
    (fun e => log ERROR (Failed_to_append_number o e)).

(** [read_existing_numbers] (lines 51-64) on an output file. *)
Definition read_existing_numbers (o : output) : C W (gset str) :=
  fun st =>
    let '(numbers, err) := scan_existing_numbers (file_of o st) in
    (Ok numbers, st,
     match err with
     | Some e => [Log ERROR (Failed_to_read_numbers o e)]
     | None => []
     end).

(** The [try] block of [is_number_on_whatsapp] (lines 77-102): the value
    returned. *)
Definition look_up (phone_number : str) : C W (bool * str) :=
  let cleaned_number := clean_number phone_number in
  call (Goto (chat_url cleaned_number)) ;;;
  sleep 5 ;;;
  chat_input <- querySelector ChatInput ;;
  match chat_input with
  | Some _ => ret (true, [])
  | None =>
      invalid_number_element <- querySelector InvalidNumber ;;
      match invalid_number_element with
      | Some element =>
          error_text <- evaluate_textContent element ;;
          ret (false, strip error_text)
      | None =>
          error_element <- querySelector ErrorModal ;;
          match error_element with
          | Some element =>
              error_text <- evaluate_textContent element ;;
              ret (false, strip error_text)
          | None => ret (false, py "Number not found on WhatsApp")
          end
      end
  end.

(** The loop of [is_number_on_whatsapp] over the attempts left; the
    function returns [None] when the loop ends. *)
Fixpoint attempts (left : list Z) (max_retries : Z) (phone_number : str)
  : C W (option (bool * str)) :=
  match left with
  | [] => ret None
  | attempt :: rest =>
      try_except
        (answer <- look_up phone_number ;; ret (Some answer))
        (fun e =>
           log WARNING (Attempt_failed attempt phone_number e) ;;;
           if attempt =? max_retries then ret (Some (false, exn_str e))
           else sleep 2 ;;; attempts rest max_retries phone_number)
  end.

(** [is_number_on_whatsapp] (lines 66-108); the attempts are
    [range(1, max_retries + 1)]. *)
Definition is_number_on_whatsapp (phone_number : str) (max_retries : Z)
  : C W (option (bool * str)) :=
  attempts (seqZ 1 max_retries) max_retries phone_number.

(** The body of the inner loop of [check_numbers_on_whatsapp] (lines
    132-140); unpacking [None] raises [TypeError]. *)
Definition check_and_file (phone_number : str) : C W unit :=
  answer <- is_number_on_whatsapp phone_number 3 ;;
  match answer with
  | None => raise (Error (py "cannot unpack non-iterable NoneType object"))
  | Some (true, _) =>
      log INFO (Is_on_WhatsApp phone_number) ;;;
      append_number_to_file phone_number WhatsappCsv None
  | Some (false, error_message) =>
      log INFO (Is_not_on_WhatsApp phone_number error_message) ;;;
      append_number_to_file phone_number NonWhatsappCsv (Some error_message)
  end ;;;
  sleep 1.

(** [[num for num in phone_numbers if num not in processed_numbers]]
    (line 123) *)
Definition to_check (phone_numbers : list str) (processed_numbers : gset str)
  : list str :=
  filter (fun num => num ∉ processed_numbers) phone_numbers.

(** [check_numbers_on_whatsapp] (lines 110-142) *)
Definition check_numbers_on_whatsapp (phone_numbers : list str)
    (batch_size : Z) : C W unit :=
  existing_whatsapp_numbers <- read_existing_numbers WhatsappCsv ;;
  existing_non_whatsapp_numbers <- read_existing_numbers NonWhatsappCsv ;;
  let processed_numbers :=
    existing_whatsapp_numbers ∪ existing_non_whatsapp_numbers in
  let phone_numbers_to_check := to_check phone_numbers processed_numbers in
  let total_numbers := length phone_numbers_to_check in
  log INFO (Starting_to_check total_numbers) ;;;
  get_browser_and_page
    (match py_range (Z.of_nat total_numbers) batch_size with
     | Raise e => raise e
     | Ok indices =>
         for_each indices (fun i =>
           let batch := py_slice phone_numbers_to_check i (i + batch_size) in
           log INFO (Processing_batch (i / batch_size + 1) (length batch)) ;;;
           for_each batch check_and_file)
     end) ;;;
  log INFO Completed_checking.

(** Lines 206-212 for one output file. *)
Definition initialize (o : output) (headers : list str) : C W unit :=
  fun st =>
    match file_of o st with
    | Some _ => (Ok tt, st, [])
    | None =>
        try_except
          (call (OpenWrite o) ;;;
           (fun st' => (Ok tt, with_file o (Some []) st', [])) ;;;
           writerow o headers)
          (fun e => log ERROR (Failed_to_initialize o e)) st
    end.

(** [main] (lines 185-218) *)
Definition main (phone_csv : file) : C W unit :=
  let '(phone_numbers, err) := scan_phone_numbers phone_csv in
  match err with
  | Some e => log ERROR (Failed_to_read_phone_numbers e)
  | None => ret tt
  end ;;;
  match phone_numbers with
  | [] => log ERROR No_phone_numbers
  | _ :: _ =>
      initialize WhatsappCsv [py "Phone Number"] ;;;
      initialize NonWhatsappCsv [py "Phone Number"; py "Reason"] ;;;
      check_numbers_on_whatsapp phone_numbers 5 ;;;
      print (Numbers_saved_to WhatsappCsv) ;;;
      print (Numbers_saved_to NonWhatsappCsv) ;;;
      log INFO Script_execution_completed
  end.

(** The script: the import of [utils], then lines 220-224. *)
Definition script (chrome_found : bool) (phone_csv : file) : C W unit :=
  (if chrome_found then ret tt
   else raise (Error (py "Chrome executable not found. Please install Google Chrome or specify the path manually."))) ;;;
  try_except (main phone_csv)
    (fun e => log CRITICAL (Unhandled_exception e)).
End Program.

(** ** Reading a trace of the checker *)

Definition gotos (t : list event) : list str :=
  omap (fun ev => match ev with Call (Goto url) _ => Some url | _ => None end) t.

(** The attempts that failed, with their numbers and their exceptions. *)
Definition failures (t : list event) : list (Z * exn) :=
  omap (fun ev => match ev with
                  | Log _ (Attempt_failed attempt _ e) => Some (attempt, e)
                  | _ => None
                  end) t.

(** The rows written to an output file. *)
Definition rows_written (o : output) (t : list event) : list (list str) :=
  omap (fun ev => match ev with
                  | WriteRow o' row =>
                      match o, o' with
                      | WhatsappCsv, WhatsappCsv
                      | NonWhatsappCsv, NonWhatsappCsv => Some row
                      | _, _ => None
                      end
                  | _ => None
                  end) t.

(** The seconds slept. *)
Definition sleeps (t : list event) : nat :=
  sum_list (omap (fun ev => match ev with Sleep n => Some n | _ => None end) t).

(** The calls that close something. *)
Definition closes (t : list event) : list op :=
  omap (fun ev => match ev with
                  | Call PageClose _ => Some PageClose
                  | Call BrowserClose _ => Some BrowserClose
                  | _ => None
                  end) t.

(** The numbers a run has found on WhatsApp, as it logs them. *)
Definition found_on_whatsapp (t : list event) : list str :=
  omap (fun ev => match ev with
                  | Log _ (Is_on_WhatsApp phone_number) => Some phone_number
                  | _ => None
                  end) t.

(** The pauses of 2 seconds between attempts. *)
Definition retry_pauses (t : list event) : nat :=
  length (omap (fun ev => match ev with
                          | Sleep 2 => Some tt
                          | _ => None
                          end) t).

(** The appends that failed. *)
Definition append_failures (t : list event) : list (output * exn) :=
  omap (fun ev => match ev with
                  | Log _ (Failed_to_append_number o e) => Some (o, e)
                  | _ => None
                  end) t.

(** A trace that files nothing: no row written, no number reported as
    found, no append tried, nothing closed. *)
Definition files_nothing (t : list event) : Prop :=
  rows_written WhatsappCsv t = [] ∧ rows_written NonWhatsappCsv t = []
  ∧ found_on_whatsapp t = [] ∧ append_failures t = [] ∧ closes t = [].

(** The other output file. *)
Definition other (o : output) : output :=
  match o with
  | WhatsappCsv => NonWhatsappCsv
  | NonWhatsappCsv => WhatsappCsv
  end.

(** [row[0]] of a row that has one. *)
Definition first_column (ln : line) : option str :=
  match ln with
  | Row (c0 :: _) => Some c0
  | _ => None
  end.

Definition is_corrupt (ln : line) : bool :=
  match ln with
  | Corrupt => true
  | Row _ => false
  end.

(** An output file after a run: as it was where the run wrote no row to
    it, else with the rows appended. *)
Definition grown (f : file) (rows : list (list str)) : file :=
  match rows with
  | [] => f
  | _ :: _ => Some (default [] f ++ (Row <$> rows))
  end.

(** What every run of the checker keeps to: each output file is the file
    before with the rows the run wrote to it appended, and, if no append
    failed, the rows written to [whatsapp_numbers.csv] are the numbers the
    run reports as found, one row of one column each, in order. *)
Definition files_follow {W A} (st : state W) (x : res A * state W * list event)
  : Prop :=
  (∀ o, file_of o (snd (fst x)) = grown (file_of o st) (rows_written o (snd x)))
  ∧ (append_failures (snd x) = [] →
     rows_written WhatsappCsv (snd x)
     = (fun number => [number]) <$> found_on_whatsapp (snd x)).

(** A browser that answers each call with the next answer of a list, as
    the scripted world of the sender does; a [querySelector] finds
    nothing unless the list gives it an element. *)
Definition script_effect (o : op) (w : list Script.answer)
  : res unit * list Script.answer :=
  match w with
  | Script.Raises e :: _ => (Raise e, tail w)
  | _ => (Ok tt, tail w)
  end.

Definition script_query (sel : selector) (w : list Script.answer)
  : res (option handle) * list Script.answer :=
  match w with
  | Script.Raises e :: _ => (Raise e, tail w)
  | Script.Element element :: _ => (Ok element, tail w)
  | _ => (Ok None, tail w)
  end.

#[global] Instance script_browser : Browser (list Script.answer) := {
  effect := script_effect;
  query_selector := script_query;
  text_content := Script.script_text;
}.
End Checker.

(** * Properties *)

(** ** Canonical form *)

Lemma clean_number_filter (x : str) : clean_number x = List.filter isdecimal x.
Proof.
  unfold clean_number, non_digit.
  induction x as [|c x IH]; simpl; [done|].
  rewrite IH. by destruct (isdecimal c).
Qed.

Lemma clean_number_app (x y : str) :
  clean_number (x ++ y) = clean_number x ++ clean_number y.
Proof. rewrite !clean_number_filter. apply List.filter_app. Qed.

Lemma clean_number_all_digits (x : str) :
  Forall (fun c => isdecimal c = true) (clean_number x).
Proof.
  rewrite clean_number_filter. apply List.Forall_forall.
  intros c Hc. by apply List.filter_In in Hc as [_ ?].
Qed.

Lemma clean_number_of_digits (x : str) :
  Forall (fun c => isdecimal c = true) x → clean_number x = x.
Proof.
  rewrite clean_number_filter.
  induction 1 as [|c x Hc _ IH]; simpl; [done|]. by rewrite Hc, IH.
Qed.

Lemma clean_number_sublist (x : str) : sublist (clean_number x) x.
Proof.
  rewrite clean_number_filter.
  induction x as [|c x IH]; simpl; [constructor|].
  destruct (isdecimal c); by constructor.
Qed.

Lemma clean_number_greatest (x d : str) :
  sublist d x → Forall (fun c => isdecimal c = true) d →
  sublist d (clean_number x).
Proof.
  rewrite clean_number_filter.
  induction 1 as [|c d x _ IH|c d x _ IH]; intros Hd; simpl.
  - constructor.
  - inversion Hd as [|? ? Hc Hd']; subst. rewrite Hc. constructor. by apply IH.
  - destruct (isdecimal c); [constructor|]; by apply IH.
Qed.

(** ** Loading the input list *)

Lemma phone_rows_all_rows (rows : list (list str)) (acc : list str) :
  phone_rows (Row <$> rows) acc = (acc ++ (clean_number <$> omap head rows), None).
Proof.
  revert acc. induction rows as [|r rows IH]; intros acc; simpl.
  - by rewrite app_nil_r.
  - destruct r as [|c0 r]; simpl; [apply IH|].
    rewrite IH. by rewrite <- app_assoc.
Qed.

(** ** The done set *)


Lemma processed_rows_app (pre post : list line) (acc : gset str) :
  readable pre →
  processed_rows (pre ++ post) acc = processed_rows post (fst (processed_rows pre acc)).
Proof.
  revert acc. induction pre as [|l pre IH]; intros acc Hr; simpl; [done|].
  unfold readable in Hr. simpl in Hr. apply andb_true_iff in Hr as [Hl Hr].
  destruct l as [[|c0 [|c1 more]]|]; simpl in Hl; try done.
  - by apply IH.
  - destruct (decide (c1 = sent_successfully)); by apply IH.
Qed.

Lemma processed_rows_readable (rows : list line) (acc : gset str) :
  readable rows → snd (processed_rows rows acc) = None.
Proof.
  revert acc. induction rows as [|l rows IH]; intros acc Hr; simpl; [done|].
  unfold readable in Hr. simpl in Hr. apply andb_true_iff in Hr as [Hl Hr].
  destruct l as [[|c0 [|c1 more]]|]; simpl in Hl; try done.
  - by apply IH.
  - destruct (decide (c1 = sent_successfully)); by apply IH.
Qed.

Lemma processed_rows_elem (rows : list line) (acc : gset str) (x : str) :
  readable rows →
  x ∈ fst (processed_rows rows acc) ↔ x ∈ acc ∨ sent_in rows x.
Proof.
  revert acc. induction rows as [|l rows IH]; intros acc Hr; simpl.
  - split; [auto|]. intros [?|(c0 & more & Hin & _)]; [done|]. by apply elem_of_nil in Hin.
  - unfold readable in Hr. simpl in Hr. apply andb_true_iff in Hr as [Hl Hr].
    assert (Hcons : ∀ y, sent_in rows y → sent_in (l :: rows) y).
    { intros y (c0 & more & Hin & Hc). exists c0, more. split; [by right|done]. }
    destruct l as [[|c0 [|c1 more]]|]; simpl in Hl; try done.
    + rewrite IH by done. split; intros [?|Hs]; auto.
      right. destruct Hs as (c0 & more & Hin & Hc).
      apply elem_of_cons in Hin as [?|Hin]; [done|]. by exists c0, more.
    + destruct (decide (c1 = sent_successfully)) as [->|Hne]; rewrite IH by done.
      * rewrite elem_of_union, elem_of_singleton. split.
        -- intros [[?| ->]|Hs]; auto. right. exists c0, more. split; [by left|done].
        -- intros [?|Hs]; auto. destruct Hs as (c0' & more' & Hin & Hc).
           apply elem_of_cons in Hin as [Heq|Hin].
           ++ inversion Heq; subst. auto.
           ++ right. by exists c0', more'.
      * split; intros [?|Hs]; auto. right.
        destruct Hs as (c0' & more' & Hin & Hc).
        apply elem_of_cons in Hin as [Heq|Hin]; [by inversion Heq; subst|].
        by exists c0', more'.
Qed.

(** Appending a record whose status is not the success label leaves the
    done set as it was, whatever the ledger holds. *)
Lemma processed_rows_snoc_other (rows : list line) (acc : gset str)
    (number status : str) :
  status ≠ sent_successfully →
  fst (processed_rows (rows ++ [Row [number; status]]) acc)
  = fst (processed_rows rows acc).
Proof.
  intros Hne. revert acc. induction rows as [|l rows IH]; intros acc; simpl.
  - by destruct (decide (status = sent_successfully)).
  - destruct l as [[|c0 [|c1 more]]|]; simpl; try done.
    destruct (decide (c1 = sent_successfully)); apply IH.
Qed.

Lemma elem_of_to_send (phone_numbers : list str) (done : gset str) (x : str) :
  x ∈ to_send phone_numbers done ↔ x ∈ phone_numbers ∧ x ∉ done.
Proof. unfold to_send. rewrite list_elem_of_filter. tauto. Qed.

(** ** Runs of [send_message] *)

Section Runs.
Context {W : Type} `{World W}.

Ltac ask_world :=
  match goal with
  | |- context [effect ?o ?w] =>
      let E := fresh "E" in
      destruct (effect o w) as [[[]|?] ?] eqn:E; simpl
  | |- context [wait_for_selector ?s ?ms ?w] =>
      let E := fresh "E" in
      destruct (wait_for_selector s ms w) as [[[?|]|[?|?]] ?] eqn:E; simpl
  | |- context [text_content ?h ?w] =>
      let E := fresh "E" in
      destruct (text_content h w) as [[?|[?|?]] ?] eqn:E; simpl
  | |- context [random_draw ?w] =>
      let E := fresh "E" in
      destruct (random_draw w) as [? ?] eqn:E; simpl
  end.

Lemma bind_run {A B} (m : M W A) (k : A → M W B) st r st1 t1 :
  m st = (r, st1, t1) →
  bind m k st
  = match r with
    | Ok a => let '(r2, st2, t2) := k a st1 in (r2, st2, t1 ++ t2)
    | Raise e => (Raise e, st1, t1)
    end.
Proof. intros E. unfold bind. rewrite E. by destruct r. Qed.

Lemma type_line_run (message_box : option handle) (line : str)
    (w : W) (f : file) :
  ∃ r w' calls,
    type_line message_box line (State w f) = (r, State w' f, calls)
    ∧ Forall page_call calls
    ∧ match r with
      | Ok _ => raises calls = []
      | Raise e => Forall (fun c => snd c = e) (raises calls)
      end.
Proof.
  unfold type_line, bind, box_type, call, raise.
  destruct message_box as [h|]; simpl; repeat ask_world;
    eexists _, _, _; (split; [reflexivity|]); split; repeat constructor.
Qed.

Lemma type_lines_run (message_box : option handle) (lines : list str)
    (w : W) (f : file) :
  ∃ r w' calls,
    for_each lines (type_line message_box) (State w f) = (r, State w' f, calls)
    ∧ Forall page_call calls
    ∧ match r with
      | Ok _ => raises calls = []
      | Raise e => Forall (fun c => snd c = e) (raises calls)
      end.
Proof.
  revert w. induction lines as [|line lines IH]; intros w.
  - exists (Ok tt), w, []. repeat split; constructor.
  - simpl. unfold bind.
    destruct (type_line_run message_box line w f) as (r & w1 & c1 & -> & Hc1 & Hr1).
    destruct r as [[]|e].
    + destruct (IH w1) as (r & w2 & c2 & -> & Hc2 & Hr2).
      eexists _, _, _. split; [reflexivity|]. split.
      * by apply Forall_app.
      * unfold raises in *. rewrite omap_app, Hr1. exact Hr2.
    + eexists _, _, _. split; [reflexivity|]. by split.
Qed.

Lemma choice_in (k : nat) : choice [1; 2; 3]%nat k ∈ [1; 2; 3]%nat.
Proof.
  unfold choice. simpl length.
  assert (Hk : (k mod 3 < 3)%nat) by (apply Nat.mod_upper_bound; lia).
  destruct (k mod 3)%nat as [|[|[|n]]]; simpl; [set_solver..|lia].
Qed.

Lemma type_and_send_run (phone_number message : str)
    (message_box : option handle) (w : W) (f : file) :
  ∃ w' calls,
    Forall page_call calls
    ∧ ((∃ wait, wait ∈ [1; 2; 3]%nat
         ∧ type_and_send phone_number message message_box (State w f)
           = (Ok tt,
              State w' (Some (default [] f ++ [Row [phone_number; status_of Success]])),
              calls ++ closing phone_number Success wait)
         ∧ calls ≠ [] ∧ raises calls = [])
       ∨ (∃ e, type_and_send phone_number message message_box (State w f)
               = (Raise e, State w' f, calls)
             ∧ Forall (fun c => snd c = e) (raises calls))).
Proof.
  destruct (type_lines_run message_box (split_lines message) w f)
    as (r & w1 & c1 & E & Hc1 & Hr1).
  unfold type_and_send. rewrite !(bind_run _ _ _ _ _ _ E).
  destruct r as [[]|e].
  - unfold bind, box_press, call, random_choice, sleep, writerow, log, emit, raise.
    destruct message_box as [h|]; simpl.
    + ask_world.
      * ask_world. eexists _, (c1 ++ [Call (Press h (py "Enter")) None]).
        split; [apply Forall_app; split; [done|by repeat constructor]|].
        left. eexists. split; [apply choice_in|].
        split; [by rewrite <- (app_assoc c1)|].
        split; [by destruct c1|].
        unfold raises in *. by rewrite omap_app, Hr1.
      * eexists _, (c1 ++ [Call (Press h (py "Enter")) (Some e)]).
        split; [apply Forall_app; split; [done|by repeat constructor]|].
        right. exists e. split; [done|].
        unfold raises in *. rewrite omap_app, Hr1. by repeat constructor.
    + eexists _, c1. split; [done|]. right. eexists. split.
      * by rewrite app_nil_r.
      * unfold raises in *. rewrite Hr1. constructor.
  - eexists _, c1. split; [done|]. right. by exists e.
Qed.

Lemma check_invalid_number_run (phone_number : str) (w : W) (f : file) :
  ∃ w' calls,
    Forall page_call calls ∧ calls ≠ []
    ∧ ((∃ reason,
          check_invalid_number phone_number (State w f)
          = (Ok true,
             State w' (Some (default [] f ++ [Row [phone_number; status_of (Skipped reason)]])),
             calls ++ closing phone_number (Skipped reason) 0)
          ∧ raises calls = [])
       ∨ (check_invalid_number phone_number (State w f)
          = (Ok false, State w' f, calls)
          ∧ Forall swallowed (raises calls))
       ∨ (∃ e, check_invalid_number phone_number (State w f)
               = (Raise e, State w' f, calls)
             ∧ Forall (fun c => swallowed c ∨ snd c = e) (raises calls))).
Proof.
  unfold check_invalid_number, try_except_timeout, try_except, bind,
    waitForSelector, evaluate_textContent, log, writerow, emit, ret, raise.
  simpl. ask_world; [ask_world|..].
  - eexists _, [_; _].
    split; [|split; [|left; eexists; split; [reflexivity|done]]];
      [by repeat constructor|done].
  - eexists _, [_; _].
    split; [|split; [|right; left; split; [reflexivity|]]];
      [by repeat constructor|done|by repeat constructor].
  - eexists _, [_; _].
    split; [|split; [|right; right; eexists; split; [reflexivity|]]];
      [by repeat constructor|done|]. constructor; [by right|constructor].
  - eexists _, [_].
    split; [|split; [|right; left; split; [reflexivity|]]];
      [by repeat constructor|done|by repeat constructor].
  - eexists _, [_].
    split; [|split; [|right; left; split; [reflexivity|]]];
      [by repeat constructor|done|by repeat constructor].
  - eexists _, [_].
    split; [|split; [|right; right; eexists; split; [reflexivity|]]];
      [by repeat constructor|done|]. constructor; [by right|constructor].
Qed.

Lemma find_message_box_run (phone_number : str) (w : W) (f : file) :
  ∃ w' calls,
    Forall page_call calls ∧ calls ≠ []
    ∧ ((∃ message_box,
          find_message_box phone_number (State w f)
          = (Ok (Some message_box), State w' f, calls)
          ∧ raises calls = [])
       ∨ (find_message_box phone_number (State w f)
          = (Ok None,
             State w' (Some (default [] f ++ [Row [phone_number; status_of (Failed None)]])),
             calls ++ closing phone_number (Failed None) 0)
          ∧ ∃ msg, raises calls = [(WaitForSelector MessageBox 10000, TimeoutError msg)])
       ∨ (∃ e, find_message_box phone_number (State w f)
               = (Raise e, State w' f, calls)
             ∧ Forall (fun c => snd c = e) (raises calls))).
Proof.
  unfold find_message_box, try_except_timeout, try_except, bind,
    waitForSelector, log, writerow, emit, ret, raise.
  simpl. ask_world; eexists _, [_].
  - split; [|split; [|left; eexists; split; [reflexivity|done]]];
      [by repeat constructor|done].
  - split; [|split; [|left; eexists; split; [reflexivity|done]]];
      [by repeat constructor|done].
  - split; [|split; [|right; left; split; [reflexivity|by eexists]]];
      [by repeat constructor|done].
  - split; [|split; [|right; right; eexists; split; [reflexivity|]]];
      [by repeat constructor|done|by repeat constructor].
Qed.

Ltac trace_eq :=
  simpl; repeat rewrite <- app_assoc; repeat rewrite app_nil_r; simpl;
  reflexivity.

Lemma raises_app (t1 t2 : list event) : raises (t1 ++ t2) = raises t1 ++ raises t2.
Proof. apply omap_app. Qed.

Lemma accounted_swallowed (o : outcome) (l : list (op * exn)) :
  Forall swallowed l → Forall (accounted o) l.
Proof. intros Hl. eapply Forall_impl; [exact Hl|]. intros c ?. by left. Qed.

Lemma accounted_failed (e : exn) (l : list (op * exn)) :
  Forall (fun c => swallowed c ∨ snd c = e) l →
  Forall (accounted (Failed (Some e))) l.
Proof.
  intros Hl. eapply Forall_impl; [exact Hl|].
  intros c [?|<-]; [by left|by right; right].
Qed.

(** Every run of [send_message] returns normally, after one navigation to
    the chat of the number and one record, in one of the four ways of
    [closing]. *)
Lemma send_message_run (phone_number message : str) (w : W) (f : file) :
  ∃ w' body o wait,
    send_message phone_number message (State w f)
    = (Ok tt,
       State w' (Some (default [] f ++ [Row [phone_number; status_of o]])),
       body ++ closing phone_number o wait)
    ∧ channel_part phone_number body
    ∧ wait ∈ [1; 2; 3]%nat
    ∧ Forall (accounted o) (raises body).
Proof.
  unfold send_message, try_except, bind, log, call, sleep, writerow, emit, ret.
  simpl. ask_world.
  2: { eexists _, [_; _], (Failed (Some _)), 1%nat.
       split; [reflexivity|]. split; [by eexists _, []; split; [|left]|].
       split; [set_solver|]. constructor; [by right; right|constructor]. }
  destruct (check_invalid_number_run phone_number w0 f)
    as (w1 & c1 & Hc1 & Hne1 & [(reason & E1 & Hr1)|[(E1 & Hr1)|(e & E1 & Hr1)]]);
    rewrite E1; simpl.
  - exists w1, (Log INFO (Processing_number phone_number)
                :: Call (Goto (chat_url phone_number)) None :: Sleep 3 :: c1),
      (Skipped reason), 1%nat.
    split; [trace_eq|]. split; [eexists _, _; split; [done|right; by eexists]|].
    split; [set_solver|]. change (Forall (accounted (Skipped reason)) (raises c1)).
    rewrite Hr1. constructor.
  - destruct (find_message_box_run phone_number w1 f)
      as (w2 & c2 & Hc2 & Hne2 & [(mb & E2 & Hr2)|[(E2 & msg & Hr2)|(e & E2 & Hr2)]]);
      rewrite E2; simpl.
    + destruct (type_and_send_run phone_number message mb w2 f)
        as (w3 & c3 & Hc3 & [(wait & Hw & E3 & _ & Hr3)|(e & E3 & Hr3)]);
        rewrite E3; simpl.
      * exists w3, (Log INFO (Processing_number phone_number)
                    :: Call (Goto (chat_url phone_number)) None :: Sleep 3
                    :: c1 ++ c2 ++ c3), Success, wait.
        split; [trace_eq|].
        split.
        { eexists _, _; split; [done|right]. eexists. split; [done|].
          split; [by destruct c1|]. by rewrite !Forall_app. }
        split; [done|].
        change (Forall (accounted Success) (raises (c1 ++ c2 ++ c3))).
        rewrite !raises_app, Hr2, Hr3, !app_nil_r. by apply accounted_swallowed.
      * exists w3, (Log INFO (Processing_number phone_number)
                    :: Call (Goto (chat_url phone_number)) None :: Sleep 3
                    :: c1 ++ c2 ++ c3), (Failed (Some e)), 1%nat.
        split; [trace_eq|].
        split.
        { eexists _, _; split; [done|right]. eexists. split; [done|].
          split; [by destruct c1|]. by rewrite !Forall_app. }
        split; [set_solver|].
        change (Forall (accounted (Failed (Some e))) (raises (c1 ++ c2 ++ c3))).
        rewrite !raises_app, Hr2. simpl. apply Forall_app. split.
        -- by apply accounted_swallowed.
        -- apply accounted_failed. eapply Forall_impl; [exact Hr3|]. intros c ?. by right.
    + exists w2, (Log INFO (Processing_number phone_number)
                  :: Call (Goto (chat_url phone_number)) None :: Sleep 3
                  :: c1 ++ c2), (Failed None), 1%nat.
      split; [trace_eq|].
      split.
      { eexists _, _; split; [done|right]. eexists. split; [done|].
        split; [by destruct c1|]. by rewrite !Forall_app. }
      split; [set_solver|].
      change (Forall (accounted (Failed None)) (raises (c1 ++ c2))).
      rewrite !raises_app, Hr2. apply Forall_app. split.
      * by apply accounted_swallowed.
      * constructor; [|constructor]. right; left. split; [done|by eexists].
    + exists w2, (Log INFO (Processing_number phone_number)
                  :: Call (Goto (chat_url phone_number)) None :: Sleep 3
                  :: c1 ++ c2), (Failed (Some e)), 1%nat.
      split; [trace_eq|].
      split.
      { eexists _, _; split; [done|right]. eexists. split; [done|].
        split; [by destruct c1|]. by rewrite !Forall_app. }
      split; [set_solver|].
      change (Forall (accounted (Failed (Some e))) (raises (c1 ++ c2))).
      rewrite !raises_app. apply Forall_app. split.
      * by apply accounted_swallowed.
      * apply accounted_failed. eapply Forall_impl; [exact Hr2|]. intros c ?. by right.
  - exists w1, (Log INFO (Processing_number phone_number)
                :: Call (Goto (chat_url phone_number)) None :: Sleep 3 :: c1),
      (Failed (Some e)), 1%nat.
    split; [done|]. split; [eexists _, _; split; [done|right; by eexists]|].
    split; [set_solver|]. change (Forall (accounted (Failed (Some e))) (raises c1)).
    by apply accounted_failed.
Qed.

(** *** What the trace of one target shows *)

Lemma page_calls_silent (calls : list event) :
  Forall page_call calls →
  gotos calls = [] ∧ rows_written calls = [] ∧ outcomes calls = []
  ∧ sleeps calls = 0%nat ∧ Forall (fun ev => is_call ev = true) calls.
Proof.
  induction 1 as [|ev calls Hev _ (Hg & Hr & Ho & Hs & Hc)].
  - by repeat split.
  - destruct ev as [| | |o r|]; try done.
    unfold gotos, rows_written, outcomes, sleeps in *.
    destruct o; try done; simpl; repeat split;
      first [exact Hg|exact Hr|exact Ho|exact Hs|by constructor].
Qed.

Lemma closing_shows (phone_number : str) (o : outcome) (wait : nat) :
  gotos (closing phone_number o wait) = []
  ∧ rows_written (closing phone_number o wait) = [[phone_number; status_of o]]
  ∧ outcomes (closing phone_number o wait) = [o]
  ∧ existsb is_call (closing phone_number o wait) = false.
Proof. by destruct o as [| |[|]]. Qed.

Lemma channel_part_shows (phone_number : str) (body : list event) :
  channel_part phone_number body →
  gotos body = [chat_url phone_number] ∧ rows_written body = []
  ∧ outcomes body = [].
Proof.
  intros (r0 & rest & -> & [->|(calls & -> & _ & Hc)]); [done|].
  apply page_calls_silent in Hc as (Hg & Hr & Ho & _).
  unfold gotos, rows_written, outcomes in *. simpl.
  repeat split; [f_equal; exact Hg|exact Hr|exact Ho].
Qed.

Lemma gotos_app (t1 t2 : list event) : gotos (t1 ++ t2) = gotos t1 ++ gotos t2.
Proof. apply omap_app. Qed.

Lemma rows_written_app (t1 t2 : list event) :
  rows_written (t1 ++ t2) = rows_written t1 ++ rows_written t2.
Proof. apply omap_app. Qed.

Lemma outcomes_app (t1 t2 : list event) :
  outcomes (t1 ++ t2) = outcomes t1 ++ outcomes t2.
Proof. apply omap_app. Qed.

(** One target: the run returns, after one navigation, one record and one
    outcome, and the pause of one second. *)
Lemma send_and_pause_run (message phone_number : str) (w : W) (f : file) :
  ∃ w' body o wait,
    send_and_pause message phone_number (State w f)
    = (Ok tt,
       State w' (Some (default [] f ++ [Row [phone_number; status_of o]])),
       body ++ closing phone_number o wait ++ [Sleep 1])
    ∧ channel_part phone_number body
    ∧ wait ∈ [1; 2; 3]%nat
    ∧ Forall (accounted o) (raises body).
Proof.
  destruct (send_message_run phone_number message w f)
    as (w' & body & o & wait & E & Hb & Hw & Hr).
  exists w', body, o, wait. split; [|done].
  unfold send_and_pause. rewrite (bind_run _ _ _ _ _ _ E).
  unfold sleep, emit. by rewrite <- app_assoc.
Qed.

(** The loop over the numbers, without the batches: it returns, having
    navigated to the chat of each number once and in order, and written
    one record for each, in order. *)
Lemma for_each_send_run (message : str) (phone_numbers : list str)
    (w : W) (f : file) :
  ∃ w' t,
    for_each phone_numbers (send_and_pause message) (State w f)
    = (Ok tt,
       State w' (match phone_numbers with
                 | [] => f
                 | _ => Some (default [] f ++ (Row <$> rows_written t))
                 end),
       t)
    ∧ gotos t = chat_url <$> phone_numbers
    ∧ Forall2 (fun number row => ∃ o, row = [number; status_of o])
        phone_numbers (rows_written t)
    ∧ length (outcomes t) = length phone_numbers.
Proof.
  revert w f. induction phone_numbers as [|p l IH]; intros w f.
  - exists w, []. split; [done|]. split; [done|]. split; [constructor|done].
  - destruct (send_and_pause_run message p w f)
      as (w1 & body & o & wait & E & Hb & _ & _).
    destruct (IH w1 (Some (default [] f ++ [Row [p; status_of o]])))
      as (w2 & t & E2 & Hg & Hr & Ho).
    apply channel_part_shows in Hb as (Hbg & Hbr & Hbo).
    destruct (closing_shows p o wait) as (Hcg & Hcr & Hco & _).
    exists w2, ((body ++ closing p o wait ++ [Sleep 1]) ++ t).
    simpl. rewrite (bind_run _ _ _ _ _ _ E), E2.
    rewrite !gotos_app, !rows_written_app, !outcomes_app, Hbg, Hbr, Hbo, Hcg, Hcr, Hco.
    simpl. split; [|split; [by rewrite Hg|split; [|by rewrite Ho]]].
    + f_equal. f_equal. destruct l; simpl.
      * inversion Hr. by destruct (rows_written t).
      * by rewrite <- app_assoc.
    + constructor; [by exists o|done].
Qed.
End Runs.

(** ** Batches *)

Lemma py_slice_take_drop {A} (l : list A) (lo hi : Z) :
  0 ≤ lo → lo ≤ hi →
  py_slice l lo hi = take (Z.to_nat (hi - lo)) (drop (Z.to_nat lo) l).
Proof.
  intros Hlo Hhi. unfold py_slice, clamp.
  destruct (Z.ltb_spec lo 0); [lia|]. destruct (Z.ltb_spec hi 0); [lia|].
  destruct (Z.le_gt_cases lo (Z.of_nat (length l))) as [Hle|Hgt].
  - rewrite (Z.min_l lo) by lia.
    destruct (Z.le_gt_cases hi (Z.of_nat (length l))).
    + by rewrite Z.min_l by lia.
    + rewrite Z.min_r by lia.
      rewrite !take_ge; [done|rewrite length_drop; lia..].
  - rewrite !Z.min_r by lia.
    rewrite !drop_ge by lia. by rewrite !take_nil.
Qed.

Lemma py_range_forward (stop step : Z) :
  1 ≤ step → 0 ≤ stop →
  ∃ count : nat,
    py_range stop step = Ok ((fun k => k * step) <$> seqZ 0 (Z.of_nat count))
    ∧ stop ≤ Z.of_nat count * step.
Proof.
  intros Hstep Hstop. unfold py_range.
  destruct (Z.eqb_spec step 0); [lia|].
  destruct (Z.ltb_spec 0 step); [|lia]. simpl.
  destruct (Z.ltb_spec 0 stop).
  - exists (Z.to_nat ((stop - 1) / step + 1)).
    assert (0 ≤ (stop - 1) / step) by (apply Z.div_pos; lia).
    rewrite Z2Nat.id by lia. split; [done|].
    pose proof (Z.div_mod (stop - 1) step ltac:(lia)).
    pose proof (Z.mod_pos_bound (stop - 1) step ltac:(lia)). nia.
  - exists 0%nat. destruct (Z.ltb_spec step 0); [lia|].
    destruct (Z.ltb_spec stop 0); simpl; split; [done|lia|done|lia].
Qed.

Section Batches.
Context {W : Type} `{World W}.

Lemma operations_app (t1 t2 : list event) :
  operations (t1 ++ t2) = operations t1 ++ operations t2.
Proof. apply List.filter_app. Qed.

Lemma same_operations_refl {A} (x : res A * state W * list event) :
  same_operations x x.
Proof. by repeat split. Qed.

Lemma same_operations_trans {A} (x y z : res A * state W * list event) :
  same_operations x y → same_operations y z → same_operations x z.
Proof. intros (?&?&?) (?&?&?). repeat split; congruence. Qed.

Lemma same_operations_bind {A B} (m1 m2 : M W A) (k1 k2 : A → M W B) st :
  same_operations (m1 st) (m2 st) →
  (∀ a st', same_operations (k1 a st') (k2 a st')) →
  same_operations (bind m1 k1 st) (bind m2 k2 st).
Proof.
  intros (Hr & Hs & Ht) Hk. unfold bind.
  destruct (m1 st) as [[r1 s1] t1], (m2 st) as [[r2 s2] t2]. simpl in *. subst.
  destruct r2 as [a|e]; [|by repeat split].
  specialize (Hk a s2).
  destruct (k1 a s2) as [[r1' s1'] t1'], (k2 a s2) as [[r2' s2'] t2'].
  destruct Hk as (?&?&?). simpl in *. subst. repeat split.
  simpl. by rewrite !operations_app, Ht; f_equal.
Qed.

Lemma for_each_app {A} (l1 l2 : list A) (body : A → M W unit) st :
  for_each (l1 ++ l2) body st
  = bind (for_each l1 body) (fun _ => for_each l2 body) st.
Proof.
  revert st. induction l1 as [|x l1 IH]; intros st; simpl.
  - unfold bind, ret. by destruct (for_each l2 body st) as [[? ?] ?].
  - unfold bind. destruct (body x st) as [[[[]|e] s1] t1]; [|done].
    rewrite IH. unfold bind.
    destruct (for_each l1 body s1) as [[[[]|e] s2] t2]; [|done].
    destruct (for_each l2 body s2) as [[? ?] ?]. by rewrite app_assoc.
Qed.

(** A batch: its two log lines around the loop over its numbers. *)
Lemma batch_same_operations (n1 n2 : note) (m : M W unit) st :
  batch_note (Log INFO n1) = true → batch_note (Log INFO n2) = true →
  same_operations ((log INFO n1 ;;; m ;;; log INFO n2) st) (m st).
Proof.
  intros H1 H2. unfold bind, log, emit, same_operations.
  destruct (m st) as [[[[]|e] s1] t1]; cbn [fst snd app];
    (split; [done|split; [done|]]); unfold operations; cbn [List.filter];
    rewrite H1; cbn [negb].
  - rewrite List.filter_app. cbn [List.filter]. rewrite H2. cbn [negb].
    by rewrite app_nil_r.
  - done.
Qed.

(** The loop over the batches from batch [first] on does what the loop
    over the numbers they cover does. *)
Lemma batches_flat {A} (l : list A) (body : A → M W unit) (size : Z)
    (count first : nat) st :
  1 ≤ size →
  same_operations
    (for_each ((fun k => k * size) <$> seqZ (Z.of_nat first) (Z.of_nat count))
       (fun i =>
          let batch := py_slice l i (i + size) in
          log INFO (Processing_batch (i / size + 1) (length batch)) ;;;
          for_each batch body ;;;
          log INFO (Completed_batch (i / size + 1))) st)
    (for_each (take (count * Z.to_nat size) (drop (first * Z.to_nat size) l)) body st).
Proof.
  intros Hsize. revert first st. induction count as [|count IH]; intros first st.
  - simpl. apply same_operations_refl.
  - rewrite seqZ_cons by lia. rewrite fmap_cons.
    replace (Z.succ (Z.of_nat first)) with (Z.of_nat (S first)) by lia.
    replace (Z.pred (Z.of_nat (S count))) with (Z.of_nat count) by lia.
    replace (take (S count * Z.to_nat size) (drop (first * Z.to_nat size) l))
      with (take (Z.to_nat size) (drop (first * Z.to_nat size) l)
            ++ take (count * Z.to_nat size) (drop (S first * Z.to_nat size) l)).
    2: { replace (S count * Z.to_nat size)%nat
           with (Z.to_nat size + count * Z.to_nat size)%nat by lia.
         rewrite <- take_take_drop, drop_drop. do 3 f_equal. lia. }
    rewrite for_each_app. cbn [for_each].
    apply same_operations_bind; [|intros; apply IH].
    rewrite py_slice_take_drop by lia.
    replace (Z.to_nat (Z.of_nat first * size + size - Z.of_nat first * size))
      with (Z.to_nat size) by lia.
    replace (Z.to_nat (Z.of_nat first * size)) with (first * Z.to_nat size)%nat by lia.
    by apply batch_same_operations.
Qed.
End Batches.

(** ** What every run respects *)

Section Respects.
Context {W : Type} `{World W}.
Variable G : str → Prop.

Lemma respects_ret {A} (a : A) st : respects G (ret a) st.
Proof. split; [done|constructor]. Qed.

Lemma respects_raise {A} (e : exn) st : respects G (raise (A:=A) e) st.
Proof. split; [done|constructor]. Qed.

Lemma respects_emit (ev : event) st :
  (∀ u r, ev ≠ Call (Goto u) r) → respects G (emit ev) st.
Proof.
  intros Hev. split; [done|]. unfold emit, gotos. simpl.
  destruct ev as [| | |o r|]; try constructor.
  destruct o; try constructor; [exfalso; by eapply Hev|constructor].
Qed.

Lemma respects_log lvl n st : respects G (log lvl n) st.
Proof. by apply respects_emit. Qed.

Lemma respects_print n st : respects G (print n) st.
Proof. by apply respects_emit. Qed.

Lemma respects_sleep n st : respects G (sleep n) st.
Proof. by apply respects_emit. Qed.

Lemma respects_call (o : op) st :
  (∀ u, o = Goto u → G u) → respects G (call o) st.
Proof.
  intros Ho. unfold respects, call.
  destruct (effect o (world st)) as [r w]. simpl. split; [done|].
  unfold gotos. simpl. destruct o; try constructor; [by apply Ho|constructor].
Qed.

Lemma respects_waitForSelector sel ms st : respects G (waitForSelector sel ms) st.
Proof.
  unfold respects, waitForSelector.
  destruct (wait_for_selector sel ms (world st)) as [r w]. simpl.
  split; [done|constructor].
Qed.

Lemma respects_writerow row st : respects G (writerow row) st.
Proof. split; [by apply prefix_app_r|constructor]. Qed.

Lemma respects_get_results st : respects G get_results st.
Proof. split; [done|constructor]. Qed.

Lemma respects_bind {A B} (m : M W A) (k : A → M W B) st :
  respects G m st →
  (∀ a st1 t1, m st = (Ok a, st1, t1) → respects G (k a) st1) →
  respects G (bind m k) st.
Proof.
  unfold respects, bind. intros [Hp Hg] Hk.
  destruct (m st) as [[[a|e] st1] t1]; [|done].
  specialize (Hk a st1 t1 eq_refl).
  destruct (k a st1) as [[r st2] t2]. simpl in *. destruct Hk as [Hp2 Hg2].
  split; [by etrans|]. rewrite gotos_app. by apply Forall_app.
Qed.

Lemma respects_try_except {A} (m : M W A) (h : exn → M W A) st :
  respects G m st →
  (∀ e st1 t1, m st = (Raise e, st1, t1) → respects G (h e) st1) →
  respects G (try_except m h) st.
Proof.
  unfold respects, try_except. intros [Hp Hg] Hh.
  destruct (m st) as [[[a|e] st1] t1]; [done|].
  specialize (Hh e st1 t1 eq_refl).
  destruct (h e st1) as [[r st2] t2]. simpl in *. destruct Hh as [Hp2 Hg2].
  split; [by etrans|]. rewrite gotos_app. by apply Forall_app.
Qed.

Lemma respects_try_finally {A} (m : M W A) (f : M W unit) st :
  respects G m st → (∀ st1, respects G f st1) → respects G (try_finally m f) st.
Proof.
  unfold respects, try_finally. intros [Hp Hg] Hf.
  destruct (m st) as [[r st1] t1]. specialize (Hf st1).
  destruct (f st1) as [[rf st2] t2]. simpl in *. destruct Hf as [Hp2 Hg2].
  split; [by etrans|]. rewrite gotos_app. by apply Forall_app.
Qed.

Lemma respects_attempt {A} (m : M W A) st : respects G m st → respects G (attempt m) st.
Proof. unfold respects, attempt. by destruct (m st) as [[r st1] t1]. Qed.

Lemma respects_for_each {A} (l : list A) (body : A → M W unit) st :
  (∀ x st1, x ∈ l → respects G (body x) st1) → respects G (for_each l body) st.
Proof.
  revert st. induction l as [|x l IH]; intros st Hb; simpl.
  - apply respects_ret.
  - apply respects_bind; [apply Hb; by left|].
    intros _ st1 _ _. apply IH. intros y st2 Hy. apply Hb. by right.
Qed.

Lemma respects_send_message (phone_number message : str) st :
  G (chat_url phone_number) → respects G (send_message phone_number message) st.
Proof.
  intros HG. destruct st as [w f].
  destruct (send_message_run phone_number message w f)
    as (w' & body & o & wait & E & Hb & _ & _).
  unfold respects. rewrite E. simpl. split; [by apply prefix_app_r|].
  apply channel_part_shows in Hb as (Hg & _).
  destruct (closing_shows phone_number o wait) as (Hc & _).
  rewrite gotos_app, Hg, Hc. by repeat constructor.
Qed.

Lemma elem_of_py_slice {A} (l : list A) (lo hi : Z) (x : A) :
  x ∈ py_slice l lo hi → x ∈ l.
Proof.
  unfold py_slice. intros Hx.
  apply elem_of_take in Hx as (i & Hx & _).
  rewrite lookup_drop in Hx. by eapply list_elem_of_lookup_2.
Qed.

Lemma respects_send_messages_in_batches (phone_numbers : list str)
    (message : str) (size : Z) st :
  (∀ p, p ∈ phone_numbers → G (chat_url p)) →
  respects G (send_messages_in_batches phone_numbers message size) st.
Proof.
  intros HG. unfold send_messages_in_batches.
  apply respects_bind; [apply respects_log|]. intros _ st1 _ _.
  apply respects_bind; [|intros; apply respects_log].
  destruct (py_range _ size) as [indices|e]; [|apply respects_raise].
  apply respects_for_each. intros i st2 _.
  apply respects_bind; [apply respects_log|]. intros _ st3 _ _.
  apply respects_bind; [|intros; apply respects_log].
  apply respects_for_each. intros p st4 Hp. unfold send_and_pause.
  apply respects_bind; [|intros; apply respects_sleep].
  apply respects_send_message, HG. by eapply elem_of_py_slice.
Qed.

Lemma respects_handle_qr_scan st : G qr_url → respects G handle_qr_scan st.
Proof.
  intros HG. unfold handle_qr_scan.
  apply respects_bind; [apply respects_call; by intros u [= <-]|]. intros _ ? _ _.
  apply respects_bind; [apply respects_print|]. intros _ ? _ _.
  apply respects_bind; [apply respects_waitForSelector|]. intros _ ? _ _.
  apply respects_ret.
Qed.

Lemma respects_close_browser_and_page (page_bound : bool) st :
  respects G (close_browser_and_page page_bound) st.
Proof.
  unfold close_browser_and_page.
  apply respects_try_except; [|intros; apply respects_log].
  apply respects_bind.
  { destruct page_bound; [by apply respects_call|apply respects_raise]. }
  intros _ ? _ _. apply respects_bind; [by apply respects_call|].
  intros _ ? _ _. apply respects_log.
Qed.

Lemma respects_log_and_reraise {A} (e : exn) st :
  respects G (log_and_reraise (A:=A) e) st.
Proof.
  unfold log_and_reraise. apply respects_bind; [apply respects_log|].
  intros. apply respects_raise.
Qed.

Lemma respects_get_browser_and_page (body : M W unit) st :
  G qr_url → (∀ st1, respects G body st1) →
  respects G (get_browser_and_page body) st.
Proof.
  intros HG Hbody. unfold get_browser_and_page.
  apply respects_bind.
  { apply respects_attempt, respects_bind; [by apply respects_call|].
    intros. by apply respects_call. }
  intros [[]|e] st1 _ _.
  - apply respects_try_finally; [|intros; apply respects_close_browser_and_page].
    apply respects_try_except; [|intros; apply respects_log_and_reraise].
    apply respects_bind; [by apply respects_handle_qr_scan|]. intros. apply Hbody.
  - apply respects_try_finally; [|intros; apply respects_close_browser_and_page].
    apply respects_log_and_reraise.
Qed.

Lemma respects_open_append st : respects G open_append st.
Proof.
  unfold open_append. apply respects_bind; [by apply respects_call|].
  intros _ st1 _ _. by split; [|constructor].
Qed.

Lemma respects_initialize_output st : respects G (initialize_output (results st)) st.
Proof.
  unfold initialize_output. destruct (results st) as [rows|] eqn:E.
  - apply respects_ret.
  - split; [rewrite E; apply prefix_nil|].
    unfold try_except, open_write, bind, call, writerow, log, print, emit, ret.
    destruct (effect (OpenResults Write_) (world st)) as [[[]|e] w]; simpl;
      constructor.
Qed.

Lemma read_phone_numbers_from_csv_run (f : file) (st : state W) :
  ∃ lvl n,
    read_phone_numbers_from_csv f st = (Ok (fst (scan_phone_numbers f)), st, [Log lvl n]).
Proof.
  unfold read_phone_numbers_from_csv.
  destruct (scan_phone_numbers f) as [l [e|]]; by eexists _, _.
Qed.

Lemma read_message_from_text_run (f : option str) (st : state W) :
  ∃ lvl n message, read_message_from_text f st = (Ok message, st, [Log lvl n]).
Proof. destruct f; by eexists _, _, _. Qed.

Lemma read_processed_numbers_run (f : file) (st : state W) :
  ∃ lvl n,
    read_processed_numbers f st
    = (Ok (fst (scan_processed_numbers f)), st, [Log lvl n]).
Proof.
  unfold read_processed_numbers.
  destruct (scan_processed_numbers f) as [l [e|]]; by eexists _, _.
Qed.

Lemma respects_run {A} (m : M W A) (st : state W) r t :
  m st = (r, st, t) → gotos t = [] → respects G m st.
Proof.
  intros E Ht. unfold respects. rewrite E. simpl. rewrite Ht.
  by split; [|constructor].
Qed.

(** [main] appends to the results file and navigates, after the login
    page, only to the chats of the numbers still to send. *)
Lemma respects_main (a : args) (st : state W) :
  G qr_url →
  (∀ p, p ∈ to_send (fst (scan_phone_numbers (phone_csv a)))
              (fst (scan_processed_numbers (results st))) → G (chat_url p)) →
  respects G (main a) st.
Proof.
  intros Hqr HG. unfold main.
  destruct (read_phone_numbers_from_csv_run (phone_csv a) st) as (l1 & n1 & E1).
  destruct (read_message_from_text_run (message_txt a) st) as (l2 & n2 & message & E2).
  destruct (read_processed_numbers_run (results st) st) as (l3 & n3 & E3).
  apply respects_bind; [by eapply respects_run|].
  rewrite E1. intros ? ? ? [= <- <- _].
  apply respects_bind; [by eapply respects_run|].
  rewrite E2. intros ? ? ? [= <- <- _].
  destruct (fst (scan_phone_numbers (phone_csv a))) as [|p0 phone_numbers] eqn:Ep.
  { apply respects_bind; [apply respects_log|]. intros. apply respects_print. }
  apply respects_bind; [apply respects_get_results|].
  intros ? ? ? [= <- <- _].
  apply respects_bind; [by eapply respects_run|].
  rewrite E3. intros ? ? ? [= <- <- _].
  destruct (to_send _ _) as [|p1 pending] eqn:Et.
  { apply respects_bind; [apply respects_log|]. intros. apply respects_print. }
  apply respects_bind; [apply respects_get_results|].
  intros ? ? ? [= <- <- _].
  apply respects_bind; [apply respects_initialize_output|].
  intros [|] st1 _ _; [|apply respects_ret].
  apply respects_try_finally.
  - apply respects_try_except.
    + apply respects_bind; [apply respects_open_append|]. intros _ st2 _ _.
      apply respects_get_browser_and_page; [done|]. intros st3.
      by apply respects_send_messages_in_batches.
    + intros. apply respects_bind; [apply respects_log|].
      intros. apply respects_print.
  - intros. apply respects_bind; [apply respects_log|].
    intros. apply respects_bind; [apply respects_print|intros; apply respects_print].
Qed.

Lemma respects_script (chrome_found : bool) (a : args) (st : state W) :
  G qr_url →
  (∀ p, p ∈ to_send (fst (scan_phone_numbers (phone_csv a)))
              (fst (scan_processed_numbers (results st))) → G (chat_url p)) →
  respects G (script chrome_found a) st.
Proof.
  intros Hqr HG. unfold script. apply respects_bind.
  { destruct chrome_found; [apply respects_ret|apply respects_raise]. }
  destruct chrome_found; [|done]. intros ? ? ? [= <- <- _].
  apply respects_try_except; [by apply respects_main|].
  intros. apply respects_bind; [apply respects_log|]. intros. apply respects_print.
Qed.
End Respects.

(** * The claims *)

(** ** Canonical form (C8) *)

(** C8.  Canonicalization is the digits-only projection and is idempotent:
    for every string [x], the canonical form [clean_number x] is what
    filtering [x] for decimal digits gives (all its characters are decimal
    digits, and it is [x] with characters left out, none moved), the
    canonical form of "+1 (234) 567-8900" is "12345678900", and
    canonicalizing twice is canonicalizing once. *)
Theorem clean_number_digits_only_idempotent (x : str) :
  clean_number x = List.filter isdecimal x
  ∧ Forall (fun c => isdecimal c = true) (clean_number x)
  ∧ sublist (clean_number x) x
  ∧ clean_number (py "+1 (234) 567-8900") = py "12345678900"
  ∧ clean_number (clean_number x) = clean_number x.
Proof.
  split; [apply clean_number_filter|].
  split; [apply clean_number_all_digits|].
  split; [apply clean_number_sublist|].
  split; [by vm_compute|].
  apply clean_number_of_digits, clean_number_all_digits.
Qed.

(** ** Loading the input list (C2) *)

(** C2, as stated, fails: loading ["1234", "+1234", "123-4"] yields the
    canonical form three times, not once, and an entry without digits is
    kept as the empty string. *)
Lemma loading_keeps_duplicates_and_empties :
  fst (scan_phone_numbers (phone_file [py "1234"; py "+1234"; py "123-4"]))
  = [py "1234"; py "1234"; py "1234"]
  ∧ fst (scan_phone_numbers (phone_file [py "1234"; py "+1234"; py "123-4"]))
    ≠ [py "1234"]
  ∧ fst (scan_phone_numbers (phone_file [py "n/a"; py "1234"])) = [[]; py "1234"].
Proof. split; [by vm_compute|]. split; [by vm_compute|by vm_compute]. Qed.

(** C2, amended.  For every raw input sequence, loading produces the
    canonical (digits-only) form of each entry, in the order of the input,
    one for each row that has a first column: later entries with the same
    canonical form and entries whose canonical form is empty are kept;
    loading ["1234", "+1234", "123-4"] yields ["1234", "1234", "1234"]. *)
Theorem loading_is_canonical_form_of_each_entry (hd : list str)
    (rows : list (list str)) (raw : list str) :
  scan_phone_numbers (Some (Row hd :: (Row <$> rows)))
  = (clean_number <$> omap head rows, None)
  ∧ fst (scan_phone_numbers (phone_file raw)) = clean_number <$> raw
  ∧ length (fst (scan_phone_numbers (phone_file raw))) = length raw
  ∧ fst (scan_phone_numbers (phone_file [py "1234"; py "+1234"; py "123-4"]))
    = [py "1234"; py "1234"; py "1234"].
Proof.
  assert (Hraw : fst (scan_phone_numbers (phone_file raw)) = clean_number <$> raw).
  { unfold phone_file, phone_header. simpl.
    replace ((fun entry => Row [entry]) <$> raw)
      with (Row <$> ((fun entry => [entry]) <$> raw))
      by (by rewrite <- list_fmap_compose).
    rewrite phone_rows_all_rows. simpl. f_equal.
    induction raw as [|e raw IH]; simpl; [done|]. f_equal. exact IH. }
  split; [simpl; by rewrite phone_rows_all_rows|].
  split; [done|]. split; [by rewrite Hraw, length_fmap|by vm_compute].
Qed.

(** ** Resuming from the ledger (C1, C10) *)

Lemma chat_url_inj (p q : str) : chat_url p = chat_url q → p = q.
Proof. unfold chat_url. apply app_inv_head. Qed.

Lemma chat_url_not_login (p : str) : qr_url ≠ chat_url p.
Proof.
  unfold chat_url, qr_url. intros Heq.
  apply (f_equal (fun u => u !! 24%nat)) in Heq.
  rewrite lookup_app_l in Heq by (vm_compute; lia).
  by vm_compute in Heq.
Qed.

Lemma elem_of_gotos (t : list event) (u : str) (r : option exn) :
  Call (Goto u) r ∈ t → u ∈ gotos t.
Proof.
  intros Hin. unfold gotos. apply list_elem_of_omap.
  by exists (Call (Goto u) r).
Qed.

Lemma scan_processed_numbers_elem (hd : list str) (records : list line) (x : str) :
  readable records →
  x ∈ fst (scan_processed_numbers (Some (Row hd :: records))) ↔ sent_in records x.
Proof.
  intros Hr. simpl. rewrite processed_rows_elem by done.
  split; [intros [Hx|?]; [by apply elem_of_empty in Hx|done]|by right].
Qed.

(** C1, as stated, fails.  The reader of the ledger drops the first row
    whatever it holds (line 110), and [main] writes the header only into a
    file that does not exist (line 228).  A run over 111 and 222 that finds
    the results file existing and empty ends normally and leaves a ledger
    of two well-formed records and no header; on that ledger 111 has its
    record "Sent successfully", and the next run has 111 to send and
    navigates to its chat. *)
Lemma first_row_record_is_sent_again :
  results (snd (fst (script true
                       (Args (phone_file [py "111"; py "222"]) (Some (py "hello")) 5)
                       (State (Sim.start []) (Some [])))))
  = Some [Row [py "111"; sent_successfully]; Row [py "222"; sent_successfully]]
  ∧ to_send (fst (scan_phone_numbers (phone_file [py "111"; py "222"])))
      (fst (scan_processed_numbers
              (Some [Row [py "111"; sent_successfully];
                     Row [py "222"; sent_successfully]])))
    = [py "111"]
  ∧ gotos (snd (script true
                  (Args (phone_file [py "111"; py "222"]) (Some (py "hello")) 5)
                  (State (Sim.start [])
                     (Some [Row [py "111"; sent_successfully];
                            Row [py "222"; sent_successfully]]))))
    = [qr_url; chat_url (py "111")].
Proof. split; [by vm_compute|]. split; by vm_compute. Qed.

(** C1, amended.  Resume idempotence: for every input list and every
    existing ledger that has a first row -- the header, which the reader
    skips whatever it holds -- followed by well-formed rows (blank lines
    and rows of two columns or more), if the ledger has after its first
    row a record with status "Sent successfully" for a target, then in a
    fresh run that target is filtered out of the numbers to send before
    dispatch begins, and the run never navigates to the target's chat,
    whatever the input list, the batch size and the world's answers. *)
Theorem resume_skips_sent_targets {W} `{World W} (chrome_found : bool)
    (a : args) (w : W) (hd : list str) (records : list line)
    (number : str) (more : list str) :
  readable records →
  Row (number :: sent_successfully :: more) ∈ records →
  (clean_number number
     ∉ to_send (fst (scan_phone_numbers (phone_csv a)))
         (fst (scan_processed_numbers (Some (Row hd :: records)))))
  ∧ ∀ r, Call (Goto (chat_url (clean_number number))) r
         ∉ snd (script chrome_found a (State w (Some (Row hd :: records)))).
Proof.
  intros Hr Hin.
  assert (Hdone : clean_number number
                  ∈ fst (scan_processed_numbers (Some (Row hd :: records)))).
  { apply scan_processed_numbers_elem; [done|]. by exists number, more. }
  assert (Hpending : clean_number number
    ∉ to_send (fst (scan_phone_numbers (phone_csv a)))
        (fst (scan_processed_numbers (Some (Row hd :: records))))).
  { rewrite elem_of_to_send. tauto. }
  split; [done|]. intros r Hcall. apply elem_of_gotos in Hcall.
  pose proof (respects_script (fun u => u ≠ chat_url (clean_number number))
                chrome_found a (State w (Some (Row hd :: records)))) as Hresp.
  destruct Hresp as [_ Hg].
  - apply chat_url_not_login.
  - intros p Hp Heq. apply chat_url_inj in Heq. by subst.
  - rewrite Forall_forall in Hg. by apply (Hg _ Hcall).
Qed.

(** C10.  Loading the done set from a results file with a malformed row (a
    row of one column) after well-formed ones raises no error: the reader
    logs the failure and returns the targets with a "Sent successfully"
    record before that row, and only those; a target whose records of
    success all come after the malformed row is not in the done set and, if
    it is in the input list, is among the numbers to send again. *)
Theorem malformed_row_truncates_done_set {W} `{World W} (st : state W)
    (hd : list str) (before after : list line) (c : str)
    (phone_numbers : list str) (x : str) :
  readable before →
  sent_in after x → ¬ sent_in before x → x ∈ phone_numbers →
  read_processed_numbers (Some (Row hd :: before ++ Row [c] :: after)) st
  = (Ok (fst (scan_processed_numbers (Some (Row hd :: before)))), st,
     [Log ERROR (Failed_to_read_processed_phone_numbers
                   (Error (py "list index out of range")))])
  ∧ (∀ y, y ∈ fst (scan_processed_numbers (Some (Row hd :: before ++ Row [c] :: after)))
          ↔ sent_in before y)
  ∧ (x ∉ fst (scan_processed_numbers (Some (Row hd :: before ++ Row [c] :: after))))
  ∧ x ∈ to_send phone_numbers
          (fst (scan_processed_numbers (Some (Row hd :: before ++ Row [c] :: after)))).
Proof.
  intros Hr Hafter Hbefore Hx.
  assert (Hscan : scan_processed_numbers (Some (Row hd :: before ++ Row [c] :: after))
                  = (fst (scan_processed_numbers (Some (Row hd :: before))),
                     Some (Error (py "list index out of range")))).
  { simpl. by rewrite processed_rows_app. }
  split; [unfold read_processed_numbers; by rewrite Hscan|].
  rewrite Hscan. simpl.
  assert (Hiff : ∀ y, y ∈ fst (processed_rows before ∅) ↔ sent_in before y).
  { intros y. rewrite processed_rows_elem by done.
    split; [intros [Hy|?]; [by apply elem_of_empty in Hy|done]|by right]. }
  split; [done|]. split; [by rewrite Hiff|].
  apply elem_of_to_send. split; [done|by rewrite Hiff].
Qed.

Lemma resume_skips_sent_targets_witness :
  readable [Row [py "111"; sent_successfully]]
  ∧ Row [py "111"; sent_successfully] ∈ [Row [py "111"; sent_successfully]]
  ∧ (clean_number (py "111")
       ∉ to_send (fst (scan_phone_numbers (phone_file [py "+111"; py "222"])))
           (fst (scan_processed_numbers
                   (Some [Row header; Row [py "111"; sent_successfully]]))))
  ∧ ∀ r, Call (Goto (chat_url (clean_number (py "111")))) r
         ∉ snd (script true
                  (Args (phone_file [py "+111"; py "222"]) (Some (py "hello")) 5)
                  (State (Sim.start [])
                     (Some [Row header; Row [py "111"; sent_successfully]]))).
Proof.
  split; [reflexivity|]. split; [apply list_elem_of_here|].
  apply (resume_skips_sent_targets true
           (Args (phone_file [py "+111"; py "222"]) (Some (py "hello")) 5)
           (Sim.start []) header [Row [py "111"; sent_successfully]]
           (py "111") []).
  - reflexivity.
  - apply list_elem_of_here.
Defined.

Lemma malformed_row_truncates_done_set_witness :
  read_processed_numbers
    (Some (Row header :: [Row [py "111"; sent_successfully]]
           ++ Row [py "garbage"] :: [Row [py "222"; sent_successfully]]))
    (State (Sim.start []) None)
  = (Ok (fst (scan_processed_numbers
                (Some (Row header :: [Row [py "111"; sent_successfully]])))),
     State (Sim.start []) None,
     [Log ERROR (Failed_to_read_processed_phone_numbers
                   (Error (py "list index out of range")))])
  ∧ py "222"
    ∈ to_send [py "111"; py "222"]
        (fst (scan_processed_numbers
                (Some (Row header :: [Row [py "111"; sent_successfully]]
                       ++ Row [py "garbage"] :: [Row [py "222"; sent_successfully]])))).
Proof.
  assert (Hafter : sent_in [Row [py "222"; sent_successfully]] (py "222")).
  { exists (py "222"), []. split; [apply list_elem_of_here|reflexivity]. }
  assert (Hbefore : ¬ sent_in [Row [py "111"; sent_successfully]] (py "222")).
  { intros (c0 & more & Hin & Hc).
    apply list_elem_of_singleton in Hin. injection Hin as -> _.
    vm_compute in Hc. discriminate Hc. }
  assert (Hx : py "222" ∈ [py "111"; py "222"]).
  { apply list_elem_of_further, list_elem_of_here. }
  destruct (malformed_row_truncates_done_set (State (Sim.start []) None) header
              [Row [py "111"; sent_successfully]]
              [Row [py "222"; sent_successfully]] (py "garbage")
              [py "111"; py "222"] (py "222") eq_refl Hafter Hbefore Hx)
    as (Hread & _ & _ & Hsend).
  split; [exact Hread|exact Hsend].
Defined.

(** ** The batching loop (C9) *)

Section Dispatch.
Context {W : Type} `{World W}.

Lemma batches_same_as_each (phone_numbers : list str) (message : str)
    (size : Z) (st : state W) :
  1 ≤ size →
  same_operations (send_messages_in_batches phone_numbers message size st)
    (send_to_each phone_numbers message st).
Proof.
  intros Hsize. unfold send_messages_in_batches, send_to_each.
  destruct (py_range_forward (Z.of_nat (length phone_numbers)) size)
    as (count & -> & Hcount); [done|lia|].
  apply same_operations_bind; [apply same_operations_refl|]. intros _ st1.
  apply same_operations_bind; [|intros; apply same_operations_refl].
  pose proof (batches_flat phone_numbers (send_and_pause message) size count 0 st1 Hsize)
    as Hflat.
  rewrite Nat.mul_0_l, drop_0, take_ge in Hflat by nia. exact Hflat.
Qed.

Lemma gotos_operations (t : list event) : gotos (operations t) = gotos t.
Proof.
  induction t as [|ev t IH]; [done|].
  unfold operations, gotos in *. simpl.
  destruct ev as [lvl n| | |o r|]; simpl; try exact IH.
  - destruct n; simpl; exact IH.
  - destruct o; simpl; try exact IH. f_equal. exact IH.
Qed.

Lemma rows_written_operations (t : list event) :
  rows_written (operations t) = rows_written t.
Proof.
  induction t as [|ev t IH]; [done|].
  unfold operations, rows_written in *. simpl.
  destruct ev as [lvl n| | |o r|]; simpl; try exact IH.
  - destruct n; simpl; exact IH.
  - f_equal. exact IH.
Qed.

(** C9.  Batch-size irrelevance: for every sequence of numbers to send and
    every batch size [size ≥ 1], the batched loop ends with the same result
    and in the same state (the same world, the same results file) as the
    loop with batches of one, after the same trace -- the same calls to the
    page in the same order, the same records, the same pauses -- apart from
    the two log lines that open and close each batch. *)
Theorem batch_size_is_irrelevant (phone_numbers : list str) (message : str)
    (size : Z) (st : state W) :
  1 ≤ size →
  same_operations (send_messages_in_batches phone_numbers message size st)
    (send_messages_in_batches phone_numbers message 1 st).
Proof.
  intros Hsize.
  eapply same_operations_trans; [by apply batches_same_as_each|].
  destruct (batches_same_as_each phone_numbers message 1 st) as (Hr & Hs & Ht);
    [done|].
  by repeat split.
Qed.
End Dispatch.

Lemma batch_size_is_irrelevant_witness :
  1 ≤ 2
  ∧ same_operations
      (send_messages_in_batches [py "111"; py "222"; py "333"] (py "hello") 2
         (State (Sim.start [(py "222", Sim.NoMessageBox)]) (Some [Row header])))
      (send_messages_in_batches [py "111"; py "222"; py "333"] (py "hello") 1
         (State (Sim.start [(py "222", Sim.NoMessageBox)]) (Some [Row header]))).
Proof.
  split; [lia|]. apply batch_size_is_irrelevant. lia.
Defined.

(** ** Containment of per-target errors (C6) *)

(** C6, as stated, fails.  On a page without a message box the wait for
    the box raises a timeout during the target's operation, and the record
    that follows is the bare "Failed", with no diagnostic detail.  On a
    registered number the wait for the alert raises a timeout, and the
    record that follows is one of success, not of failure.  With a batch
    size of zero the loop raises [ValueError] before any target is
    attempted. *)
Lemma box_timeout_is_recorded_without_detail :
  (raises (snd (send_message (py "111") (py "hello") (State no_box_111 (Some [Row header]))))
   = [(WaitForSelector AlertBox 10000, Sim.timeout AlertBox);
      (WaitForSelector MessageBox 10000, Sim.timeout MessageBox)]
   ∧ rows_written (snd (send_message (py "111") (py "hello")
                          (State no_box_111 (Some [Row header]))))
     = [[py "111"; py "Failed"]])
  ∧ (raises (snd (send_message (py "111") (py "hello") one_number))
     = [(WaitForSelector AlertBox 10000, Sim.timeout AlertBox)]
     ∧ rows_written (snd (send_message (py "111") (py "hello") one_number))
       = [[py "111"; sent_successfully]])
  ∧ (fst (fst (send_messages_in_batches [py "111"] (py "hello") 0 one_number))
     = Raise (Error (py "range() arg 3 must not be zero"))
     ∧ gotos (snd (send_messages_in_batches [py "111"] (py "hello") 0 one_number))
       = []).
Proof. repeat split; by vm_compute. Qed.

Section Containment.
Context {W : Type} `{World W}.

Ltac answered :=
  match goal with
  | |- context [effect ?o ?w] =>
      destruct (effect o w) as [[[]|?] ?]; simpl
  | |- context [wait_for_selector ?s ?ms ?w] =>
      destruct (wait_for_selector s ms w) as [[[?|]|[?|?]] ?]; simpl
  | |- context [text_content ?h ?w] =>
      destruct (text_content h w) as [[?|[?|?]] ?]; simpl
  | |- context [random_draw ?w] =>
      destruct (random_draw w) as [? ?]; simpl
  end.

Lemma send_to_each_run (phone_numbers : list str) (message : str) (st : state W) :
  ∃ st' t,
    send_to_each phone_numbers message st = (Ok tt, st', t)
    ∧ gotos t = chat_url <$> phone_numbers
    ∧ Forall2 (fun number row => ∃ o, row = [number; status_of o])
        phone_numbers (rows_written t).
Proof.
  destruct st as [w f].
  destruct (for_each_send_run message phone_numbers w f) as (w' & t & E & Hg & Hr & _).
  unfold send_to_each, bind, log, emit. rewrite E. simpl.
  eexists _, _. split; [reflexivity|].
  change (gotos (Log INFO (Starting_to_send (length phone_numbers))
                 :: t ++ [Log INFO Completed_sending]))
    with (gotos (t ++ [Log INFO Completed_sending])).
  change (rows_written (Log INFO (Starting_to_send (length phone_numbers))
                        :: t ++ [Log INFO Completed_sending]))
    with (rows_written (t ++ [Log INFO Completed_sending])).
  rewrite gotos_app, rows_written_app.
  change (gotos [Log INFO Completed_sending]) with (@nil (list N)).
  change (rows_written [Log INFO Completed_sending]) with (@nil (list (list N))).
  rewrite !app_nil_r. by split.
Qed.

Lemma check_invalid_number_raises (phone_number : str) (st : state W)
    (r : res bool) (st' : state W) (t : list event) :
  check_invalid_number phone_number st = (r, st', t) →
  match r with
  | Ok true => raises t = [] ∧ ∃ reason, outcomes t = [Skipped reason]
  | Ok false => Forall swallowed (raises t) ∧ outcomes t = []
  | Raise e => leaves_with (raises t) e ∧ outcomes t = []
  end.
Proof.
  unfold check_invalid_number, try_except_timeout, try_except, bind,
    waitForSelector, evaluate_textContent, log, writerow, emit, ret, raise.
  simpl. repeat answered; intros [= <- <- <-]; simpl.
  - split; [done|by eexists].
  - split; [by repeat constructor|done].
  - split; [|done]. left. eexists. split; [done|]. by split; intros [].
  - by split.
  - split; [by repeat constructor|done].
  - split; [|done]. left. eexists. split; [done|]. by split; intros [].
Qed.

Lemma find_message_box_raises (phone_number : str) (st : state W)
    (r : res (option (option handle))) (st' : state W) (t : list event) :
  find_message_box phone_number st = (r, st', t) →
  match r with
  | Ok (Some _) => raises t = [] ∧ outcomes t = []
  | Ok None =>
      (∃ c, raises t = [c] ∧ box_timeout c) ∧ outcomes t = [Failed None]
  | Raise e => leaves_with (raises t) e ∧ outcomes t = []
  end.
Proof.
  unfold find_message_box, try_except_timeout, try_except, bind,
    waitForSelector, log, writerow, emit, ret, raise.
  simpl. repeat answered; intros [= <- <- <-]; simpl.
  - done.
  - done.
  - split; [by eexists|done].
  - split; [|done]. left. eexists. split; [done|]. by split; intros [].
Qed.

Lemma type_line_raises (message_box : option handle) (line : str)
    (st : state W) (r : res unit) (st' : state W) (t : list event) :
  type_line message_box line st = (r, st', t) →
  outcomes t = []
  ∧ match r with
    | Ok _ => raises t = []
    | Raise e => leaves_with (raises t) e
    end.
Proof.
  unfold type_line, bind, box_type, call, raise.
  destruct message_box as [element|]; simpl.
  - repeat answered; intros [= <- <- <-]; simpl; (split; [done|]); try done;
      left; eexists; (split; [done|]); by split; intros [].
  - intros [= <- <- <-]. split; [done|]. right. split; [done|]. by left.
Qed.

Lemma type_lines_raises (message_box : option handle) (lines : list str)
    (st : state W) (r : res unit) (st' : state W) (t : list event) :
  for_each lines (type_line message_box) st = (r, st', t) →
  outcomes t = []
  ∧ match r with
    | Ok _ => raises t = []
    | Raise e => leaves_with (raises t) e
    end.
Proof.
  revert st t. induction lines as [|line lines IH]; intros st t; simpl.
  - by intros [= <- <- <-].
  - destruct (type_line message_box line st) as [[r1 s1] t1] eqn:E1.
    rewrite (bind_run _ _ _ _ _ _ E1).
    destruct (type_line_raises _ _ _ _ _ _ E1) as [Ho1 H1].
    destruct r1 as [[]|e1]; [|by intros [= <- <- <-]].
    destruct (for_each lines (type_line message_box) s1) as [[r2 s2] t2] eqn:E2.
    intros [= <- <- <-]. destruct (IH _ _ E2) as [Ho2 H2].
    by rewrite outcomes_app, raises_app, Ho1, Ho2, H1.
Qed.

Lemma type_and_send_raises (phone_number message : str)
    (message_box : option handle) (st : state W) (r : res unit)
    (st' : state W) (t : list event) :
  type_and_send phone_number message message_box st = (r, st', t) →
  match r with
  | Ok _ => raises t = [] ∧ outcomes t = [Success]
  | Raise e => leaves_with (raises t) e ∧ outcomes t = []
  end.
Proof.
  unfold type_and_send.
  destruct (for_each (split_lines message) (type_line message_box) st)
    as [[r1 s1] t1] eqn:E1.
  rewrite (bind_run _ _ _ _ _ _ E1).
  destruct (type_lines_raises _ _ _ _ _ _ E1) as [Ho1 H1].
  destruct r1 as [[]|e1]; [|by intros [= <- <- <-]].
  unfold bind, box_press, call, random_choice, sleep, writerow, log, emit, raise.
  destruct message_box as [element|]; simpl.
  - repeat answered; intros [= <- <- <-];
      rewrite outcomes_app, raises_app, Ho1, H1; simpl; (split; [|done]);
      [done|]. left. eexists. split; [done|]. by split; intros [].
  - intros [= <- <- <-]. rewrite app_nil_r, Ho1, H1. split; [|done].
    right. split; [done|]. by right.
Qed.

(** The outcome of one target is decided by what was raised. *)
Lemma send_message_decided (phone_number message : str) (st : state W)
    (o : outcome) :
  outcomes (snd (send_message phone_number message st)) = [o] →
  decided_by (raises (snd (send_message phone_number message st))) o.
Proof.
  unfold send_message, try_except.
  set (body := bind (log INFO (Processing_number phone_number)) _).
  assert (Hbody : ∀ r s t, body st = (r, s, t) →
    match r with
    | Ok _ => ∀ o, outcomes t = [o] → decided_by (raises t) o
    | Raise e =>
        outcomes t = []
        ∧ ∃ pre, Forall swallowed pre
            ∧ ((∃ o', raises t = pre ++ [(o', e)]
                      ∧ ¬ swallowed (o', e) ∧ ¬ box_timeout (o', e))
               ∨ (raises t = pre ∧ no_box e))
    end).
  { subst body. intros r s t.
    unfold bind at 1 2 3, log, call, sleep, emit. simpl.
    destruct (effect (Goto (chat_url phone_number)) (world st)) as [[[]|e0] w0];
      simpl.
    2: { intros [= <- <- <-]. split; [done|]. exists []. split; [done|].
         left. eexists. split; [done|]. by split; intros []. }
    destruct (check_invalid_number phone_number (State w0 (results st)))
      as [[r1 s1] t1] eqn:E1.
    rewrite (bind_run _ _ _ _ _ _ E1).
    pose proof (check_invalid_number_raises _ _ _ _ _ E1) as H1.
    destruct r1 as [[|]|e1].
    - destruct H1 as [Hr1 [reason Ho1]]. intros [= <- <- <-]. simpl.
      rewrite app_nil_r.
      change (outcomes (_ :: _ :: _ :: t1)) with (outcomes t1).
      change (raises (_ :: Call _ None :: _ :: t1)) with (raises t1).
      rewrite Ho1, Hr1. by intros o' [= <-].
    - destruct H1 as [Hr1 Ho1].
      destruct (find_message_box phone_number s1) as [[r2 s2] t2] eqn:E2.
      rewrite (bind_run _ _ _ _ _ _ E2).
      pose proof (find_message_box_raises _ _ _ _ _ E2) as H2.
      destruct r2 as [[mb|]|e2].
      + destruct H2 as [Hr2 Ho2].
        destruct (type_and_send phone_number message mb s2) as [[r3 s3] t3] eqn:E3.
        pose proof (type_and_send_raises _ _ _ _ _ _ _ E3) as H3.
        intros [= <- <- <-].
        change (outcomes (_ :: _ :: _ :: ?l)) with (outcomes l).
        change (raises (_ :: Call _ None :: _ :: ?l)) with (raises l).
        rewrite !outcomes_app, !raises_app, Ho1, Ho2, Hr2. simpl.
        destruct r3 as [[]|e3]; destruct H3 as [Hr3 Ho3]; rewrite Ho3.
        * rewrite Hr3, app_nil_r. by intros o' [= <-].
        * split; [done|]. exists (raises t1). split; [done|].
          destruct Hr3 as [(o' & -> & Hs & Hb)|[-> Hno]]; [left|right].
          -- by exists o'.
          -- by rewrite app_nil_r.
      + destruct H2 as [(c & Hr2 & Hc) Ho2]. intros [= <- <- <-].
        change (outcomes (_ :: _ :: _ :: ?l)) with (outcomes l).
        change (raises (_ :: Call _ None :: _ :: ?l)) with (raises l).
        rewrite !outcomes_app, !raises_app, Ho1, Ho2, Hr2. simpl.
        intros o' [= <-]. by exists (raises t1), c.
      + destruct H2 as [Hr2 Ho2]. intros [= <- <- <-].
        change (outcomes (_ :: _ :: _ :: ?l)) with (outcomes l).
        change (raises (_ :: Call _ None :: _ :: ?l)) with (raises l).
        rewrite !outcomes_app, !raises_app, Ho1, Ho2. simpl.
        split; [done|]. exists (raises t1). split; [done|].
        destruct Hr2 as [(o' & -> & Hs & Hb)|[-> Hno]]; [left|right].
        * by exists o'.
        * by rewrite app_nil_r.
    - destruct H1 as [Hr1 Ho1]. intros [= <- <- <-].
      change (outcomes (_ :: _ :: _ :: ?l)) with (outcomes l).
      change (raises (_ :: Call _ None :: _ :: ?l)) with (raises l).
      rewrite Ho1. split; [done|]. exists []. split; [done|].
      destruct Hr1 as [(o' & -> & Hs & Hb)|[-> Hno]]; [left|right].
      + by exists o'.
      + done. }
  destruct (body st) as [[r s] t].
  specialize (Hbody _ _ _ eq_refl).
  destruct r as [[]|e]; simpl; [apply Hbody|].
  destruct Hbody as (Ho & pre & Hpre & Hcases).
  unfold bind, log, writerow, sleep, emit. simpl.
  rewrite outcomes_app, raises_app, Ho. simpl. rewrite app_nil_r.
  intros [= <-]. by exists pre.
Qed.

(** C6, amended.  For every sequence of numbers to send, every batch size
    of at least 1 and whatever the page raises, the dispatch loop returns
    normally, having navigated to the chat of each number exactly once, in
    order, and written exactly one record for each, in order.  Within one
    target's operation no exception leaves [send_message], and what was
    raised decides the record: a timeout of the wait for the alert, or of
    the reading of its text, is taken for "no alert" and the operation goes
    on, to a record of success if nothing else is raised; a timeout of the
    wait for the message box is recorded as the plain "Failed"; every other
    exception ends the operation and is recorded as "Failed - " followed by
    the text of that exception. *)
Theorem target_errors_are_contained (phone_numbers : list str) (message : str)
    (size : Z) (st : state W) :
  1 ≤ size →
  (∃ st' t,
     send_messages_in_batches phone_numbers message size st = (Ok tt, st', t)
     ∧ gotos t = chat_url <$> phone_numbers
     ∧ Forall2 (fun number row => ∃ o, row = [number; status_of o])
         phone_numbers (rows_written t))
  ∧ ∀ phone_number w f, ∃ w' t o,
      send_message phone_number message (State w f)
      = (Ok tt,
         State w' (Some (default [] f ++ [Row [phone_number; status_of o]])), t)
      ∧ gotos t = [chat_url phone_number]
      ∧ rows_written t = [[phone_number; status_of o]]
      ∧ outcomes t = [o]
      ∧ decided_by (raises t) o.
Proof.
  intros Hsize. split.
  - destruct (send_to_each_run phone_numbers message st) as (st' & t & E & Hg & Hr).
    pose proof (batches_same_as_each phone_numbers message size st Hsize) as Hsame.
    rewrite E in Hsame.
    destruct (send_messages_in_batches phone_numbers message size st) as [[r s] tb].
    destruct Hsame as (Hres & Hst & Hops). simpl in *. subst r s.
    exists st', tb. split; [done|].
    by rewrite <- (gotos_operations tb), <- (rows_written_operations tb), Hops,
      gotos_operations, rows_written_operations.
  - intros phone_number w f.
    destruct (send_message_run phone_number message w f)
      as (w' & body & o & wait & E & Hb & _ & _).
    apply channel_part_shows in Hb as (Hbg & Hbr & Hbo).
    destruct (closing_shows phone_number o wait) as (Hcg & Hcr & Hco & _).
    assert (Ho : outcomes (body ++ closing phone_number o wait) = [o])
      by (by rewrite outcomes_app, Hbo, Hco).
    pose proof (send_message_decided phone_number message (State w f) o) as Hd.
    rewrite E in Hd. specialize (Hd Ho).
    exists w', (body ++ closing phone_number o wait), o.
    rewrite gotos_app, rows_written_app, Hbg, Hbr, Hcg, Hcr.
    split; [done|]. split; [done|]. split; [done|]. by split.
Qed.
End Containment.

Lemma target_errors_are_contained_witness :
  1 ≤ 5
  ∧ ∃ st' t,
      send_messages_in_batches [py "111"; py "222"] (py "hello") 5 one_number
      = (Ok tt, st', t)
      ∧ gotos t = chat_url <$> [py "111"; py "222"]
      ∧ Forall2 (fun number row => ∃ o, row = [number; status_of o])
          [py "111"; py "222"] (rows_written t).
Proof.
  split; [lia|].
  apply (target_errors_are_contained [py "111"; py "222"] (py "hello") 5 one_number).
  lia.
Defined.

(** ** Pacing (C4) *)

Lemma after_last_none (mark : event → bool) (t : list event) :
  existsb mark t = false → after_last mark t = [].
Proof.
  induction t as [|ev t IH]; simpl; [done|].
  intros [Hev Ht]%orb_false_iff. by rewrite Ht, Hev.
Qed.

Lemma after_last_app_some (mark : event → bool) (t1 t2 : list event) :
  existsb mark t2 = true → after_last mark (t1 ++ t2) = after_last mark t2.
Proof.
  intros Ht2. induction t1 as [|ev t1 IH]; simpl; [done|].
  by rewrite existsb_app, Ht2, orb_true_r.
Qed.

Lemma after_last_app_none (mark : event → bool) (t1 t2 : list event) :
  existsb mark t1 = true → existsb mark t2 = false →
  after_last mark (t1 ++ t2) = after_last mark t1 ++ t2.
Proof.
  intros Ht1 Ht2. induction t1 as [|ev t1 IH]; simpl in *; [done|].
  rewrite existsb_app, Ht2, orb_false_r.
  destruct (existsb mark t1); [by apply IH|].
  rewrite orb_false_r in Ht1. by rewrite Ht1.
Qed.

Lemma after_last_snoc (mark : event → bool) (t : list event) (ev : event) :
  mark ev = true → after_last mark (t ++ [ev]) = [].
Proof.
  intros Hev. rewrite after_last_app_some by (simpl; by rewrite Hev).
  simpl. by rewrite Hev.
Qed.

(** The part that talks to the page ends with a call. *)
Lemma channel_part_ends_with_call (phone_number : str) (body : list event) :
  channel_part phone_number body →
  existsb is_call body = true ∧ after_last is_call body = []
  ∧ existsb is_write body = false.
Proof.
  intros (r0 & rest & -> & [->|(calls & -> & Hne & Hc)]); [done|].
  apply page_calls_silent in Hc as (_ & Hr & _ & _ & Hc).
  split; [done|]. split.
  - destruct (exists_last Hne) as (calls' & ev & ->).
    pose proof (proj1 (Forall_app _ _ _) Hc) as [_ Hev].
    apply Forall_inv in Hev.
    by rewrite !app_comm_cons, after_last_snoc.
  - simpl. clear Hne Hc. unfold rows_written in Hr.
    induction calls as [|ev calls IH]; [done|].
    destruct ev; simpl in *; try done; by apply IH.
Qed.

Lemma pause_after_closing (phone_number : str) (body : list event)
    (o : outcome) (wait : nat) :
  channel_part phone_number body →
  pause_after_record (body ++ closing phone_number o wait ++ [Sleep 1])
  = match o with Failed (Some _) => 11%nat | _ => 1%nat end
  ∧ pause_after_call (body ++ closing phone_number o wait ++ [Sleep 1])
    = match o with
      | Success => (wait + 1)%nat
      | Failed (Some _) => 11%nat
      | _ => 1%nat
      end.
Proof.
  intros (Hcall & Hlast & Hwrite)%channel_part_ends_with_call.
  unfold pause_after_record, pause_after_call. split.
  - rewrite after_last_app_some by (by destruct o as [| |[|]]).
    by destruct o as [| |[|]].
  - rewrite after_last_app_none, Hlast by (done || by destruct o as [| |[|]]).
    destruct o as [| |[|]]; unfold sleeps; simpl; lia.
Qed.

(** C4, as stated, fails.  A number whose message box does not appear is
    classified as failed, and the pause after its record is the same one
    second as after a success; counted from the last call to the page, it
    is shorter than after a success. *)
Lemma plain_failure_is_not_paced :
  outcomes (snd (send_and_pause (py "hello") (py "111")
                   (State (Sim.start [(py "111", Sim.NoMessageBox)]) (Some [Row header]))))
  = [Failed None]
  ∧ outcomes (snd (send_and_pause (py "hello") (py "222")
                     (State (Sim.start [(py "111", Sim.NoMessageBox)]) (Some [Row header]))))
    = [Success]
  ∧ ¬ (pause_after_record
         (snd (send_and_pause (py "hello") (py "222")
                 (State (Sim.start [(py "111", Sim.NoMessageBox)]) (Some [Row header]))))
       < pause_after_record
           (snd (send_and_pause (py "hello") (py "111")
                   (State (Sim.start [(py "111", Sim.NoMessageBox)]) (Some [Row header])))))%nat
  ∧ ¬ (pause_after_call
         (snd (send_and_pause (py "hello") (py "222")
                 (State (Sim.start [(py "111", Sim.NoMessageBox)]) (Some [Row header]))))
       < pause_after_call
           (snd (send_and_pause (py "hello") (py "111")
                   (State (Sim.start [(py "111", Sim.NoMessageBox)]) (Some [Row header])))))%nat.
Proof.
  split; [by vm_compute|]. split; [by vm_compute|].
  split; vm_compute; lia.
Qed.

(** C4, amended.  Every target ends with exactly one outcome, and the
    pause before the next target starts follows from it.  After a failure
    recorded by the outer exception handler ("Failed - " and the text of
    the exception) 11 seconds pass, strictly more than after a success,
    where 1 second passes after the record (2 to 4 seconds after the last
    call to the page, with the wait after the message is sent).  After a
    plain "Failed" (the message box was not found) and after an invalid
    number, 1 second passes: no more than after a success. *)
Theorem pause_follows_outcome {W} `{World W} (message phone_number : str)
    (st : state W) :
  ∃ o,
    outcomes (snd (send_and_pause message phone_number st)) = [o]
    ∧ pause_after_record (snd (send_and_pause message phone_number st))
      = match o with Failed (Some _) => 11%nat | _ => 1%nat end
    ∧ match o with
      | Success =>
          (2 ≤ pause_after_call (snd (send_and_pause message phone_number st)) ≤ 4)%nat
      | Failed (Some _) =>
          pause_after_call (snd (send_and_pause message phone_number st)) = 11%nat
      | _ => pause_after_call (snd (send_and_pause message phone_number st)) = 1%nat
      end.
Proof.
  destruct st as [w f].
  destruct (send_and_pause_run message phone_number w f)
    as (w' & body & o & wait & -> & Hb & Hw & _).
  exists o. simpl.
  destruct (pause_after_closing phone_number body o wait Hb) as [-> ->].
  pose proof (channel_part_shows _ _ Hb) as (_ & _ & Hbo).
  destruct (closing_shows phone_number o wait) as (_ & _ & Hco & _).
  rewrite !outcomes_app, Hbo, Hco. split; [done|]. split; [done|].
  destruct o as [| |[|]]; try done.
  repeat (apply elem_of_cons in Hw as [->|Hw]; [lia|]). by apply elem_of_nil in Hw.
Qed.

(** ** Invalid numbers (C3) *)

(** C3, as stated, fails.  The first run records the invalid number with
    the reason; a second run over the ledger it leaves does not skip the
    number: it navigates to its chat again and records it again. *)
Lemma invalid_number_is_attempted_again :
  results (snd (fst (script true only_222 (State invalid_222 None))))
  = ledger_after_222
  ∧ gotos (snd (script true only_222 (State invalid_222 ledger_after_222)))
    = [qr_url; chat_url (py "222")]
  ∧ rows_written (snd (script true only_222 (State invalid_222 ledger_after_222)))
    = [[py "222"; py "Failed - Invalid number: invalid"]].
Proof. split; [by vm_compute|]. split; by vm_compute. Qed.

Lemma invalid_status_not_sent (reason : str) :
  invalid_status reason ≠ sent_successfully.
Proof.
  unfold invalid_status, sent_successfully. intros Heq.
  apply (f_equal head) in Heq. by vm_compute in Heq.
Qed.

(** C3, amended.  For every target for which the alert appears and its
    text is read, [send_message] appends one record, the number with the
    status "Failed - Invalid number: " followed by the alert's text
    verbatim, and returns without the pause of a failure.  The record is
    not terminal: appended to any ledger it leaves the done set as it was,
    so that on a later run over the same ledger every number is among the
    numbers to send exactly when it was before -- the invalid number is
    attempted again unless a record of success for it exists. *)
Theorem invalid_number_is_recorded_not_terminal {W} `{World W}
    (phone_number message reason : str) (element : handle) (w w1 w2 w3 : W)
    (f : file) (ledger : list line) (phone_numbers : list str) :
  effect (Goto (chat_url phone_number)) w = (Ok tt, w1) →
  wait_for_selector AlertBox 10000 w1 = (Ok (Some element), w2) →
  text_content element w2 = (Ok reason, w3) →
  send_message phone_number message (State w f)
  = (Ok tt,
     State w3 (Some (default [] f
                     ++ [Row [phone_number; py "Failed - Invalid number: " ++ reason]])),
     [Log INFO (Processing_number phone_number);
      Call (Goto (chat_url phone_number)) None;
      Sleep 3;
      Call (WaitForSelector AlertBox 10000) None;
      Call (TextContent element) None;
      Log WARNING (Invalid_phone_number phone_number reason);
      WriteRow [phone_number; py "Failed - Invalid number: " ++ reason]])
  ∧ fst (scan_processed_numbers
           (Some (ledger ++ [Row [phone_number; py "Failed - Invalid number: " ++ reason]])))
    = fst (scan_processed_numbers (Some ledger))
  ∧ to_send phone_numbers
      (fst (scan_processed_numbers
              (Some (ledger ++ [Row [phone_number; py "Failed - Invalid number: " ++ reason]]))))
    = to_send phone_numbers (fst (scan_processed_numbers (Some ledger))).
Proof.
  intros Egoto Ewait Etext.
  assert (Hdone : fst (scan_processed_numbers
      (Some (ledger ++ [Row [phone_number; py "Failed - Invalid number: " ++ reason]])))
    = fst (scan_processed_numbers (Some ledger))).
  { destruct ledger as [|[hd|] records]; simpl; [done| |done].
    apply processed_rows_snoc_other, invalid_status_not_sent. }
  split; [|split; [done|by rewrite Hdone]].
  unfold send_message, try_except, bind, log, call, sleep, emit,
    check_invalid_number, try_except_timeout, try_except, bind, waitForSelector,
    evaluate_textContent, log, writerow, emit, ret.
  simpl. rewrite Egoto. simpl. rewrite Ewait. simpl. by rewrite Etext.
Qed.

Lemma invalid_number_is_recorded_not_terminal_witness :
  send_message (py "222") (py "hello") (State invalid_222 (Some [Row header]))
  = (Ok tt,
     State (Sim.Sim [(py "222", Sim.Invalid (py "invalid"))]
              (Sim.Invalid (py "invalid")) true true)
       (Some (default [] (Some [Row header])
              ++ [Row [py "222"; py "Failed - Invalid number: " ++ py "invalid"]])),
     [Log INFO (Processing_number (py "222"));
      Call (Goto (chat_url (py "222"))) None;
      Sleep 3;
      Call (WaitForSelector AlertBox 10000) None;
      Call (TextContent 1%N) None;
      Log WARNING (Invalid_phone_number (py "222") (py "invalid"));
      WriteRow [py "222"; py "Failed - Invalid number: " ++ py "invalid"]])
  ∧ to_send [py "222"]
      (fst (scan_processed_numbers
              (Some ([Row header]
                     ++ [Row [py "222"; py "Failed - Invalid number: " ++ py "invalid"]]))))
    = to_send [py "222"] (fst (scan_processed_numbers (Some [Row header]))).
Proof.
  assert (Egoto : effect (Goto (chat_url (py "222"))) invalid_222
                  = (Ok tt, Sim.Sim [(py "222", Sim.Invalid (py "invalid"))]
                              (Sim.Invalid (py "invalid")) true true))
    by (vm_compute; reflexivity).
  assert (Ewait : wait_for_selector AlertBox 10000
                    (Sim.Sim [(py "222", Sim.Invalid (py "invalid"))]
                       (Sim.Invalid (py "invalid")) true true)
                  = (Ok (Some 1%N),
                     Sim.Sim [(py "222", Sim.Invalid (py "invalid"))]
                       (Sim.Invalid (py "invalid")) true true))
    by (vm_compute; reflexivity).
  assert (Etext : text_content 1%N
                    (Sim.Sim [(py "222", Sim.Invalid (py "invalid"))]
                       (Sim.Invalid (py "invalid")) true true)
                  = (Ok (py "invalid"),
                     Sim.Sim [(py "222", Sim.Invalid (py "invalid"))]
                       (Sim.Invalid (py "invalid")) true true))
    by (vm_compute; reflexivity).
  destruct (invalid_number_is_recorded_not_terminal (py "222") (py "hello")
              (py "invalid") 1%N invalid_222 _ _ _
              (Some [Row header]) [Row header] [py "222"]
              Egoto Ewait Etext) as (Hrun & _ & Hsend).
  split; [exact Hrun|exact Hsend].
Defined.

(** ** Exit status (C7) *)

Section Started.
Context {W : Type} `{World W}.

Lemma close_browser_and_page_run (w : W) (f : file) :
  ∃ w' tclose,
    close_browser_and_page true (State w f) = (Ok tt, State w' f, tclose)
    ∧ calls tclose = match raised (fst (effect PageClose w)) with
                     | None => [PageClose; BrowserClose]
                     | Some _ => [PageClose]
                     end
    ∧ rows_written tclose = [] ∧ gotos tclose = [] ∧ Forall aside tclose.
Proof.
  unfold close_browser_and_page, try_except, bind, call, log, emit.
  cbn [world results].
  destruct (effect PageClose w) as [[[]|e] w1] eqn:Hpage; cbn [world results].
  - destruct (effect BrowserClose w1) as [[[]|e] w2]; eexists _, _;
      (split; [reflexivity|]); repeat split; by repeat constructor.
  - eexists _, _. split; [reflexivity|]. repeat split; by repeat constructor.
Qed.

Lemma send_messages_in_batches_run (phone_numbers : list str) (message : str)
    (size : Z) (w : W) (rows : list line) :
  1 ≤ size →
  ∃ w' t,
    send_messages_in_batches phone_numbers message size (State w (Some rows))
    = (Ok tt, State w' (Some (rows ++ (Row <$> rows_written t))), t)
    ∧ gotos t = chat_url <$> phone_numbers
    ∧ Forall2 (fun number row => ∃ o, row = [number; status_of o])
        phone_numbers (rows_written t).
Proof.
  intros Hsize.
  destruct (batches_same_as_each phone_numbers message size (State w (Some rows)) Hsize)
    as (Hr & Hs & Ho).
  destruct (for_each_send_run message phone_numbers w (Some rows))
    as (w' & t & E & Hg & Hrows & _).
  assert (Eflat : send_to_each phone_numbers message (State w (Some rows))
                  = (Ok tt,
                     State w' (match phone_numbers with
                               | [] => Some rows
                               | _ => Some (rows ++ (Row <$> rows_written t))
                               end),
                     Log INFO (Starting_to_send (length phone_numbers))
                     :: t ++ [Log INFO Completed_sending])).
  { unfold send_to_each, bind, log, emit. by rewrite E. }
  rewrite Eflat in Hr, Hs, Ho.
  destruct (send_messages_in_batches phone_numbers message size (State w (Some rows)))
    as [[r s] tb].
  cbn [fst snd] in Hr, Hs, Ho. subst r s.
  assert (Hw : rows_written tb = rows_written t).
  { rewrite <- (rows_written_operations tb), Ho, rows_written_operations.
    change (rows_written (t ++ [Log INFO Completed_sending]) = rows_written t).
    by rewrite rows_written_app, app_nil_r. }
  assert (Hgo : gotos tb = gotos t).
  { rewrite <- (gotos_operations tb), Ho, gotos_operations.
    change (gotos (t ++ [Log INFO Completed_sending]) = gotos t).
    by rewrite gotos_app, app_nil_r. }
  exists w', tb. rewrite Hw, Hgo. split; [|by split].
  f_equal. f_equal. destruct phone_numbers as [|p l]; [|done].
  apply Forall2_nil_inv_l in Hrows. rewrite Hrows. simpl. by rewrite app_nil_r.
Qed.

Lemma session_block_run (body : M W unit) (w w' w2 : W) (f f2 : file)
    (tb : list event) :
  session_opens w w' →
  body (State w' f) = (Ok tt, State w2 f2, tb) →
  ∃ w3 tclose,
    get_browser_and_page body (State w f)
    = (Ok tt, State w3 f2, opening ++ tb ++ tclose)
    ∧ gotos tclose = [] ∧ rows_written tclose = [] ∧ Forall aside tclose.
Proof.
  intros (w1 & wp & wq & element & Hlaunch & Hpage & Hgoto & Hlogin) Hbody.
  unfold qr_url in Hgoto.
  destruct (close_browser_and_page_run w2 f2)
    as (w3 & tclose & Hclose & _ & Hrows & Hgotos & Haside).
  exists w3, tclose. split; [|by repeat split].
  unfold get_browser_and_page, attempt. unfold bind at 1. unfold bind at 1.
  unfold call at 1. cbn [world results]. rewrite Hlaunch.
  unfold call at 1. cbn [world results]. rewrite Hpage.
  unfold try_finally, try_except, handle_qr_scan. unfold bind at 1.
  unfold bind at 1. unfold call at 1. cbn [world results]. rewrite Hgoto.
  unfold bind at 1. unfold print at 1, emit at 1.
  unfold bind at 1. unfold waitForSelector at 1. cbn [world results].
  rewrite Hlogin. unfold ret at 1. rewrite Hbody, Hclose. by rewrite !app_nil_r.
Qed.

Lemma initialize_output_run (f : file) (w w0 : W) :
  results_ready f w w0 →
  ∃ t0,
    initialize_output f (State w f) = (Ok true, State w0 (Some (started_ledger f)), t0)
    ∧ gotos t0 = []
    ∧ rows_written t0 = match f with Some _ => [] | None => [header] end
    ∧ Forall aside t0.
Proof.
  destruct f as [rows|]; simpl.
  - intros ->. by exists [].
  - intros Hopen.
    unfold try_except, open_write, bind, call, writerow, log, emit, ret.
    cbn [world results]. rewrite Hopen. eexists. split; [reflexivity|].
    repeat split. by repeat constructor.
Qed.

(** *** What holds of every event of a run *)

Lemma forall_bind {A B} (P : event → Prop) (m : M W A) (k : A → M W B) st :
  Forall P (snd (m st)) →
  (∀ a st1, Forall P (snd (k a st1))) →
  Forall P (snd (bind m k st)).
Proof.
  intros Hm Hk. unfold bind. destruct (m st) as [[[a|e] st1] t1]; [|done].
  specialize (Hk a st1). destruct (k a st1) as [[r st2] t2].
  by apply Forall_app.
Qed.

Lemma forall_for_each {A} (P : event → Prop) (l : list A)
    (body : A → M W unit) st :
  (∀ x st1, Forall P (snd (body x st1))) →
  Forall P (snd (for_each l body st)).
Proof.
  intros Hbody. revert st. induction l as [|x l IH]; intros st; [done|].
  cbn [for_each]. apply forall_bind; [apply Hbody|]. intros _ st1. apply IH.
Qed.

Lemma batches_forall (P : event → Prop) (message : str) :
  (∀ ev, aside ev → P ev) →
  (∀ p st, Forall P (snd (send_message p message st))) →
  ∀ l size st, Forall P (snd (send_messages_in_batches l message size st)).
Proof.
  intros Haside Hsend l size st. unfold send_messages_in_batches.
  apply forall_bind; [by repeat constructor; apply Haside|]. intros _ st1.
  apply forall_bind; [|intros; by repeat constructor; apply Haside].
  destruct (py_range _ size) as [indices|e]; [|done].
  apply forall_for_each. intros i st2.
  apply forall_bind; [by repeat constructor; apply Haside|]. intros _ st3.
  apply forall_bind; [|intros; by repeat constructor; apply Haside].
  apply forall_for_each. intros p st4. unfold send_and_pause.
  apply forall_bind; [apply Hsend|]. intros. by repeat constructor; apply Haside.
Qed.



(** *** A session that cannot be obtained *)


(** *** The readers, with what they log *)

Lemma readers_run (a : args) (f : file) (st : state W) :
  ∃ l1 n1 l2 n2 l3 n3,
    aside (Log l1 n1) ∧ aside (Log l2 n2) ∧ aside (Log l3 n3)
    ∧ read_phone_numbers_from_csv (phone_csv a) st
      = (Ok (fst (scan_phone_numbers (phone_csv a))), st, [Log l1 n1])
    ∧ read_message_from_text (message_txt a) st
      = (Ok (message_read (message_txt a)), st, [Log l2 n2])
    ∧ read_processed_numbers f st
      = (Ok (fst (scan_processed_numbers f)), st, [Log l3 n3]).
Proof.
  unfold read_phone_numbers_from_csv, read_message_from_text, read_processed_numbers.
  destruct (scan_phone_numbers (phone_csv a)) as [l1 [e1|]];
    destruct (message_txt a) as [text|];
    destruct (scan_processed_numbers f) as [l3 [e3|]];
    eexists _, _, _, _, _, _; by repeat split.
Qed.

(** *** A run whose session opens *)

Lemma open_session_run (P : event → Prop) (a : args) (f : file)
    (w w0 w1 w2 : W) :
  let pending :=
    to_send (fst (scan_phone_numbers (phone_csv a))) (fst (scan_processed_numbers f)) in
  (∀ ev, aside ev → P ev) →
  (∀ p st, Forall P (snd (send_message p (message_read (message_txt a)) st))) →
  pending ≠ [] →
  1 ≤ batch_size a →
  results_ready f w w0 →
  effect (OpenResults Append_) w0 = (Ok tt, w1) →
  session_opens w1 w2 →
  ∃ w' records t,
    script true a (State w f)
    = (Ok tt, State w' (Some (started_ledger f ++ (Row <$> records))), t)
    ∧ gotos t = qr_url :: (chat_url <$> pending)
    ∧ rows_written t
      = match f with Some _ => [] | None => [header] end ++ records
    ∧ Forall2 (fun number row => ∃ o, row = [number; status_of o])
        pending records
    ∧ Forall P t.
Proof.
  intros pending Haside Hsend Hpending Hsize Hready Happend Hopens.
  destruct (readers_run a f (State w f))
    as (l1 & n1 & l2 & n2 & l3 & n3 & Ha1 & Ha2 & Ha3 & E1 & E2 & E3).
  destruct (initialize_output_run f w w0 Hready) as (t0 & E4 & Hg0 & Hr0 & Ha0).
  destruct (send_messages_in_batches_run pending (message_read (message_txt a))
              (batch_size a) w2 (started_ledger f) Hsize)
    as (w3 & tb & E5 & Hgb & Hrb).
  pose proof (batches_forall P _ Haside Hsend pending (batch_size a)
                (State w2 (Some (started_ledger f)))) as Hpb.
  rewrite E5 in Hpb. cbn [snd] in Hpb.
  destruct (session_block_run _ _ _ _ _ _ _ Hopens E5)
    as (w4 & tclose & E6 & Hgc & Hrc & Hac).
  exists w4, (rows_written tb).
  unfold script. unfold bind at 1. unfold ret at 1. unfold try_except, main.
  rewrite (bind_run _ _ _ _ _ _ E1), (bind_run _ _ _ _ _ _ E2).
  fold pending.
  destruct (scan_phone_numbers (phone_csv a)).1 as [|p0 l0] eqn:Hl; [done|].
  unfold bind at 1. unfold get_results at 1.
  rewrite (bind_run _ _ _ _ _ _ E3). fold pending.
  destruct pending as [|p rest] eqn:Hp; [done|].
  unfold bind at 1. unfold get_results at 1.
  rewrite (bind_run _ _ _ _ _ _ E4).
  unfold try_finally, try_except. unfold bind at 1. unfold open_append at 1.
  unfold bind at 1. unfold call at 1. cbn [world results]. rewrite Happend.
  cbn [world results].
  replace (Some (default [] (Some (started_ledger f)))) with (Some (started_ledger f))
    by done.
  rewrite E6. unfold bind, log, print, emit. cbn [fst snd].
  eexists. split; [reflexivity|].
  split; [|split; [|split; [done|]]].
  - rewrite !gotos_app, Hg0, Hgb, Hgc. simpl. by rewrite ?app_nil_r.
  - rewrite !rows_written_app, Hr0, Hrc. simpl. by rewrite ?app_nil_r.
  - assert (Hopening : Forall P opening)
      by (repeat constructor; by apply Haside).
    rewrite !Forall_app. repeat split; try done;
      try (by repeat constructor; apply Haside);
      try (eapply Forall_impl; [eassumption|exact Haside]).
Qed.
End Started.




(** ** The ledger across a cut (C5) *)






(** * Further properties *)

(** ** The done set as the ledger grows *)

Lemma processed_rows_keeps (rows : list line) (acc : gset str) :
  acc ⊆ fst (processed_rows rows acc).
Proof.
  revert acc. induction rows as [|l rows IH]; intros acc; simpl; [done|].
  destruct l as [[|c0 [|c1 more]]|]; simpl; try done.
  destruct (decide (c1 = sent_successfully)); [|done].
  etrans; [|apply IH]. apply union_subseteq_l.
Qed.

Lemma processed_rows_app_grows (rows more : list line) (acc : gset str) :
  fst (processed_rows rows acc) ⊆ fst (processed_rows (rows ++ more) acc).
Proof.
  revert acc. induction rows as [|l rows IH]; intros acc; simpl.
  - apply processed_rows_keeps.
  - destruct l as [[|c0 [|c1 rest]]|]; simpl; try done.
    destruct (decide (c1 = sent_successfully)); apply IH.
Qed.

(** X1.  Success is sticky: whatever rows are added at the end of a
    ledger -- records of failure for the same target, malformed rows,
    anything -- every target that was in the done set is still in it. *)
Theorem done_set_grows_with_ledger (ledger more : list line) :
  fst (scan_processed_numbers (Some ledger))
  ⊆ fst (scan_processed_numbers (Some (ledger ++ more))).
Proof.
  destruct ledger as [|[hd|] records]; simpl; [apply empty_subseteq| |done].
  apply processed_rows_app_grows.
Qed.

(** X2.  No run of the script, in any world, takes a target out of the
    done set: the done set read from the results file after the run
    includes the one read before it. *)
Theorem done_set_survives_a_run {W} `{World W} (chrome_found : bool)
    (a : args) (st : state W) :
  fst (scan_processed_numbers (results st))
  ⊆ fst (scan_processed_numbers (results (snd (fst (script chrome_found a st))))).
Proof.
  destruct (respects_script (fun _ => True) chrome_found a st) as [[more Hmore] _];
    [done..|].
  destruct (results st) as [ledger|]; [|apply empty_subseteq].
  destruct (results (snd (fst (script chrome_found a st)))) as [after|];
    simpl in Hmore.
  - rewrite Hmore. apply done_set_grows_with_ledger.
  - symmetry in Hmore. apply app_eq_nil in Hmore as [-> _]. apply empty_subseteq.
Qed.

(** ** Canonical numbers on both sides of the comparison *)

Lemma clean_number_canonical (x : str) : canonical (clean_number x).
Proof.
  split; [apply clean_number_all_digits|].
  apply clean_number_of_digits, clean_number_all_digits.
Qed.

Lemma phone_rows_canonical (rows : list line) (acc : list str) :
  Forall canonical acc → Forall canonical (fst (phone_rows rows acc)).
Proof.
  revert acc. induction rows as [|l rows IH]; intros acc Hacc; simpl; [done|].
  destruct l as [[|c0 more]|]; simpl; [by apply IH| |done].
  apply IH, Forall_app. split; [done|].
  constructor; [apply clean_number_canonical|constructor].
Qed.

Lemma processed_rows_canonical (rows : list line) (acc : gset str) :
  set_Forall canonical acc → set_Forall canonical (fst (processed_rows rows acc)).
Proof.
  revert acc. induction rows as [|l rows IH]; intros acc Hacc; simpl; [done|].
  destruct l as [[|c0 [|c1 more]]|]; simpl; try done; [by apply IH|].
  destruct (decide (c1 = sent_successfully)); [|by apply IH].
  apply IH. apply set_Forall_union; [done|].
  apply set_Forall_singleton, clean_number_canonical.
Qed.

(** X3.  Whatever the two files hold, the numbers loaded from the input
    list and the targets of the done set are all in canonical form (only
    decimal digits, unchanged by canonicalization), so that the test
    [num not in processed_numbers] always compares canonical forms. *)
Theorem loaded_and_done_numbers_are_canonical (input ledger : file) :
  Forall canonical (fst (scan_phone_numbers input))
  ∧ set_Forall canonical (fst (scan_processed_numbers ledger)).
Proof.
  split.
  - destruct input as [[|[hd|] rows]|]; simpl; try done.
    by apply phone_rows_canonical.
  - destruct ledger as [[|[hd|] rows]|]; simpl;
      try (intros x Hx; by apply elem_of_empty in Hx).
    apply processed_rows_canonical. intros x Hx. by apply elem_of_empty in Hx.
Qed.

(** ** A list that cannot be read to its end *)

(** X4.  The header row is never loaded as a number, and a list that stops
    being readable midway is not refused: the loader logs the error,
    raises nothing, and returns the canonical forms of the rows before the
    unreadable one, with which the run goes on. *)
Theorem partial_list_is_loaded_silently {W} `{World W} (st : state W)
    (hd : list str) (rows : list (list str)) (rest : list line) :
  read_phone_numbers_from_csv (Some (Row hd :: (Row <$> rows) ++ Corrupt :: rest)) st
  = (Ok (clean_number <$> omap head rows), st,
     [Log ERROR (Failed_to_read_phone_numbers (Error (py "cannot read row")))])
  ∧ read_phone_numbers_from_csv (Some (Row hd :: (Row <$> rows))) st
    = (Ok (clean_number <$> omap head rows), st,
       [Log INFO (Read_phone_numbers (length (omap head rows)))]).
Proof.
  assert (Hcut : ∀ acc, phone_rows ((Row <$> rows) ++ Corrupt :: rest) acc
                        = (acc ++ (clean_number <$> omap head rows),
                           Some (Error (py "cannot read row")))).
  { induction rows as [|r rows IH]; intros acc; simpl.
    - by rewrite app_nil_r.
    - destruct r as [|c0 r]; simpl; [apply IH|].
      rewrite IH. by rewrite <- app_assoc. }
  unfold read_phone_numbers_from_csv, scan_phone_numbers, skip_header.
  rewrite Hcut, phone_rows_all_rows. simpl. by rewrite length_fmap.
Qed.

(** ** The message *)









Lemma split_lines_nonempty (s : str) : split_lines s ≠ [].
Proof.
  induction s as [|c s IH]; simpl; [done|].
  destruct (N.eqb c 10); [done|]. by destruct (split_lines s).
Qed.

(** X6.  Splitting the message at its line breaks loses nothing: the
    pieces, joined by line breaks, are the message; no piece holds a line
    break; and there is one piece more than the message has line breaks
    (the empty message gives one empty piece, so the loop of lines 154-158
    always runs at least once). *)
Theorem split_lines_round_trip (message : str) :
  join_lines (split_lines message) = message
  ∧ Forall (fun piece => 10%N ∉ piece) (split_lines message)
  ∧ length (split_lines message)
    = S (length (List.filter (fun c => N.eqb c 10) message)).
Proof.
  induction message as [|c s (Hjoin & Hpieces & Hlen)]; simpl.
  - split; [done|]. split; [|done]. constructor; [|constructor].
    apply not_elem_of_nil.
  - pose proof (split_lines_nonempty s) as Hne.
    destruct (N.eqb_spec c 10) as [->|Hc].
    + split; [|split; [|simpl; by rewrite Hlen]].
      * simpl. destruct (split_lines s); [done|]. by rewrite Hjoin.
      * constructor; [apply not_elem_of_nil|done].
    + destruct (split_lines s) as [|l ls]; [done|].
      split; [|split; [|done]].
      * simpl in *. destruct ls; [by rewrite Hjoin|]. simpl. by rewrite <- Hjoin.
      * inversion Hpieces as [|? ? Hl Hls]; subst. constructor; [|done].
        intros [?|?]%elem_of_cons; [by subst|done].
Qed.

(** ** Batches *)

Lemma py_range_exact (stop step : Z) :
  1 ≤ step → 0 ≤ stop →
  ∃ count : nat,
    py_range stop step = Ok ((fun k => k * step) <$> seqZ 0 (Z.of_nat count))
    ∧ stop ≤ Z.of_nat count * step
    ∧ (Z.of_nat count - 1) * step < stop ∨ (stop = 0 ∧ py_range stop step = Ok []).
Proof.
  intros Hstep Hstop. unfold py_range.
  destruct (Z.eqb_spec step 0); [lia|].
  destruct (Z.ltb_spec 0 step); [|lia]. simpl.
  destruct (Z.ltb_spec 0 stop).
  - exists (Z.to_nat ((stop - 1) / step + 1)).
    assert (0 ≤ (stop - 1) / step) by (apply Z.div_pos; lia).
    rewrite Z2Nat.id by lia. left. split; [done|].
    pose proof (Z.div_mod (stop - 1) step ltac:(lia)).
    pose proof (Z.mod_pos_bound (stop - 1) step ltac:(lia)). nia.
  - exists 0%nat. right. split; [lia|].
    destruct (Z.ltb_spec step 0); [lia|]. by destruct (Z.ltb_spec stop 0).
Qed.

Lemma slices_cover {A} (l : list A) (size : Z) (count first : nat) :
  1 ≤ size →
  concat ((fun i => py_slice l i (i + size))
            <$> ((fun k => k * size) <$> seqZ (Z.of_nat first) (Z.of_nat count)))
  = take (count * Z.to_nat size) (drop (first * Z.to_nat size) l).
Proof.
  intros Hsize. revert first. induction count as [|count IH]; intros first.
  - done.
  - rewrite seqZ_cons by lia. rewrite !fmap_cons. simpl concat.
    replace (Z.succ (Z.of_nat first)) with (Z.of_nat (S first)) by lia.
    replace (Z.pred (Z.of_nat (S count))) with (Z.of_nat count) by lia.
    rewrite IH, py_slice_take_drop by lia.
    replace (Z.to_nat (Z.of_nat first * size + size - Z.of_nat first * size))
      with (Z.to_nat size) by lia.
    replace (Z.to_nat (Z.of_nat first * size)) with (first * Z.to_nat size)%nat by lia.
    replace (S count * Z.to_nat size)%nat
      with (Z.to_nat size + count * Z.to_nat size)%nat by lia.
    rewrite <- take_take_drop, drop_drop. do 3 f_equal. lia.
Qed.

(** X7.  For a batch size of at least 1 the batches are a partition of the
    numbers to send: taken in order they give back the list, none is
    empty, none is longer than the batch size, and the numbers logged for
    them count up from 1. *)
Theorem batches_partition_the_list {A} (l : list A) (size : Z) :
  1 ≤ size →
  ∃ indices,
    py_range (Z.of_nat (length l)) size = Ok indices
    ∧ concat ((fun i => py_slice l i (i + size)) <$> indices) = l
    ∧ Forall (fun i => (1 ≤ length (py_slice l i (i + size)) ≤ Z.to_nat size)%nat)
        indices
    ∧ (fun i => i / size + 1) <$> indices = seqZ 1 (Z.of_nat (length indices)).
Proof.
  intros Hsize.
  destruct (py_range_exact (Z.of_nat (length l)) size) as (count & Hcount);
    [done|lia|].
  assert (Hnum : ∀ n first : nat,
    (fun i => i / size + 1) <$> ((fun k => k * size) <$> seqZ (Z.of_nat first) (Z.of_nat n))
    = seqZ (Z.of_nat first + 1) (Z.of_nat n)).
  { induction n as [|n IH]; intros first; [done|].
    rewrite (seqZ_cons (Z.of_nat first) (Z.of_nat (S n))) by lia.
    rewrite (seqZ_cons (Z.of_nat first + 1) (Z.of_nat (S n))) by lia.
    rewrite !fmap_cons.
    replace (Z.succ (Z.of_nat first)) with (Z.of_nat (S first)) by lia.
    replace (Z.pred (Z.of_nat (S n))) with (Z.of_nat n) by lia.
    rewrite IH, Z.div_mul by lia. do 2 f_equal. lia. }
  destruct Hcount as [(Hrange & Hup & Hlow)|(Hzero & Hrange)].
  - eexists. split; [exact Hrange|]. split; [|split].
    + pose proof (slices_cover l size count 0 Hsize) as Hcover.
      rewrite Nat.mul_0_l, drop_0, take_ge in Hcover by nia. exact Hcover.
    + apply Forall_fmap, Forall_forall. intros k Hk.
      apply elem_of_seqZ in Hk. simpl.
      rewrite py_slice_take_drop by nia.
      rewrite length_take, length_drop.
      replace (Z.to_nat (k * size + size - k * size)) with (Z.to_nat size) by lia.
      nia.
    + rewrite length_fmap, length_seqZ, Nat2Z.id. apply (Hnum count 0%nat).
  - rewrite Hrange. exists []. split; [done|].
    destruct l; [|simpl in Hzero; lia]. by repeat split.
Qed.

Lemma batches_partition_the_list_witness :
  1 ≤ 2
  ∧ ∃ indices,
      py_range (Z.of_nat (length [py "111"; py "222"; py "333"])) 2 = Ok indices
      ∧ concat ((fun i => py_slice [py "111"; py "222"; py "333"] i (i + 2)) <$> indices)
        = [py "111"; py "222"; py "333"].
Proof.
  split; [lia|].
  destruct (batches_partition_the_list [py "111"; py "222"; py "333"] 2)
    as (indices & Hrange & Hcover & _); [lia|].
  exists indices. split; [exact Hrange|exact Hcover].
Defined.

(** X8.  A batch size below 1 sends nothing.  With a batch size of zero the
    loop raises [ValueError] right after its first log line, for every list
    of numbers, the empty one too; with a negative batch size it returns
    normally and logs that it completed sending to all numbers.  In both
    cases no page is visited, no record is written and the state is left
    as it was. *)
Theorem batch_size_below_one_sends_nothing {W} `{World W}
    (phone_numbers : list str) (message : str) (size : Z) (st : state W) :
  size ≤ 0 →
  send_messages_in_batches phone_numbers message size st
  = if size =? 0
    then (Raise (Error (py "range() arg 3 must not be zero")), st,
          [Log INFO (Starting_to_send (length phone_numbers))])
    else (Ok tt, st,
          [Log INFO (Starting_to_send (length phone_numbers));
           Log INFO Completed_sending]).
Proof.
  intros Hsize. unfold send_messages_in_batches, py_range.
  destruct (Z.eqb_spec size 0) as [->|Hne]; [done|].
  destruct (Z.ltb_spec 0 size); [lia|].
  destruct (Z.ltb_spec size 0); [|lia].
  destruct (Z.ltb_spec (Z.of_nat (length phone_numbers)) 0); [lia|]. done.
Qed.

Lemma batch_size_below_one_sends_nothing_witness :
  -1 ≤ 0
  ∧ send_messages_in_batches [py "111"; py "222"] (py "hello") (-1) one_number
    = (Ok tt, one_number,
       [Log INFO (Starting_to_send 2); Log INFO Completed_sending]).
Proof.
  split; [lia|].
  apply (batch_size_below_one_sends_nothing [py "111"; py "222"] (py "hello")
           (-1) one_number).
  lia.
Defined.

(** ** Runs that end before the browser starts *)

(** X9.  When nothing is left to send -- the input list is empty or cannot
    be read, or every number of it is in the done set -- the script ends
    normally without a single call to the world: no file is opened for
    writing, no browser is started, and the results file is left as it
    was, not even created. *)
Theorem nothing_to_send_calls_nothing {W} `{World W} (a : args) (st : state W) :
  to_send (fst (scan_phone_numbers (phone_csv a)))
    (fst (scan_processed_numbers (results st))) = [] →
  ∃ t, script true a st = (Ok tt, st, t)
       ∧ calls t = [] ∧ rows_written t = []
       ∧ (last t = Some (Print No_phone_numbers)
          ∨ last t = Some (Print All_processed)).
Proof.
  intros Hsend.
  destruct (read_phone_numbers_from_csv_run (phone_csv a) st) as (l1 & n1 & E1).
  destruct (read_message_from_text_run (message_txt a) st) as (l2 & n2 & message & E2).
  destruct (read_processed_numbers_run (results st) st) as (l3 & n3 & E3).
  unfold script. unfold bind at 1. unfold ret at 1. unfold try_except, main.
  rewrite (bind_run _ _ _ _ _ _ E1), (bind_run _ _ _ _ _ _ E2).
  destruct (fst (scan_phone_numbers (phone_csv a))) as [|p0 phone_numbers].
  - eexists. split; [reflexivity|]. split; [done|]. split; [done|]. by left.
  - unfold bind at 1. unfold get_results at 1.
    rewrite (bind_run _ _ _ _ _ _ E3), Hsend.
    eexists. split; [reflexivity|]. split; [done|]. split; [done|]. by right.
Qed.

Lemma nothing_to_send_calls_nothing_witness :
  ∃ t, script true
         (Args (phone_file [py "+111"]) (Some (py "hello")) 5)
         (State (Sim.start []) (Some [Row header; Row [py "111"; sent_successfully]]))
       = (Ok tt,
          State (Sim.start []) (Some [Row header; Row [py "111"; sent_successfully]]),
          t)
       ∧ calls t = [] ∧ rows_written t = []
       ∧ (last t = Some (Print No_phone_numbers)
          ∨ last t = Some (Print All_processed)).
Proof.
  apply (nothing_to_send_calls_nothing
           (Args (phone_file [py "+111"]) (Some (py "hello")) 5)
           (State (Sim.start []) (Some [Row header; Row [py "111"; sent_successfully]]))).
  vm_compute. reflexivity.
Defined.

(** X10.  When the results file does not exist and there are numbers to
    send, the file is created with the header row alone before anything
    else is done; if it cannot be created the run stops there: the error is
    logged and printed, no browser is started, nothing is sent, and [main]
    returns without the closing messages of its [finally] block. *)
Theorem missing_results_file_is_created_or_run_stops {W} `{World W}
    (a : args) (w w1 : W) (e : exn) (p : str) (rest : list str) :
  to_send (fst (scan_phone_numbers (phone_csv a))) ∅ = p :: rest →
  effect (OpenResults Write_) w = (Raise e, w1) →
  (∃ t0, script true a (State w None)
         = (Ok tt, State w1 None,
            t0 ++ [Call (OpenResults Write_) (Some e);
                   Log ERROR (Failed_to_initialize e);
                   Print (Failed_to_initialize e)])
         ∧ calls t0 = [])
  ∧ ∀ w2, initialize_output None (State w2 None)
          = match effect (OpenResults Write_) w2 with
            | (Ok _, w3) =>
                (Ok true, State w3 (Some [Row header]),
                 [Call (OpenResults Write_) None; WriteRow header;
                  Log INFO Initialized_with_headers])
            | (Raise e2, w3) =>
                (Ok false, State w3 None,
                 [Call (OpenResults Write_) (Some e2);
                  Log ERROR (Failed_to_initialize e2);
                  Print (Failed_to_initialize e2)])
            end.
Proof.
  intros Hsend Hopen. split.
  - destruct (read_phone_numbers_from_csv_run (phone_csv a) (State w None))
      as (l1 & n1 & E1).
    destruct (read_message_from_text_run (message_txt a) (State w None))
      as (l2 & n2 & message & E2).
    destruct (read_processed_numbers_run None (State w None)) as (l3 & n3 & E3).
    exists [Log l1 n1; Log l2 n2; Log l3 n3]. split; [|done].
    unfold script. unfold bind at 1. unfold ret at 1. unfold try_except, main.
    rewrite (bind_run _ _ _ _ _ _ E1), (bind_run _ _ _ _ _ _ E2).
    destruct (fst (scan_phone_numbers (phone_csv a))) as [|p0 phone_numbers];
      [done|].
    unfold bind at 1. unfold get_results at 1. cbn [results].
    rewrite (bind_run _ _ _ _ _ _ E3).
    change (fst (scan_processed_numbers None)) with (∅ : gset (list N)).
    rewrite Hsend.
    unfold bind at 1. unfold get_results at 1. cbn [results].
    unfold initialize_output, try_except, open_write, bind, call, writerow, log,
      print, emit, ret.
    cbn [world results]. by rewrite Hopen.
  - intros w2.
    unfold initialize_output, try_except, open_write, bind, call, writerow, log,
      print, emit, ret.
    cbn [world results]. by destruct (effect (OpenResults Write_) w2) as [[[]|e2] w3].
Qed.

Lemma missing_results_file_is_created_or_run_stops_witness :
  ∃ t0, script true only_222
          (State [Script.Raises (Error (py "Permission denied"))] None)
        = (Ok tt, State [] None,
           t0 ++ [Call (OpenResults Write_) (Some (Error (py "Permission denied")));
                  Log ERROR (Failed_to_initialize (Error (py "Permission denied")));
                  Print (Failed_to_initialize (Error (py "Permission denied")))])
        ∧ calls t0 = [].
Proof.
  assert (Hsend : to_send (fst (scan_phone_numbers (phone_csv only_222))) ∅
                  = py "222" :: [])
    by (vm_compute; reflexivity).
  assert (Hopen : effect (OpenResults Write_)
                    [Script.Raises (Error (py "Permission denied"))]
                  = (Raise (Error (py "Permission denied")), []))
    by reflexivity.
  exact (proj1 (missing_results_file_is_created_or_run_stops only_222 _ _ _ _ _
                  Hsend Hopen)).
Defined.

(** ** The browser session *)

Section Session.
Context {W : Type} `{World W}.

(** X11.  When the session cannot be set up, the block under
    [get_browser_and_page] never runs and the exception of the setup is the
    one the [async with] raises; a failure of the cleanup is logged, never
    raised.  If Chrome does not start, nothing is closed.  If Chrome starts
    and no page can be created, the cleanup fails on the unassigned [page]
    before it reaches [browser.close()]: the browser that was started is
    left open. *)
Theorem failed_setup_skips_the_block (body : M W unit) (w w1 w2 : W)
    (f : file) (e : exn) :
  (effect Launch w = (Raise e, w1) →
   get_browser_and_page body (State w f)
   = (Raise e, State w1 f,
      [Call Launch (Some e);
       Log ERROR (Error_initializing_browser_and_page e);
       Log ERROR (Error_closing_browser_page
                    (Error (py "cannot access local variable 'page' where it is not associated with a value")))]))
  ∧ (effect Launch w = (Ok tt, w1) → effect NewPage w1 = (Raise e, w2) →
     get_browser_and_page body (State w f)
     = (Raise e, State w2 f,
        [Call Launch None; Call NewPage (Some e);
         Log ERROR (Error_initializing_browser_and_page e);
         Log ERROR (Error_closing_browser_page
                      (Error (py "cannot access local variable 'page' where it is not associated with a value")))])).
Proof.
  split.
  - intros Hlaunch.
    unfold get_browser_and_page, attempt, try_finally, log_and_reraise,
      close_browser_and_page, try_except, bind, call, log, emit, raise.
    cbn [world results]. by rewrite Hlaunch.
  - intros Hlaunch Hpage.
    unfold get_browser_and_page, attempt, try_finally, log_and_reraise,
      close_browser_and_page, try_except, bind, call, log, emit, raise.
    cbn [world results]. rewrite Hlaunch. cbn [world results]. by rewrite Hpage.
Qed.

(** X12.  Once the session is open, the result of the [async with] is the
    result of its block, an exception of the block included, unchanged:
    the cleanup runs after the block on both paths, starts with
    [page.close()], goes on to [browser.close()] unless closing the page
    raised, writes no record, and never raises itself. *)
Theorem open_session_is_closed_after_the_block (body : M W unit) (w w' w2 : W)
    (f f2 : file) (r : res unit) (tb : list event) :
  session_opens w w' →
  body (State w' f) = (r, State w2 f2, tb) →
  ∃ w3 tclose,
    get_browser_and_page body (State w f)
    = (r, State w3 f2,
       opening ++ tb
       ++ match r with
          | Ok _ => []
          | Raise e => [Log ERROR (Error_initializing_browser_and_page e)]
          end
       ++ tclose)
    ∧ calls tclose = match raised (fst (effect PageClose w2)) with
                     | None => [PageClose; BrowserClose]
                     | Some _ => [PageClose]
                     end
    ∧ rows_written tclose = [].
Proof.
  intros (w1 & wp & wq & element & Hlaunch & Hpage & Hgoto & Hlogin) Hbody.
  unfold qr_url in Hgoto.
  destruct (close_browser_and_page_run w2 f2)
    as (w3 & tclose & Hclose & Hcalls & Hrows & _).
  exists w3, tclose. split; [|by split].
  unfold get_browser_and_page, attempt. unfold bind at 1. unfold bind at 1.
  unfold call at 1. cbn [world results]. rewrite Hlaunch.
  unfold call at 1. cbn [world results]. rewrite Hpage.
  unfold try_finally, try_except, handle_qr_scan. unfold bind at 1.
  unfold bind at 1. unfold call at 1. cbn [world results]. rewrite Hgoto.
  unfold bind at 1. unfold print at 1, emit at 1.
  unfold bind at 1. unfold waitForSelector at 1. cbn [world results].
  rewrite Hlogin. unfold ret at 1. rewrite Hbody.
  destruct r as [[]|e].
  - rewrite Hclose. by rewrite !app_nil_r.
  - unfold log_and_reraise, bind, log, emit, raise. rewrite Hclose.
    simpl. by rewrite <- !app_assoc.
Qed.
End Session.

Lemma failed_setup_skips_the_block_witness :
  get_browser_and_page
    (send_messages_in_batches [py "111"] (py "hello") 5)
    (State [Script.Fine; Script.Raises (Error (py "Target closed"))] (Some [Row header]))
  = (Raise (Error (py "Target closed")), State [] (Some [Row header]),
     [Call Launch None; Call NewPage (Some (Error (py "Target closed")));
      Log ERROR (Error_initializing_browser_and_page (Error (py "Target closed")));
      Log ERROR (Error_closing_browser_page
                   (Error (py "cannot access local variable 'page' where it is not associated with a value")))]).
Proof.
  apply (proj2 (failed_setup_skips_the_block
                  (send_messages_in_batches [py "111"] (py "hello") 5)
                  [Script.Fine; Script.Raises (Error (py "Target closed"))]
                  [Script.Raises (Error (py "Target closed"))] []
                  (Some [Row header]) (Error (py "Target closed"))));
    reflexivity.
Defined.

Lemma open_session_is_closed_after_the_block_witness :
  ∃ w3 tclose,
    get_browser_and_page (raise (Error (py "boom")))
      (State (Sim.start []) (Some [Row header]))
    = (Raise (Error (py "boom")), State w3 (Some [Row header]),
       opening ++ []
       ++ [Log ERROR (Error_initializing_browser_and_page (Error (py "boom")))]
       ++ tclose)
    ∧ calls tclose = match raised (fst (effect PageClose (Sim.start []))) with
                     | None => [PageClose; BrowserClose]
                     | Some _ => [PageClose]
                     end
    ∧ rows_written tclose = [].
Proof.
  assert (Hopens : session_opens (Sim.start []) (Sim.start [])).
  { exists (Sim.start []), (Sim.start []), (Sim.start []), (Some 3%N).
    repeat split; vm_compute; reflexivity. }
  exact (open_session_is_closed_after_the_block (raise (Error (py "boom")))
           (Sim.start []) (Sim.start []) (Sim.start [])
           (Some [Row header]) (Some [Row header]) (Raise (Error (py "boom"))) []
           Hopens eq_refl).
Defined.

(** ** The message on its way to the page *)

(** With a message file that cannot be read the run is, after the line of
    the log that says so, event for event the run with an empty message
    file. *)
Lemma unreadable_message_run {W} `{World W} (a : args) (st : state W) :
  ∃ r st' l n rest,
    script true (Args (phone_csv a) None (batch_size a)) st
    = (r, st',
       Log l n
       :: Log ERROR (Failed_to_read_message (Error (py "cannot open file")))
       :: rest)
    ∧ script true (Args (phone_csv a) (Some []) (batch_size a)) st
      = (r, st', Log l n :: Log INFO Read_message :: rest).
Proof.
  destruct (read_phone_numbers_from_csv_run (phone_csv a) st) as (l1 & n1 & E1).
  assert (E2 : read_message_from_text None st
               = (Ok [], st,
                  [Log ERROR (Failed_to_read_message (Error (py "cannot open file")))]))
    by reflexivity.
  assert (E3 : read_message_from_text (Some []) st = (Ok [], st, [Log INFO Read_message]))
    by reflexivity.
  unfold script. unfold bind at 1 3. unfold ret at 1 2. unfold try_except, main.
  cbn [phone_csv message_txt batch_size].
  rewrite !(bind_run _ _ _ _ _ _ E1).
  rewrite (bind_run _ _ _ _ _ _ E2), (bind_run _ _ _ _ _ _ E3).
  set (K := match (scan_phone_numbers (phone_csv a)).1 with
            | [] => _
            | _ :: _ => _
            end).
  destruct (K st) as [[[[]|e] s2] t2].
  - by eexists _, _, _, _, _.
  - set (h := bind _ _ s2). destruct h as [[r3 s3] t3].
    by eexists _, _, _, _, _.
Qed.

Section Typing.
Context {W : Type} `{World W}.

Ltac ask :=
  match goal with
  | |- context [effect ?o ?w] =>
      destruct (effect o w) as [[[]|?] ?]; simpl
  | |- context [wait_for_selector ?s ?ms ?w] =>
      destruct (wait_for_selector s ms w) as [[[?|]|[?|?]] ?]; simpl
  | |- context [text_content ?h ?w] =>
      destruct (text_content h w) as [[?|[?|?]] ?]; simpl
  | |- context [random_draw ?w] =>
      destruct (random_draw w) as [? ?]; simpl
  end.

Lemma typed_texts_app (t1 t2 : list event) :
  typed_texts (t1 ++ t2) = typed_texts t1 ++ typed_texts t2.
Proof. apply omap_app. Qed.

Lemma calls_app (t1 t2 : list event) : calls (t1 ++ t2) = calls t1 ++ calls t2.
Proof. apply omap_app. Qed.

Lemma type_line_typed (message_box : option handle) (line : str)
    (st : state W) (r : res unit) (st' : state W) (t : list event) :
  type_line message_box line st = (r, st', t) →
  outcomes t = []
  ∧ match r with
    | Ok _ =>
        ∃ element, message_box = Some element
          ∧ calls t = typing_of_line element line ∧ typed_texts t = [line]
    | Raise _ => typed_texts t `prefix_of` [line]
    end.
Proof.
  unfold type_line, bind, box_type, call, raise.
  destruct message_box as [element|]; simpl.
  - repeat ask; intros [= <- <- <-]; (split; [done|]);
      first [by exists element | done].
  - intros [= <- <- <-]. split; [done|]. by exists [line].
Qed.

Lemma type_lines_typed (message_box : option handle) (lines : list str)
    (st : state W) (r : res unit) (st' : state W) (t : list event) :
  for_each lines (type_line message_box) st = (r, st', t) →
  outcomes t = []
  ∧ typed_texts t `prefix_of` lines
  ∧ match r with
    | Ok _ =>
        typed_texts t = lines
        ∧ ∀ element, message_box = Some element →
            calls t = concat (typing_of_line element <$> lines)
    | Raise _ => True
    end.
Proof.
  revert st t. induction lines as [|line lines IH]; intros st t; simpl.
  - intros [= <- <- <-]. by repeat split.
  - destruct (type_line message_box line st) as [[r1 s1] t1] eqn:E1.
    rewrite (bind_run _ _ _ _ _ _ E1).
    destruct (type_line_typed _ _ _ _ _ _ E1) as [Ho1 H1].
    destruct r1 as [[]|e1].
    + destruct H1 as (element & -> & Hc1 & Ht1).
      destruct (for_each lines (type_line (Some element)) s1) as [[r2 s2] t2] eqn:E2.
      intros [= <- <- <-].
      destruct (IH _ _ E2) as (Ho2 & Hp2 & H2).
      rewrite outcomes_app, Ho1, Ho2, typed_texts_app, Ht1.
      split; [done|]. split; [by apply prefix_cons|].
      destruct r2 as [[]|e2]; [|done].
      destruct H2 as [-> H2]. split; [done|].
      intros ? [= <-]. by rewrite calls_app, Hc1, (H2 _ eq_refl).
    + intros [= <- <- <-]. split; [done|]. split; [|done].
      destruct H1 as [k Hk]. exists (k ++ lines).
      by rewrite app_assoc, <- Hk.
Qed.

Lemma type_and_send_typed (phone_number message : str)
    (message_box : option handle) (st : state W) (r : res unit)
    (st' : state W) (t : list event) :
  type_and_send phone_number message message_box st = (r, st', t) →
  typed_texts t `prefix_of` split_lines message
  ∧ match r with
    | Ok _ =>
        outcomes t = [Success]
        ∧ typed_texts t = split_lines message
        ∧ ∃ element, message_box = Some element
            ∧ calls t = typing_of_message element message
    | Raise _ => outcomes t = []
    end.
Proof.
  unfold type_and_send.
  destruct (for_each (split_lines message) (type_line message_box) st)
    as [[r1 s1] t1] eqn:E1.
  rewrite (bind_run _ _ _ _ _ _ E1).
  destruct (type_lines_typed _ _ _ _ _ _ E1) as (Ho1 & Hp1 & H1).
  destruct r1 as [[]|e1]; [|by intros [= <- <- <-]].
  destruct H1 as [Ht1 Hc1].
  unfold bind, box_press, call, random_choice, sleep, writerow, log, emit, raise.
  destruct message_box as [element|]; simpl.
  - repeat ask; intros [= <- <- <-];
      rewrite outcomes_app, typed_texts_app, Ho1, Ht1, app_nil_r.
    + split; [done|]. split; [done|]. split; [done|].
      exists element. split; [done|].
      unfold typing_of_message. by rewrite calls_app, (Hc1 _ eq_refl).
    + done.
  - intros [= <- <- <-]. by rewrite app_nil_r.
Qed.

Lemma check_invalid_number_typed (phone_number : str) (st : state W)
    (r : res bool) (st' : state W) (t : list event) :
  check_invalid_number phone_number st = (r, st', t) →
  typed_texts t = []
  ∧ match r with
    | Ok true => ∃ reason, outcomes t = [Skipped reason]
    | Ok false =>
        outcomes t = [] ∧ Forall reads_page (calls t)
    | Raise _ => outcomes t = []
    end.
Proof.
  unfold check_invalid_number, try_except_timeout, try_except, bind,
    waitForSelector, evaluate_textContent, log, writerow, emit, ret, raise.
  simpl. repeat ask; intros [= <- <- <-]; (split; [done|]);
    first [done | by eexists
          | split; [done|]; by repeat constructor].
Qed.

Lemma find_message_box_typed (phone_number : str) (st : state W)
    (r : res (option (option handle))) (st' : state W) (t : list event) :
  find_message_box phone_number st = (r, st', t) →
  typed_texts t = []
  ∧ match r with
    | Ok None => outcomes t = [Failed None]
    | Ok (Some _) =>
        outcomes t = [] ∧ Forall reads_page (calls t)
    | Raise _ => outcomes t = []
    end.
Proof.
  unfold find_message_box, try_except_timeout, try_except, bind,
    waitForSelector, log, writerow, emit, ret, raise.
  simpl. repeat ask; intros [= <- <- <-]; (split; [done|]);
    first [done | split; [done|]; by repeat constructor].
Qed.

Ltac no_success :=
  let Hin := fresh "Hin" in
  intros Hin; simpl in Hin;
  repeat (apply elem_of_cons in Hin as [Hin|Hin]; [discriminate Hin|]);
  by apply elem_of_nil in Hin.

Lemma send_message_types_lines (phone_number message : str) (st : state W) :
  typed_texts (snd (send_message phone_number message st))
  `prefix_of` split_lines message.
Proof.
  unfold send_message, try_except.
  set (body := bind (log INFO (Processing_number phone_number)) _).
  assert (Hbody : ∀ r s t, body st = (r, s, t) →
    typed_texts t `prefix_of` split_lines message).
  { subst body. intros r s t.
    unfold bind at 1 2 3, log, call, sleep, emit. simpl.
    destruct (effect (Goto (chat_url phone_number)) (world st)) as [[[]|e0] w0];
      simpl; [|intros [= <- <- <-]; by eexists].
    destruct (check_invalid_number phone_number (State w0 (results st)))
      as [[r1 s1] t1] eqn:E1.
    rewrite (bind_run _ _ _ _ _ _ E1).
    destruct (check_invalid_number_typed _ _ _ _ _ E1) as [Ht1 _].
    destruct r1 as [[|]|e1].
    - intros [= <- <- <-]. simpl. rewrite app_nil_r.
      change (typed_texts (_ :: _ :: _ :: t1)) with (typed_texts t1).
      rewrite Ht1. by eexists.
    - destruct (find_message_box phone_number s1) as [[r2 s2] t2] eqn:E2.
      rewrite (bind_run _ _ _ _ _ _ E2).
      destruct (find_message_box_typed _ _ _ _ _ E2) as [Ht2 _].
      destruct r2 as [[mb|]|e2].
      + destruct (type_and_send phone_number message mb s2) as [[r3 s3] t3] eqn:E3.
        destruct (type_and_send_typed _ _ _ _ _ _ _ E3) as [Hp3 _].
        intros [= <- <- <-].
        change (typed_texts (_ :: _ :: _ :: ?l)) with (typed_texts l).
        by rewrite !typed_texts_app, Ht1, Ht2.
      + intros [= <- <- <-].
        change (typed_texts (_ :: _ :: _ :: ?l)) with (typed_texts l).
        rewrite !typed_texts_app, Ht1, Ht2. by eexists.
      + intros [= <- <- <-].
        change (typed_texts (_ :: _ :: _ :: ?l)) with (typed_texts l).
        rewrite !typed_texts_app, Ht1, Ht2. by eexists.
    - intros [= <- <- <-].
      change (typed_texts (_ :: _ :: _ :: ?l)) with (typed_texts l).
      rewrite Ht1. by eexists. }
  destruct (body st) as [[r s] t].
  pose proof (Hbody _ _ _ eq_refl) as Hp.
  destruct r as [[]|e]; simpl; [done|].
  unfold bind, log, writerow, sleep, emit. simpl.
  rewrite typed_texts_app. simpl. by rewrite app_nil_r.
Qed.

Lemma types_only_typed (allowed : list str) (t : list event) :
  Forall (types_only allowed) t ↔ Forall (fun text => text ∈ allowed) (typed_texts t).
Proof.
  induction t as [|ev t IH]; [done|].
  rewrite Forall_cons, IH.
  destruct ev as [| | |o raised|]; try (simpl; tauto).
  destruct o; try (simpl; tauto).
  change (typed_texts (Call (TypeText element text) raised :: t))
    with (text :: typed_texts t).
  by rewrite Forall_cons.
Qed.

Lemma send_message_types_only (phone_number message : str) (st : state W) :
  Forall (types_only (split_lines message))
    (snd (send_message phone_number message st)).
Proof.
  apply types_only_typed, Forall_forall. intros text Hin.
  destruct (send_message_types_lines phone_number message st) as [k ->].
  apply elem_of_app. by left.
Qed.

(** X14.  What [send_message] types.  In every run the texts typed into
    the message box are the lines of the message, in order, from the first
    one on and maybe not to the last; nothing else is ever typed.  When the
    target is reported as sent, every line was typed, each one followed by
    Shift+Enter, and the run of calls ends with Enter pressed in the box:
    the calls between the navigation and the typing only read the page. *)
Theorem sent_message_was_typed_line_by_line (phone_number message : str)
    (st : state W) :
  let t := snd (send_message phone_number message st) in
  typed_texts t `prefix_of` split_lines message
  ∧ (Success ∈ outcomes t →
     typed_texts t = split_lines message
     ∧ ∃ element before,
         calls t = Goto (chat_url phone_number) :: before
                   ++ typing_of_message element message
         ∧ Forall reads_page before).
Proof.
  unfold send_message, try_except.
  set (body := bind (log INFO (Processing_number phone_number)) _).
  assert (Hbody : ∀ r s t, body st = (r, s, t) →
    typed_texts t `prefix_of` split_lines message
    ∧ match r with
      | Ok _ =>
          Success ∈ outcomes t →
          typed_texts t = split_lines message
          ∧ ∃ element before,
              calls t = Goto (chat_url phone_number) :: before
                        ++ typing_of_message element message
              ∧ Forall reads_page before
      | Raise _ => Success ∉ outcomes t
      end).
  { subst body. intros r s t.
    unfold bind at 1 2 3, log, call, sleep, emit. simpl.
    destruct (effect (Goto (chat_url phone_number)) (world st)) as [[[]|e0] w0];
      simpl; [|intros [= <- <- <-]; split; [by eexists|no_success]].
    destruct (check_invalid_number phone_number (State w0 (results st)))
      as [[r1 s1] t1] eqn:E1.
    rewrite (bind_run _ _ _ _ _ _ E1).
    destruct (check_invalid_number_typed _ _ _ _ _ E1) as [Ht1 Ho1].
    destruct r1 as [[|]|e1].
    - intros [= <- <- <-]. simpl. rewrite app_nil_r.
      change (typed_texts (_ :: _ :: _ :: t1)) with (typed_texts t1).
      change (outcomes (_ :: _ :: _ :: t1)) with (outcomes t1).
      rewrite Ht1. split; [by eexists|].
      destruct Ho1 as [reason ->]. no_success.
    - destruct Ho1 as [Ho1 Hw1].
      destruct (find_message_box phone_number s1) as [[r2 s2] t2] eqn:E2.
      rewrite (bind_run _ _ _ _ _ _ E2).
      destruct (find_message_box_typed _ _ _ _ _ E2) as [Ht2 Ho2].
      destruct r2 as [[mb|]|e2].
      + destruct Ho2 as [Ho2 Hw2].
        destruct (type_and_send phone_number message mb s2) as [[r3 s3] t3] eqn:E3.
        destruct (type_and_send_typed _ _ _ _ _ _ _ E3) as [Hp3 H3].
        intros [= <- <- <-].
        change (typed_texts (_ :: _ :: _ :: ?l)) with (typed_texts l).
        change (outcomes (_ :: _ :: _ :: ?l)) with (outcomes l).
        rewrite !typed_texts_app, !outcomes_app, Ht1, Ht2, Ho1, Ho2. simpl.
        split; [done|]. destruct r3 as [[]|e3].
        * intros _. destruct H3 as (_ & Ht3 & element & -> & Hc3).
          split; [done|].
          exists element, (calls t1 ++ calls t2).
          split; [|by apply Forall_app].
          change (calls (_ :: Call ?o _ :: _ :: ?l)) with (o :: calls l).
          by rewrite !calls_app, Hc3, <- app_assoc.
        * rewrite H3. no_success.
      + intros [= <- <- <-].
        change (typed_texts (_ :: _ :: _ :: ?l)) with (typed_texts l).
        change (outcomes (_ :: _ :: _ :: ?l)) with (outcomes l).
        rewrite !typed_texts_app, !outcomes_app, Ht1, Ht2, Ho1, Ho2. simpl.
        split; [by eexists|]. no_success.
      + intros [= <- <- <-].
        change (typed_texts (_ :: _ :: _ :: ?l)) with (typed_texts l).
        change (outcomes (_ :: _ :: _ :: ?l)) with (outcomes l).
        rewrite !typed_texts_app, !outcomes_app, Ht1, Ht2, Ho1, Ho2. simpl.
        split; [by eexists|]. no_success.
    - intros [= <- <- <-].
      change (typed_texts (_ :: _ :: _ :: ?l)) with (typed_texts l).
      change (outcomes (_ :: _ :: _ :: ?l)) with (outcomes l).
      rewrite Ht1, Ho1. split; [by eexists|]. no_success. }
  destruct (body st) as [[r s] t].
  destruct (Hbody _ _ _ eq_refl) as [Hp Hr].
  destruct r as [[]|e]; simpl; [by split|].
  unfold bind, log, writerow, sleep, emit. simpl.
  rewrite typed_texts_app, outcomes_app. simpl. rewrite app_nil_r.
  split; [done|]. intros Hin. apply elem_of_app in Hin as [Hin|Hin]; [done|].
  revert Hin. no_success.
Qed.
End Typing.

Lemma sent_message_was_typed_line_by_line_witness :
  typed_texts
    (snd (send_message (py "111") (py "hi" ++ 10%N :: py "you")
            (State (Sim.start []) (Some [Row header]))))
  = [py "hi"; py "you"].
Proof.
  assert (Hsent : Success ∈ outcomes
            (snd (send_message (py "111") (py "hi" ++ 10%N :: py "you")
                    (State (Sim.start []) (Some [Row header]))))).
  { vm_compute. apply list_elem_of_here. }
  exact (proj1 (proj2 (sent_message_was_typed_line_by_line (py "111")
                         (py "hi" ++ 10%N :: py "you")
                         (State (Sim.start []) (Some [Row header]))) Hsent)).
Defined.

(** X13.  A message file that cannot be read does not stop the run, and
    the run sends the empty message.  When some number is left to send, the
    batch size is at least 1, the results file is there or can be created,
    it opens for appending and the session opens, the run with an
    unreadable message file ends normally; its second line of the log is
    the error of the reader; it navigates to the login page and then to the
    chat of every number left to send, once each and in order, and leaves
    one record for each of them; and every text it types into a message
    box is the empty string.  From the third event on it is, event for
    event, the run with an empty message file, which ends in the same
    state. *)
Theorem unreadable_message_is_sent_as_empty {W} `{World W} (a : args)
    (f : file) (w w0 w1 w2 : W) :
  let pending :=
    to_send (fst (scan_phone_numbers (phone_csv a))) (fst (scan_processed_numbers f)) in
  pending ≠ [] →
  1 ≤ batch_size a →
  results_ready f w w0 →
  effect (OpenResults Append_) w0 = (Ok tt, w1) →
  session_opens w1 w2 →
  ∃ w' records l n rest,
    let t := Log l n
             :: Log ERROR (Failed_to_read_message (Error (py "cannot open file")))
             :: rest in
    script true (Args (phone_csv a) None (batch_size a)) (State w f)
    = (Ok tt, State w' (Some (started_ledger f ++ (Row <$> records))), t)
    ∧ script true (Args (phone_csv a) (Some []) (batch_size a)) (State w f)
      = (Ok tt, State w' (Some (started_ledger f ++ (Row <$> records))),
         Log l n :: Log INFO Read_message :: rest)
    ∧ gotos t = qr_url :: (chat_url <$> pending)
    ∧ Forall2 (fun number row => ∃ o, row = [number; status_of o])
        pending records
    ∧ Forall (fun text => text = []) (typed_texts t).
Proof.
  intros pending Hpending Hsize Hready Happend Hopens.
  destruct (open_session_run (types_only [[]])
              (Args (phone_csv a) None (batch_size a)) f w w0 w1 w2)
    as (w' & records & t & E & Hg & _ & Hrows & Htyped); try done.
  { by intros [| | |[]|] Hev. }
  { intros p st. exact (send_message_types_only p [] st). }
  destruct (unreadable_message_run a (State w f))
    as (r & st' & l & n & rest & E1 & E2).
  rewrite E in E1. injection E1 as <- <- ->.
  exists w', records, l, n, rest. cbn zeta.
  split; [done|]. split; [done|]. split; [done|]. split; [done|].
  apply types_only_typed in Htyped.
  eapply Forall_impl; [exact Htyped|].
  intros text Hin. by apply list_elem_of_singleton in Hin.
Qed.

Lemma unreadable_message_is_sent_as_empty_witness :
  ∃ w' records l n rest,
    let t := Log l n
             :: Log ERROR (Failed_to_read_message (Error (py "cannot open file")))
             :: rest in
    script true (Args (phone_file [py "111"; py "222"]) None 5)
      (State invalid_222 None)
    = (Ok tt, State w' (Some (started_ledger None ++ (Row <$> records))), t)
    ∧ script true (Args (phone_file [py "111"; py "222"]) (Some []) 5)
        (State invalid_222 None)
      = (Ok tt, State w' (Some (started_ledger None ++ (Row <$> records))),
         Log l n :: Log INFO Read_message :: rest)
    ∧ gotos t = qr_url :: (chat_url <$> [py "111"; py "222"])
    ∧ Forall2 (fun number row => ∃ o, row = [number; status_of o])
        [py "111"; py "222"] records
    ∧ Forall (fun text => text = []) (typed_texts t).
Proof.
  assert (Hopens : session_opens invalid_222 invalid_222).
  { exists invalid_222, invalid_222, invalid_222, (Some 3%N).
    repeat split; vm_compute; reflexivity. }
  assert (Hpending :
    to_send (fst (scan_phone_numbers (phone_file [py "111"; py "222"])))
      (fst (scan_processed_numbers None)) ≠ []) by (vm_compute; discriminate).
  assert (Hready : results_ready None invalid_222 invalid_222)
    by (vm_compute; reflexivity).
  assert (Happend : effect (OpenResults Append_) invalid_222 = (Ok tt, invalid_222))
    by (vm_compute; reflexivity).
  exact (unreadable_message_is_sent_as_empty
           (Args (phone_file [py "111"; py "222"]) None 5) None
           invalid_222 invalid_222 invalid_222 invalid_222
           Hpending ltac:(simpl; lia) Hready Happend Hopens).
Defined.

(** ** A whole run *)

Section Progress.
Context {W : Type} `{World W}.

(** X15.  A run that gets its session works through the whole list.  When
    some number is left to send, the batch size is at least 1, the results
    file is there or can be created, it opens for appending and the session
    opens, the script ends normally; it has navigated to the login page
    and then to the chat of every number left to send, once each, in the
    order of the input list; it has written one record for each of them,
    in that order, after the header if it created the file; and the
    results file is the ledger it started from with those records
    appended.  Whatever happens on a chat page, no target stops the run. *)
Theorem open_session_works_through_the_list (a : args) (f : file)
    (w w0 w1 w2 : W) :
  let pending :=
    to_send (fst (scan_phone_numbers (phone_csv a))) (fst (scan_processed_numbers f)) in
  pending ≠ [] →
  1 ≤ batch_size a →
  results_ready f w w0 →
  effect (OpenResults Append_) w0 = (Ok tt, w1) →
  session_opens w1 w2 →
  ∃ w' records t,
    script true a (State w f)
    = (Ok tt, State w' (Some (started_ledger f ++ (Row <$> records))), t)
    ∧ gotos t = qr_url :: (chat_url <$> pending)
    ∧ rows_written t
      = match f with Some _ => [] | None => [header] end ++ records
    ∧ Forall2 (fun number row => ∃ o, row = [number; status_of o])
        pending records.
Proof.
  intros pending Hpending Hsize Hready Happend Hopens.
  destruct (read_phone_numbers_from_csv_run (phone_csv a) (State w f))
    as (l1 & n1 & E1).
  destruct (read_message_from_text_run (message_txt a) (State w f))
    as (l2 & n2 & message & E2).
  destruct (read_processed_numbers_run f (State w f)) as (l3 & n3 & E3).
  destruct (initialize_output_run f w w0 Hready) as (t0 & E4 & Hg0 & Hr0 & _).
  destruct (send_messages_in_batches_run pending message (batch_size a) w2
              (started_ledger f) Hsize) as (w3 & tb & E5 & Hgb & Hrb).
  destruct (session_block_run _ _ _ _ _ _ _ Hopens E5)
    as (w4 & tclose & E6 & Hgc & Hrc & _).
  exists w4, (rows_written tb).
  unfold script. unfold bind at 1. unfold ret at 1. unfold try_except, main.
  rewrite (bind_run _ _ _ _ _ _ E1), (bind_run _ _ _ _ _ _ E2).
  fold pending.
  destruct (scan_phone_numbers (phone_csv a)).1 as [|p0 l0] eqn:Hl; [done|].
  unfold bind at 1. unfold get_results at 1.
  rewrite (bind_run _ _ _ _ _ _ E3). fold pending.
  destruct pending as [|p rest] eqn:Hp; [done|].
  unfold bind at 1. unfold get_results at 1.
  rewrite (bind_run _ _ _ _ _ _ E4).
  unfold try_finally, try_except. unfold bind at 1. unfold open_append at 1.
  unfold bind at 1. unfold call at 1. cbn [world results]. rewrite Happend.
  cbn [world results].
  replace (Some (default [] (Some (started_ledger f)))) with (Some (started_ledger f))
    by done.
  rewrite E6. unfold bind, log, print, emit. cbn [fst snd].
  eexists. split; [reflexivity|].
  rewrite !gotos_app, !rows_written_app, Hg0, Hr0, Hgb, Hgc, Hrc.
  split; [simpl; by rewrite ?app_nil_r|].
  split; [simpl; by rewrite ?app_nil_r|done].
Qed.

(** X16.  The closing lines.  Once a run has found a number left to send
    and its results file is there, it ends normally and its last three
    outputs are the completion line of the log and the two printed lines
    that name the results file and the log -- whatever the browser, the
    page or the opening of the results file did in between, a run that sent
    nothing included. *)
Theorem started_run_always_reports_completion (a : args) (f : file) (w w0 : W) :
  to_send (fst (scan_phone_numbers (phone_csv a))) (fst (scan_processed_numbers f))
  ≠ [] →
  results_ready f w w0 →
  ∃ st' t,
    script true a (State w f)
    = (Ok tt, st',
       t ++ [Log INFO Script_execution_completed; Print Results_saved_to;
             Print Check_log]).
Proof.
  intros Hpending Hready.
  destruct (read_phone_numbers_from_csv_run (phone_csv a) (State w f))
    as (l1 & n1 & E1).
  destruct (read_message_from_text_run (message_txt a) (State w f))
    as (l2 & n2 & message & E2).
  destruct (read_processed_numbers_run f (State w f)) as (l3 & n3 & E3).
  destruct (initialize_output_run f w w0 Hready) as (t0 & E4 & _).
  unfold script. unfold bind at 1. unfold ret at 1. unfold try_except at 1.
  unfold main.
  rewrite (bind_run _ _ _ _ _ _ E1), (bind_run _ _ _ _ _ _ E2).
  destruct (scan_phone_numbers (phone_csv a)).1 as [|p0 l0] eqn:Hl; [done|].
  unfold bind at 1. unfold get_results at 1.
  rewrite (bind_run _ _ _ _ _ _ E3).
  destruct (to_send (p0 :: l0) (scan_processed_numbers f).1) as [|p rest] eqn:Hp;
    [done|].
  unfold bind at 1. unfold get_results at 1.
  rewrite (bind_run _ _ _ _ _ _ E4).
  unfold try_finally, try_except.
  set (block := bind open_append _).
  destruct (block (State w0 (Some (started_ledger f)))) as [[[[]|e] s1] t1].
  - unfold bind, log, print, emit. cbn [fst snd].
    eexists _, _. simpl. rewrite ?app_nil_r.
    rewrite (app_assoc t0 t1). f_equal.
    by rewrite !app_comm_cons.
  - unfold bind, log, print, emit. cbn [fst snd].
    eexists _, _. simpl. rewrite ?app_nil_r.
    f_equal.
    rewrite (app_assoc t0), !app_comm_cons. reflexivity.
Qed.
End Progress.

Lemma open_session_works_through_the_list_witness :
  ∃ w' records t,
    script true (Args (phone_file [py "111"; py "222"]) (Some (py "hello")) 5)
      (State invalid_222 None)
    = (Ok tt, State w' (Some (started_ledger None ++ (Row <$> records))), t)
    ∧ gotos t = qr_url :: (chat_url <$> [py "111"; py "222"])
    ∧ rows_written t = [header] ++ records
    ∧ Forall2 (fun number row => ∃ o, row = [number; status_of o])
        [py "111"; py "222"] records.
Proof.
  assert (Hopens : session_opens invalid_222 invalid_222).
  { exists invalid_222, invalid_222, invalid_222, (Some 3%N).
    repeat split; vm_compute; reflexivity. }
  assert (Hpending :
    to_send (fst (scan_phone_numbers (phone_file [py "111"; py "222"])))
      (fst (scan_processed_numbers None)) ≠ []) by (vm_compute; discriminate).
  assert (Hready : results_ready None invalid_222 invalid_222)
    by (vm_compute; reflexivity).
  assert (Happend : effect (OpenResults Append_) invalid_222 = (Ok tt, invalid_222))
    by (vm_compute; reflexivity).
  exact (open_session_works_through_the_list
           (Args (phone_file [py "111"; py "222"]) (Some (py "hello")) 5) None
           invalid_222 invalid_222 invalid_222 invalid_222
           Hpending ltac:(simpl; lia) Hready Happend Hopens).
Defined.

Lemma started_run_always_reports_completion_witness :
  ∃ st' t,
    script true only_222 (State no_launch (Some [Row header]))
    = (Ok tt, st',
       t ++ [Log INFO Script_execution_completed; Print Results_saved_to;
             Print Check_log]).
Proof.
  assert (Hpending :
    to_send (fst (scan_phone_numbers (phone_csv only_222)))
      (fst (scan_processed_numbers (Some [Row header]))) ≠ [])
    by (vm_compute; discriminate).
  exact (started_run_always_reports_completion only_222 (Some [Row header])
           no_launch no_launch Hpending eq_refl).
Defined.

(** ** The older sender of [utils.py] *)

Lemma phone_rows_first_columns (rows : list line) (acc l : list str) :
  Utils.first_columns rows = Ok l →
  phone_rows rows acc = (acc ++ (clean_number <$> l), None)
  ∧ Forall2 (fun ln c0 => ∃ cs, ln = Row (c0 :: cs)) rows l.
Proof.
  revert acc l. induction rows as [|ln rows IH]; intros acc l; simpl.
  - intros [= <-]. by rewrite app_nil_r.
  - destruct ln as [[|c0 cs]|]; try done.
    destruct (Utils.first_columns rows) as [l'|e] eqn:E; [|done].
    intros [= <-]. destruct (IH (acc ++ [clean_number c0]) l' eq_refl) as [-> Hrows].
    split; [by rewrite <- app_assoc|]. constructor; [by eexists|done].
Qed.

Lemma first_columns_raises (rows : list line) (e : exn) :
  Utils.first_columns rows = Raise e → Corrupt ∈ rows ∨ Row [] ∈ rows.
Proof.
  induction rows as [|ln rows IH]; simpl; [done|].
  destruct ln as [[|c0 cs]|].
  - intros _. right. apply list_elem_of_here.
  - destruct (Utils.first_columns rows) as [l'|e'] eqn:E; [done|].
    intros [= <-]. destruct (IH eq_refl) as [?|?]; [left|right];
      by apply list_elem_of_further.
  - intros _. left. apply list_elem_of_here.
Qed.

(** X17.  The two readers of the input list.  Where the reader of
    [utils.py] returns, it returns the first column of every row after the
    header as it stands in the file, and the reader of [main.py] returns
    the canonical forms of the same entries, in the same order, with no
    error to log.  It raises -- and nothing in [utils.py] catches it -- on a
    file that cannot be opened, that is empty, that has a row that cannot
    be read or that has an empty row after the header: the cases the
    reader of [main.py] was written to get through. *)
Theorem older_reader_returns_raw_entries_or_raises (f : file) :
  match Utils.read_phone_numbers_from_csv f with
  | Ok l =>
      scan_phone_numbers f = (clean_number <$> l, None)
      ∧ ∃ first rest,
          f = Some (Row first :: rest)
          ∧ Forall2 (fun ln c0 => ∃ cs, ln = Row (c0 :: cs)) rest l
  | Raise _ =>
      f = None ∨ f = Some []
      ∨ ∃ rows, f = Some rows ∧ (Corrupt ∈ rows ∨ Row [] ∈ tail rows)
  end.
Proof.
  destruct f as [[|[first|] rest]|]; simpl.
  - right. by left.
  - destruct (Utils.first_columns rest) as [l|e] eqn:E.
    + destruct (phone_rows_first_columns rest [] l E) as [-> Hrows].
      split; [done|]. by exists first, rest.
    + right. right. eexists. split; [done|].
      destruct (first_columns_raises _ _ E) as [?|?];
        [left; by apply list_elem_of_further|by right].
  - right. right. eexists. split; [done|]. left. apply list_elem_of_here.
  - by left.
Qed.

Section Older.
Context {W : Type} `{World W}.

Ltac answer :=
  match goal with
  | |- context [effect ?o ?w] =>
      destruct (effect o w) as [[[]|?] ?]; simpl
  | |- context [wait_for_selector ?s ?ms ?w] =>
      destruct (wait_for_selector s ms w) as [[[?|]|?] ?]; simpl
  | |- context [random_draw ?w] =>
      destruct (random_draw w) as [? ?]; simpl
  end.

Lemma older_type_lines_run (message_box : option handle) (lines : list str)
    (w : W) (f : file) :
  ∃ r w' calls,
    for_each lines (Utils.type_line message_box) (State w f)
    = (r, State w' f, calls)
    ∧ Forall page_call calls
    ∧ match r with
      | Ok _ => raises calls = []
      | Raise e => Forall (fun c => snd c = e) (raises calls)
      end.
Proof.
  revert w. induction lines as [|line lines IH]; intros w.
  - exists (Ok tt), w, []. repeat split; constructor.
  - assert (Hline : ∃ r w' calls,
      Utils.type_line message_box line (State w f) = (r, State w' f, calls)
      ∧ Forall page_call calls
      ∧ match r with
        | Ok _ => raises calls = []
        | Raise e => Forall (fun c => snd c = e) (raises calls)
        end).
    { unfold Utils.type_line, bind, box_type, box_press, call, raise.
      destruct message_box as [h|]; simpl; repeat answer;
        eexists _, _, _; (split; [reflexivity|]); split; repeat constructor. }
    destruct Hline as (r & w1 & c1 & E1 & Hc1 & Hr1).
    simpl. rewrite (bind_run _ _ _ _ _ _ E1).
    destruct r as [[]|e].
    + destruct (IH w1) as (r & w2 & c2 & -> & Hc2 & Hr2).
      eexists _, _, _. split; [reflexivity|]. split.
      * by apply Forall_app.
      * unfold raises in *. rewrite omap_app, Hr1. exact Hr2.
    + eexists _, _, _. split; [reflexivity|]. by split.
Qed.

Lemma older_send_to_number_run (message phone_number : str)
    (w : W) (f : file) :
  ∃ w' body status ending,
    Utils.send_to_number message phone_number (State w f)
    = (Ok tt, State w' (Some (default [] f ++ [Row [phone_number; status]])),
       body ++ ending)
    ∧ gotos body = [chat_url phone_number]
    ∧ rows_written body = []
    ∧ ((∃ wait, wait ∈ [1; 2; 3]%nat
          ∧ status = sent_successfully
          ∧ ending = [Sleep wait; WriteRow [phone_number; status]]
          ∧ raises body = [])
       ∨ (∃ e, status = py "Failed"
            ∧ ending = [Print (An_error_occurred_while_sending phone_number e);
                        WriteRow [phone_number; status]; Sleep 10%nat]
            ∧ Forall (fun c => snd c = e) (raises body))).
Proof.
  unfold Utils.send_to_number, try_except. unfold bind at 1. unfold call at 1.
  cbn [world results].
  destruct (effect (Goto (chat_url phone_number)) w) as [[[]|e0] w0].
  2: { eexists _, [_], _, _. unfold bind, print, writerow, sleep, emit.
       cbn [world results fst snd app].
       split; [reflexivity|]. split; [done|]. split; [done|].
       right. exists e0. split; [done|]. split; [done|]. by repeat constructor. }
  unfold bind at 1. unfold sleep at 1, emit at 1.
  unfold bind at 1. unfold waitForSelector at 1. cbn [world results].
  destruct (wait_for_selector MessageBox 60000 w0) as [[mb|e1] w1].
  2: { eexists _, [_; _; _], _, _. unfold bind, print, writerow, sleep, emit.
       cbn [world results fst snd app].
       split; [reflexivity|]. split; [done|]. split; [done|].
       right. exists e1. split; [done|]. split; [done|]. by repeat constructor. }
  destruct (older_type_lines_run mb (split_lines message) w1 f)
    as (r & w2 & c & E & Hc & Hr).
  rewrite (bind_run _ _ _ _ _ _ E).
  destruct (page_calls_silent c Hc) as (Hg & Hrw & _).
  destruct r as [[]|e2].
  2: { eexists w2, ([Call (Goto (chat_url phone_number)) None; Sleep 5;
                     Call (WaitForSelector MessageBox 60000) None] ++ c),
         (py "Failed"), _.
       unfold bind, print, writerow, sleep, emit. cbn [world results fst snd].
       split; [simpl; rewrite <- ?app_assoc; reflexivity|].
       split; [by rewrite gotos_app, Hg|].
       split; [by rewrite rows_written_app, Hrw|].
       right. exists e2. split; [done|]. split; [done|].
       by rewrite raises_app. }
  unfold bind, box_press, call, random_choice, sleep, writerow, emit, raise.
  destruct mb as [h|]; cbn [world results].
  - destruct (effect (Press h (py "Enter")) w2) as [[[]|e3] w3].
    + cbn [world results]. destruct (random_draw w3) as [k w4] eqn:Hdraw.
      eexists w4, ([Call (Goto (chat_url phone_number)) None; Sleep 5;
                    Call (WaitForSelector MessageBox 60000) None]
                   ++ c ++ [Call (Press h (py "Enter")) None]),
        sent_successfully, _.
      cbn [world results fst snd raised].
      split; [simpl; rewrite <- ?app_assoc; reflexivity|].
      split; [by rewrite !gotos_app, Hg|].
      split; [by rewrite !rows_written_app, Hrw|].
      left. exists (choice [1; 2; 3]%nat k). split; [apply choice_in|].
      split; [done|]. split; [done|].
      by rewrite !raises_app, Hr.
    + eexists w3, ([Call (Goto (chat_url phone_number)) None; Sleep 5;
                    Call (WaitForSelector MessageBox 60000) None]
                   ++ c ++ [Call (Press h (py "Enter")) (Some e3)]),
        (py "Failed"), _.
      cbn [world results fst snd raised].
      split; [simpl; rewrite <- ?app_assoc; reflexivity|].
      split; [by rewrite !gotos_app, Hg|].
      split; [by rewrite !rows_written_app, Hrw|].
      right. exists e3. split; [done|]. split; [done|].
      rewrite !raises_app, Hr. by repeat constructor.
  - eexists w2, ([Call (Goto (chat_url phone_number)) None; Sleep 5;
                  Call (WaitForSelector MessageBox 60000) None] ++ c),
      (py "Failed"), _.
    cbn [world results fst snd raised].
    split; [simpl; rewrite (app_nil_r c); reflexivity|].
    split; [by rewrite gotos_app, Hg|].
    split; [by rewrite rows_written_app, Hrw|].
    right. eexists. split; [done|]. split; [done|].
    rewrite raises_app, Hr. constructor.
Qed.

(** X18.  One target of the older loop.  Every run of its body returns
    normally after one navigation, to the chat of the number as given, and
    one record, appended to the results file, whose status is
    [Sent successfully] or, for every exception whatever its kind -- the
    timeout of the wait for the message box included --, the bare [Failed].
    The record of a failure is always followed by the pause of 10 seconds;
    nothing follows the record of a success; and no exception of the page
    leads to a record of success. *)
Theorem older_loop_pauses_after_every_failure (message phone_number : str)
    (st : state W) :
  let run := Utils.send_to_number message phone_number st in
  fst (fst run) = Ok tt
  ∧ gotos (snd run) = [chat_url phone_number]
  ∧ ∃ status,
      rows_written (snd run) = [[phone_number; status]]
      ∧ results (snd (fst run))
        = Some (default [] (results st) ++ [Row [phone_number; status]])
      ∧ ((status = sent_successfully ∧ raises (snd run) = []
          ∧ pause_after_record (snd run) = 0%nat)
         ∨ (status = py "Failed" ∧ pause_after_record (snd run) = 10%nat)).
Proof.
  destruct st as [w f].
  destruct (older_send_to_number_run message phone_number w f)
    as (w' & body & status & ending & E & Hg & Hrw & Hend).
  cbn zeta. rewrite E. cbn [fst snd results].
  assert (Hending : gotos ending = [] ∧ rows_written ending = [[phone_number; status]]).
  { destruct Hend as [(wait & _ & _ & -> & _)|(e & _ & -> & _)]; by split. }
  destruct Hending as [Hge Hre].
  rewrite gotos_app, rows_written_app, Hg, Hrw, Hge, Hre.
  split; [done|]. split; [done|]. exists status. split; [done|]. split; [done|].
  unfold pause_after_record.
  destruct Hend as [(wait & _ & -> & -> & Hr)|(e & -> & -> & _)].
  - left. split; [done|]. split.
    + by rewrite raises_app, Hr.
    + by rewrite after_last_app_some.
  - right. split; [done|]. by rewrite after_last_app_some.
Qed.

Lemma older_for_each_run (message : str) (phone_numbers : list str)
    (w : W) (rows : list line) :
  ∃ w' t,
    for_each phone_numbers (Utils.send_to_number message) (State w (Some rows))
    = (Ok tt, State w' (Some (rows ++ (Row <$> rows_written t))), t)
    ∧ gotos t = chat_url <$> phone_numbers
    ∧ Forall2 old_record phone_numbers (rows_written t).
Proof.
  revert w rows. induction phone_numbers as [|p l IH]; intros w rows.
  - exists w, []. simpl. rewrite app_nil_r. by repeat split.
  - destruct (older_send_to_number_run message p w (Some rows))
      as (w1 & body & status & ending & E & Hg & Hrw & Hend).
    destruct (IH w1 (rows ++ [Row [p; status]])) as (w2 & t & E2 & Hg2 & Hr2).
    assert (Hending : gotos ending = [] ∧ rows_written ending = [[p; status]]
                      ∧ old_record p [p; status]).
    { destruct Hend as [(wait & _ & -> & -> & _)|(e & -> & -> & _)];
        (split; [done|split; [done|]]); [by left|by right]. }
    destruct Hending as (Hge & Hre & Hrec).
    exists w2, ((body ++ ending) ++ t).
    cbn [for_each]. rewrite (bind_run _ _ _ _ _ _ E). cbn [default id]. rewrite E2.
    rewrite !gotos_app, !rows_written_app, Hg, Hrw, Hge, Hre, Hg2. simpl.
    split; [by rewrite <- app_assoc|]. split; [done|]. by constructor.
Qed.

(** X19.  The older script starts its ledger over.  When the input list
    and the message are read, the results file opens for writing and the
    session opens, the script navigates to the chat of every number of the
    input list, those included that the results file showed as sent, and
    leaves a results file with the header and one record for each number,
    in the order of the list: nothing of what the file held before the run
    is kept or looked at. *)
Theorem older_script_starts_the_ledger_over (phone_csv : file) (text : str)
    (phone_numbers : list str) (w w1 w2 : W) (f : file) :
  Utils.read_phone_numbers_from_csv phone_csv = Ok phone_numbers →
  effect (OpenResults Write_) w = (Ok tt, w1) →
  session_opens w1 w2 →
  ∃ r w' records t,
    Utils.script true phone_csv (Some text) (State w f)
    = (r, State w' (Some (Row header :: (Row <$> records))), t)
    ∧ gotos t = qr_url :: (chat_url <$> phone_numbers)
    ∧ rows_written t = header :: records
    ∧ Forall2 old_record phone_numbers records.
Proof.
  intros Hread Hopen (wa & wb & wc & element & Hlaunch & Hpage & Hgoto & Hlogin).
  unfold qr_url in Hgoto.
  destruct (older_for_each_run (strip (universal_newlines text)) phone_numbers w2
              [Row header])
    as (w3 & t & E & Hg & Hr).
  unfold Utils.script. unfold bind at 1. unfold ret at 1.
  unfold bind at 1. unfold Utils.lift at 1. rewrite Hread.
  unfold bind at 1. unfold Utils.lift at 1. cbn [Utils.read_message_from_text].
  unfold bind at 1. unfold attempt at 1. unfold bind at 1. unfold open_write at 1.
  unfold bind at 1. unfold call at 1. cbn [world results]. rewrite Hopen.
  unfold writerow at 1. cbn [world results default app].
  unfold bind at 1. unfold attempt at 1. unfold call at 1. cbn [world results].
  rewrite Hlaunch.
  unfold try_finally, Utils.send_on_new_page. unfold bind at 1. unfold bind at 1.
  unfold call at 1. cbn [world results]. rewrite Hpage.
  unfold bind at 1. unfold handle_qr_scan at 1. unfold bind at 1.
  unfold call at 1. cbn [world results]. rewrite Hgoto.
  unfold bind at 1. unfold print at 1, emit at 1.
  unfold bind at 1. unfold waitForSelector at 1. cbn [world results].
  rewrite Hlogin. unfold ret at 1.
  rewrite (bind_run _ _ _ _ _ _ E).
  unfold bind, call, print, emit. cbn [world results].
  destruct (effect PageClose w3) as [[[]|e1] w4]; cbn [world results];
    destruct (effect BrowserClose w4) as [[[]|e2] w5];
    eexists _, _, (rows_written t), _; (split; [reflexivity|]);
    simpl; rewrite ?gotos_app, ?rows_written_app, Hg; simpl;
    rewrite ?app_nil_r; by repeat split.
Qed.
End Older.

Lemma older_script_starts_the_ledger_over_witness :
  ∃ r w' records t,
    Utils.script true (phone_file [py "111"; py "222"]) (Some (py "hello"))
      (State invalid_222 (Some [Row header; Row [py "111"; sent_successfully]]))
    = (r, State w' (Some (Row header :: (Row <$> records))), t)
    ∧ gotos t = qr_url :: (chat_url <$> [py "111"; py "222"])
    ∧ rows_written t = header :: records
    ∧ Forall2 old_record [py "111"; py "222"] records.
Proof.
  assert (Hopens : session_opens invalid_222 invalid_222).
  { exists invalid_222, invalid_222, invalid_222, (Some 3%N).
    repeat split; vm_compute; reflexivity. }
  assert (Hopen : effect (OpenResults Write_) invalid_222 = (Ok tt, invalid_222))
    by (vm_compute; reflexivity).
  exact (older_script_starts_the_ledger_over (phone_file [py "111"; py "222"])
           (py "hello") [py "111"; py "222"] invalid_222 invalid_222 invalid_222
           (Some [Row header; Row [py "111"; sent_successfully]])
           eq_refl Hopen Hopens).
Defined.

(** ** The checker of [whatsapp_checker.py] *)

Section Checking.
Import Checker.
Context {W : Type} `{Browser W}.

Lemma existing_rows_spec (rows : list line) :
  existing_rows rows
  = if existsb is_corrupt rows then Raise (Error (py "cannot read row"))
    else Ok (list_to_set (omap first_column rows)).
Proof.
  induction rows as [|[[|c0 cs]|] rows IH]; simpl; try done.
  rewrite IH. by destruct (existsb is_corrupt rows).
Qed.

(** X20.  The done set of the checker is all or nothing.  From an output
    file with a first row, [read_existing_numbers] returns the first
    column of every non-empty row after it, as it stands in the file; one
    row that cannot be read, wherever it is, and the set is empty: every
    number filed so far is checked again.  A file that does not exist gives
    the empty set without an error. *)
Theorem checker_done_set_is_all_or_nothing (first : list str) (rows : list line) :
  scan_existing_numbers (Some (Row first :: rows))
  = (if existsb is_corrupt rows then (∅, Some (Error (py "cannot read row")))
     else (list_to_set (omap first_column rows), None))
  ∧ scan_existing_numbers None = (∅, None).
Proof.
  split; [|done].
  unfold scan_existing_numbers. cbn [skip_header].
  rewrite existing_rows_spec. by destruct (existsb is_corrupt rows).
Qed.

Ltac reply :=
  match goal with
  | |- context [effect ?o ?w] =>
      destruct (effect o w) as [[[]|?] ?]; cbn [world whatsapp_csv non_whatsapp_csv]
  | |- context [query_selector ?s ?w] =>
      destruct (query_selector s w) as [[[?|]|?] ?];
      cbn [world whatsapp_csv non_whatsapp_csv]
  | |- context [text_content ?h ?w] =>
      destruct (text_content h w) as [[?|?] ?];
      cbn [world whatsapp_csv non_whatsapp_csv]
  end.

Lemma bind_run' {A B} (m : C W A) (k : A → C W B) st r st1 t1 :
  m st = (r, st1, t1) →
  bind m k st
  = match r with
    | Ok a => let '(r2, st2, t2) := k a st1 in (r2, st2, t1 ++ t2)
    | Raise e => (Raise e, st1, t1)
    end.
Proof. intros E. unfold bind. rewrite E. by destruct r. Qed.

Lemma files_nothing_app (t1 t2 : list event) :
  files_nothing t1 → files_nothing t2 → files_nothing (t1 ++ t2).
Proof.
  unfold files_nothing, rows_written, found_on_whatsapp, append_failures, closes.
  intros (?&?&?&?&?) (?&?&?&?&?). rewrite !omap_app.
  repeat split; by apply app_nil.
Qed.

(** One look at the chat page of a number. *)
Lemma look_up_run (phone_number : str) (st : state W) :
  ∃ r w' t,
    look_up phone_number st
    = (r, State w' (whatsapp_csv st) (non_whatsapp_csv st), t)
    ∧ gotos t = [chat_url (clean_number phone_number)]
    ∧ failures t = [] ∧ retry_pauses t = 0%nat ∧ files_nothing t
    ∧ match r with
      | Ok (on, text) =>
          (on = true ↔ ∃ element, last t = Some (Query ChatInput (Ok (Some element))))
          ∧ (on = true → text = [])
      | Raise e => True
      end.
Proof.
  unfold look_up, bind, call, sleep, querySelector, evaluate_textContent, emit, ret.
  cbn [world whatsapp_csv non_whatsapp_csv].
  repeat reply; eexists _, _, _; (split; [reflexivity|]); simpl;
    unfold files_nothing; repeat split; try done;
    try (intros; by eexists); try (by intros [? [=]]).
Qed.

(** The attempts from attempt [first] on, [count] of them, the last one
    being attempt [max_retries]. *)
Lemma attempts_run (count : nat) (first max_retries : Z) (phone_number : str)
    (st : state W) :
  first + Z.of_nat count = max_retries + 1 →
  ∃ r w' t k,
    attempts (seqZ first (Z.of_nat count)) max_retries phone_number st
    = (r, State w' (whatsapp_csv st) (non_whatsapp_csv st), t)
    ∧ gotos t = replicate k (chat_url (clean_number phone_number))
    ∧ (k ≤ count)%nat
    ∧ (failures t).*1 = seqZ first (Z.of_nat (length (failures t)))
    ∧ files_nothing t
    ∧ match count with
      | 0%nat => r = Ok None ∧ t = []
      | S _ =>
          ∃ on text,
            r = Ok (Some (on, text)) ∧ retry_pauses t = (k - 1)%nat ∧ (1 ≤ k)%nat
            ∧ (on = true ↔ ∃ element, last t = Some (Query ChatInput (Ok (Some element))))
            ∧ (on = true → text = [])
            ∧ ((S (length (failures t)) = k)
               ∨ (length (failures t) = k ∧ k = count ∧ on = false
                  ∧ ∃ e, last (failures t) = Some (max_retries, e)
                         ∧ text = exn_str e))
      end.
Proof.
  revert first st. induction count as [|count IH]; intros first st Hlast.
  - exists (Ok None), (world st), [], 0%nat. destruct st. by repeat split.
  - rewrite Nat2Z.inj_succ, seqZ_cons by lia.
    replace (Z.pred (Z.succ (Z.of_nat count))) with (Z.of_nat count) by lia.
    cbn [attempts]. unfold try_except.
    destruct (look_up_run phone_number st)
      as (r & w1 & t1 & E1 & Hg1 & Hf1 & Hp1 & Hn1 & Hr1).
    rewrite (bind_run' _ _ _ _ _ _ E1).
    destruct r as [[on text]|e].
    + unfold ret. exists (Ok (Some (on, text))), w1, t1, 1%nat.
      rewrite app_nil_r, Hg1, Hf1. split; [done|]. split; [done|].
      split; [lia|]. split; [done|]. split; [done|].
      exists on, text. destruct Hr1 as [Hon Htext].
      split; [done|]. split; [done|]. split; [lia|]. split; [done|].
      split; [done|]. by left.
    + unfold bind at 1. unfold log at 1, emit at 1.
      destruct (Z.eqb_spec first max_retries) as [->|Hne].
      * assert (count = 0%nat) as -> by lia.
        unfold ret. exists (Ok (Some (false, exn_str e))), w1,
          (t1 ++ [Log WARNING (Attempt_failed max_retries phone_number e)]), 1%nat.
        cbn [app world whatsapp_csv non_whatsapp_csv].
        assert (Hfail : failures (t1 ++ [Log WARNING (Attempt_failed max_retries phone_number e)])
                        = [(max_retries, e)]).
        { unfold failures in *. by rewrite omap_app, Hf1. }
        split; [done|]. split.
        { unfold gotos in *. by rewrite omap_app, Hg1. }
        split; [lia|]. split; [by rewrite Hfail|].
        split; [by apply files_nothing_app|].
        exists false, (exn_str e). split; [done|]. split.
        { unfold retry_pauses in *. rewrite omap_app, length_app, Hp1. done. }
        split; [lia|]. split.
        { split; [done|]. intros [element Hl]. by rewrite last_snoc in Hl. }
        split; [done|]. right. rewrite Hfail. split; [done|]. split; [done|].
        split; [done|]. by exists e.
      * destruct count as [|count']; [lia|].
        destruct (IH (Z.succ first) (State w1 (whatsapp_csv st) (non_whatsapp_csv st)))
          as (r & w2 & t2 & k & E2 & Hg2 & Hk2 & Hf2 & Hn2 & on & text
              & -> & Hp2 & Hk1 & Hon & Htext & Hcases); [lia|].
        cbn [world whatsapp_csv non_whatsapp_csv] in E2.
        unfold bind at 1. unfold sleep at 1, emit at 1. rewrite E2.
        exists (Ok (Some (on, text))), w2,
          (t1 ++ [Log WARNING (Attempt_failed first phone_number e)] ++ [Sleep 2] ++ t2),
          (S k).
        assert (Hfail : failures (t1 ++ [Log WARNING (Attempt_failed first phone_number e)]
                                  ++ [Sleep 2] ++ t2)
                        = (first, e) :: failures t2).
        { unfold failures in *. by rewrite !omap_app, Hf1. }
        assert (Ht2 : t2 ≠ []).
        { intros ->. destruct k; [lia|done]. }
        split; [done|]. split.
        { unfold gotos in *. by rewrite !omap_app, Hg1, Hg2. }
        split; [lia|]. split.
        { rewrite Hfail. cbn [fmap list_fmap length fst].
          rewrite Nat2Z.inj_succ, seqZ_cons by lia.
          replace (Z.pred (Z.succ (Z.of_nat (length (failures t2)))))
            with (Z.of_nat (length (failures t2))) by lia.
          f_equal. exact Hf2. }
        split.
        { apply files_nothing_app; [done|].
          apply (files_nothing_app [_]); [done|].
          by apply (files_nothing_app [_]). }
        exists on, text. split; [done|]. split.
        { unfold retry_pauses in *. rewrite !omap_app, !length_app, Hp1, Hp2.
          simpl. lia. }
        split; [lia|].
        assert (Hl : last (t1 ++ [Log WARNING (Attempt_failed first phone_number e)]
                           ++ [Sleep 2] ++ t2) = last t2).
        { rewrite !last_app. destruct (last t2) eqn:El; [done|].
          by apply last_None in El. }
        rewrite Hl, Hfail. split; [done|]. split; [done|].
        destruct Hcases as [Hc|(Hc & -> & -> & e' & Hle & ->)].
        -- left. simpl. lia.
        -- right. split; [simpl; lia|]. split; [done|]. split; [done|].
           exists e'. split; [|done].
           rewrite last_cons, Hle. done.
Qed.

(** X21.  The retries of [is_number_on_whatsapp].  With [max_retries] at
    least 1 the function never raises and always returns an answer: it
    navigates to the chat of the canonical form of the number between 1 and
    [max_retries] times, each time but the last because the attempt before
    raised; the failed attempts are logged with the numbers 1, 2, ... in
    order; it pauses 2 seconds between two attempts and not after the last;
    it stops at the first attempt that raises nothing, and when all
    [max_retries] attempts raise, the answer is [False] with the text of the
    last exception.  Nothing is written, filed or closed.  With
    [max_retries] below 1 it does nothing and returns [None]. *)
Theorem retries_stop_at_the_first_answer (phone_number : str) (max_retries : Z)
    (st : state W) :
  let run := is_number_on_whatsapp phone_number max_retries st in
  let t := snd run in
  if 1 <=? max_retries then
    ∃ answer k,
      fst (fst run) = Ok (Some answer)
      ∧ gotos t = replicate k (chat_url (clean_number phone_number))
      ∧ (1 ≤ k)%nat ∧ Z.of_nat k ≤ max_retries
      ∧ retry_pauses t = (k - 1)%nat
      ∧ (failures t).*1 = seqZ 1 (Z.of_nat (length (failures t)))
      ∧ (S (length (failures t)) = k
         ∨ (length (failures t) = k ∧ Z.of_nat k = max_retries
            ∧ ∃ e, last (failures t) = Some (max_retries, e)
                   ∧ answer = (false, exn_str e)))
      ∧ files_nothing t
      ∧ whatsapp_csv (snd (fst run)) = whatsapp_csv st
      ∧ non_whatsapp_csv (snd (fst run)) = non_whatsapp_csv st
  else run = (Ok None, st, []).
Proof.
  unfold is_number_on_whatsapp. destruct (Z.leb_spec 1 max_retries) as [Hmax|Hmax].
  - destruct (attempts_run (Z.to_nat max_retries) 1 max_retries phone_number st)
      as (r & w' & t & k & E & Hg & Hk & Hf & Hn & Hcount); [lia|].
    rewrite Z2Nat.id in E by lia. cbn zeta. rewrite E. cbn [fst snd].
    destruct (Z.to_nat max_retries) as [|count] eqn:Hc; [lia|].
    destruct Hcount as (on & text & -> & Hp & Hk1 & _ & _ & Hcases).
    exists (on, text), k. split; [done|]. split; [done|]. split; [done|].
    split; [lia|]. split; [done|]. split; [done|]. split; [|done].
    destruct Hcases as [?|(? & ? & -> & e & ? & ->)]; [by left|right].
    split; [done|]. split; [lia|]. by exists e.
  - assert (seqZ 1 max_retries = []) as ->.
    { unfold seqZ. by replace (Z.to_nat max_retries) with 0%nat by lia. }
    done.
Qed.

(** X22.  The verdict.  [is_number_on_whatsapp] answers [True] exactly
    when the last thing its run did is a [querySelector] for the chat
    input that returned an element -- in both directions: whenever the run
    ends on that, the answer is [True], and no other path answers [True]
    -- and the text that goes with [True] is always empty.  None of the
    other selectors is looked for after the chat input is found, and an
    earlier attempt that raised does not change the answer. *)
Theorem on_whatsapp_means_chat_input_found (phone_number : str)
    (max_retries : Z) (st : state W) :
  let run := is_number_on_whatsapp phone_number max_retries st in
  ((∃ text, fst (fst run) = Ok (Some (true, text)))
   ↔ (∃ element, last (snd run) = Some (Query ChatInput (Ok (Some element)))))
  ∧ (∀ text, fst (fst run) = Ok (Some (true, text)) → text = []).
Proof.
  unfold is_number_on_whatsapp. cbn zeta.
  destruct (Z.leb_spec 1 max_retries) as [Hmax|Hmax].
  - destruct (attempts_run (Z.to_nat max_retries) 1 max_retries phone_number st)
      as (r & w' & t & k & E & _ & _ & _ & _ & Hcount); [lia|].
    rewrite Z2Nat.id in E by lia. rewrite E. cbn [fst snd].
    destruct (Z.to_nat max_retries) as [|count] eqn:Hc; [lia|].
    destruct Hcount as (on & text & -> & _ & _ & Hon & Htext & _).
    split; [split|].
    + intros [text' [= -> <-]]. by apply Hon.
    + intros Hlast. apply Hon in Hlast as ->. by eexists.
    + intros text' [= -> <-]. by apply Htext.
  - assert (seqZ 1 max_retries = []) as ->.
    { unfold seqZ. by replace (Z.to_nat max_retries) with 0%nat by lia. }
    simpl. split; [split|]; [by intros [? [=]]|by intros [? [=]]|by intros ? [=]].
Qed.

Lemma append_number_to_file_run (number : str) (o : output)
    (reason : option str) (st : state W) :
  let row := match reason with
             | Some reason => [number; reason]
             | None => [number]
             end in
  ∃ w',
    append_number_to_file number o reason st
    = (Ok tt,
       with_file o (Some (default [] (file_of o st) ++ [Row row]))
         (State w' (whatsapp_csv st) (non_whatsapp_csv st)),
       [Call (OpenAppend o) None; WriteRow o row])
    ∨ ∃ e,
        append_number_to_file number o reason st
        = (Ok tt, State w' (whatsapp_csv st) (non_whatsapp_csv st),
           [Call (OpenAppend o) (Some e); Log ERROR (Failed_to_append_number o e)]).
Proof.
  unfold append_number_to_file, try_except, bind, call, writerow, log, emit.
  cbn [world whatsapp_csv non_whatsapp_csv].
  destruct (effect (OpenAppend o) (world st)) as [[[]|e] w'].
  - exists w'. left. by destruct o.
  - exists w'. right. by exists e.
Qed.

Lemma check_and_file_run (phone_number : str) (st : state W) :
  ∃ w' t (on : bool) reason k,
    let o := if on then WhatsappCsv else NonWhatsappCsv in
    let row := if on then [phone_number] else [phone_number; reason] in
    gotos t = replicate k (chat_url (clean_number phone_number))
    ∧ (1 ≤ k ≤ 3)%nat
    ∧ closes t = []
    ∧ found_on_whatsapp t = (if on then [phone_number] else [])
    ∧ rows_written (other o) t = []
    ∧ ((check_and_file phone_number st
        = (Ok tt,
           with_file o (Some (default [] (file_of o st) ++ [Row row]))
             (State w' (whatsapp_csv st) (non_whatsapp_csv st)),
           t)
        ∧ rows_written o t = [row] ∧ append_failures t = [])
       ∨ (check_and_file phone_number st
          = (Ok tt, State w' (whatsapp_csv st) (non_whatsapp_csv st), t)
          ∧ rows_written o t = [] ∧ ∃ e, append_failures t = [(o, e)])).
Proof.
  destruct (attempts_run 3 1 3 phone_number st)
    as (r & w1 & t1 & k & E & Hg & Hk & _ & (Hw & Hnw & Hfo & Haf & Hcl)
        & on & text & -> & _ & Hk1 & _); [done|].
  unfold check_and_file, is_number_on_whatsapp.
  change (seqZ 1 3) with (seqZ 1 (Z.of_nat 3)).
  rewrite (bind_run' _ _ _ _ _ _ E). cbv beta iota.
  destruct on.
  - destruct (append_number_to_file_run phone_number WhatsappCsv None
                (State w1 (whatsapp_csv st) (non_whatsapp_csv st)))
      as (w2 & [Eapp|(e & Eapp)]).
    + exists w2, (t1 ++ [Log INFO (Is_on_WhatsApp phone_number)]
                  ++ [Call (OpenAppend WhatsappCsv) None;
                      WriteRow WhatsappCsv [phone_number]] ++ [Sleep 1]),
        true, [], k.
      cbn zeta. cbn [other].
      unfold gotos, closes, found_on_whatsapp, rows_written, append_failures in *.
      rewrite !omap_app, Hg, Hcl, Hfo, Hw, Hnw, Haf.
      split; [by rewrite app_nil_r|]. split; [lia|]. split; [done|].
      split; [done|]. split; [done|]. left. split; [|done].
      unfold bind at 1. unfold bind at 1. unfold log at 1, emit at 1.
      rewrite Eapp. unfold sleep, emit. reflexivity.
    + exists w2, (t1 ++ [Log INFO (Is_on_WhatsApp phone_number)]
                  ++ [Call (OpenAppend WhatsappCsv) (Some e);
                      Log ERROR (Failed_to_append_number WhatsappCsv e)]
                  ++ [Sleep 1]),
        true, [], k.
      cbn zeta. cbn [other].
      unfold gotos, closes, found_on_whatsapp, rows_written, append_failures in *.
      rewrite !omap_app, Hg, Hcl, Hfo, Hw, Hnw, Haf.
      split; [by rewrite app_nil_r|]. split; [lia|]. split; [done|].
      split; [done|]. split; [done|]. right. split; [|split; [done|by exists e]].
      unfold bind at 1. unfold bind at 1. unfold log at 1, emit at 1.
      rewrite Eapp. unfold sleep, emit. reflexivity.
  - destruct (append_number_to_file_run phone_number NonWhatsappCsv (Some text)
                (State w1 (whatsapp_csv st) (non_whatsapp_csv st)))
      as (w2 & [Eapp|(e & Eapp)]).
    + exists w2, (t1 ++ [Log INFO (Is_not_on_WhatsApp phone_number text)]
                  ++ [Call (OpenAppend NonWhatsappCsv) None;
                      WriteRow NonWhatsappCsv [phone_number; text]] ++ [Sleep 1]),
        false, text, k.
      cbn zeta. cbn [other].
      unfold gotos, closes, found_on_whatsapp, rows_written, append_failures in *.
      rewrite !omap_app, Hg, Hcl, Hfo, Hw, Hnw, Haf.
      split; [by rewrite app_nil_r|]. split; [lia|]. split; [done|].
      split; [done|]. split; [done|]. left. split; [|done].
      unfold bind at 1. unfold bind at 1. unfold log at 1, emit at 1.
      rewrite Eapp. unfold sleep, emit. reflexivity.
    + exists w2, (t1 ++ [Log INFO (Is_not_on_WhatsApp phone_number text)]
                  ++ [Call (OpenAppend NonWhatsappCsv) (Some e);
                      Log ERROR (Failed_to_append_number NonWhatsappCsv e)]
                  ++ [Sleep 1]),
        false, text, k.
      cbn zeta. cbn [other].
      unfold gotos, closes, found_on_whatsapp, rows_written, append_failures in *.
      rewrite !omap_app, Hg, Hcl, Hfo, Hw, Hnw, Haf.
      split; [by rewrite app_nil_r|]. split; [lia|]. split; [done|].
      split; [done|]. split; [done|]. right. split; [|split; [done|by exists e]].
      unfold bind at 1. unfold bind at 1. unfold log at 1, emit at 1.
      rewrite Eapp. unfold sleep, emit. reflexivity.
Qed.

(** X23.  One number of the checker's loop.  The body of the loop never
    raises.  It navigates between one and three times, always to the chat
    of the canonical form of the number, and files the number as it was
    given, not its canonical form, in exactly one of the two output files:
    in [whatsapp_numbers.csv], as a row of one column, exactly when it
    reports the number as found, else in [non_whatsapp_numbers.csv] with
    the reason.  The one way for the number to be filed nowhere is that the
    output file cannot be opened, which is logged and goes no further.
    Both files are the files before with the rows written appended. *)
Theorem each_number_is_filed_in_one_file (phone_number : str) (st : state W) :
  let run := check_and_file phone_number st in
  let t := snd run in
  fst (fst run) = Ok tt
  ∧ (∀ o, file_of o (snd (fst run)) = grown (file_of o st) (rows_written o t))
  ∧ Forall (eq (chat_url (clean_number phone_number))) (gotos t)
  ∧ (1 ≤ length (gotos t) ≤ 3)%nat
  ∧ ∃ o,
      rows_written (other o) t = []
      ∧ (o = WhatsappCsv ↔ found_on_whatsapp t = [phone_number])
      ∧ ((append_failures t = []
          ∧ ∃ row, rows_written o t = [row] ∧ head row = Some phone_number
                   ∧ (o = WhatsappCsv → row = [phone_number]))
         ∨ (rows_written o t = [] ∧ ∃ e, append_failures t = [(o, e)])).
Proof.
  destruct (check_and_file_run phone_number st)
    as (w' & t & on & reason & k & Hg & Hk & _ & Hfound & Hother & Hrun).
  cbn zeta in *.
  assert (Hgotos : Forall (eq (chat_url (clean_number phone_number))) (gotos t)
                   ∧ (1 ≤ length (gotos t) ≤ 3)%nat).
  { rewrite Hg, length_replicate. split; [|done].
    apply Forall_forall. by intros x [-> _]%elem_of_replicate. }
  destruct Hrun as [(E & Hrows & Hfail)|(E & Hrows & e & Hfail)];
    rewrite E; cbn [fst snd].
  - split; [done|]. split.
    { intros o. destruct on, o; cbn [other] in Hother; cbn [with_file file_of];
        rewrite ?Hrows, ?Hother; done. }
    split; [apply Hgotos|]. split; [apply Hgotos|].
    exists (if on then WhatsappCsv else NonWhatsappCsv).
    split; [done|]. split.
    { rewrite Hfound. destruct on; split; done. }
    left. split; [done|]. eexists. split; [done|].
    destruct on; by split.
  - split; [done|]. split.
    { intros o. destruct on, o; cbn [other] in Hother; cbn [file_of];
        rewrite ?Hrows, ?Hother; done. }
    split; [apply Hgotos|]. split; [apply Hgotos|].
    exists (if on then WhatsappCsv else NonWhatsappCsv).
    split; [done|]. split.
    { rewrite Hfound. destruct on; split; done. }
    right. split; [done|]. by exists e.
Qed.

(** *** What every run of the checker keeps to *)

Lemma grown_app (f : file) (rows1 rows2 : list (list str)) :
  grown (grown f rows1) rows2 = grown f (rows1 ++ rows2).
Proof.
  destruct rows1 as [|r1 rows1]; [done|].
  destruct rows2 as [|r2 rows2]; [by rewrite app_nil_r|].
  simpl. by rewrite fmap_app, <- app_assoc.
Qed.

Lemma rows_written_app' (o : output) (t1 t2 : list event) :
  rows_written o (t1 ++ t2) = rows_written o t1 ++ rows_written o t2.
Proof. apply omap_app. Qed.

Lemma files_follow_bind {A B} (m : C W A) (k : A → C W B) (st : state W) :
  files_follow st (m st) →
  (∀ a st1, files_follow st1 (k a st1)) →
  files_follow st (bind m k st).
Proof.
  intros [Hm1 Hm2] Hk. unfold bind.
  destruct (m st) as [[[a|e] st1] t1]; [|by split].
  specialize (Hk a st1). destruct (k a st1) as [[r st2] t2].
  destruct Hk as [Hk1 Hk2]. cbn [fst snd] in *. split.
  - intros o. cbn [fst snd]. by rewrite Hk1, Hm1, grown_app, rows_written_app'.
  - cbn [fst snd]. unfold append_failures, found_on_whatsapp in *.
    rewrite !omap_app, rows_written_app', fmap_app.
    intros [H1 H2]%app_eq_nil. by rewrite Hm2, Hk2.
Qed.

Lemma files_follow_try_except {A} (m : C W A) (h : exn → C W A) (st : state W) :
  files_follow st (m st) →
  (∀ e st1, files_follow st1 (h e st1)) →
  files_follow st (try_except m h st).
Proof.
  intros [Hm1 Hm2] Hh. unfold try_except.
  destruct (m st) as [[[a|e] st1] t1]; [by split|].
  specialize (Hh e st1). destruct (h e st1) as [[r st2] t2].
  destruct Hh as [Hh1 Hh2]. cbn [fst snd] in *. split.
  - intros o. cbn [fst snd]. by rewrite Hh1, Hm1, grown_app, rows_written_app'.
  - cbn [fst snd]. unfold append_failures, found_on_whatsapp in *.
    rewrite !omap_app, rows_written_app', fmap_app.
    intros [H1 H2]%app_eq_nil. by rewrite Hm2, Hh2.
Qed.

Lemma files_follow_try_finally {A} (m : C W A) (f : C W unit) (st : state W) :
  files_follow st (m st) →
  (∀ st1, files_follow st1 (f st1)) →
  files_follow st (try_finally m f st).
Proof.
  intros [Hm1 Hm2] Hf. unfold try_finally.
  destruct (m st) as [[r st1] t1].
  specialize (Hf st1). destruct (f st1) as [[rf st2] t2].
  destruct Hf as [Hf1 Hf2]. cbn [fst snd] in *. split.
  - intros o. cbn [fst snd]. by rewrite Hf1, Hm1, grown_app, rows_written_app'.
  - cbn [fst snd]. unfold append_failures, found_on_whatsapp in *.
    rewrite !omap_app, rows_written_app', fmap_app.
    intros [H1 H2]%app_eq_nil. by rewrite Hm2, Hf2.
Qed.

Lemma files_follow_quiet {A} (st : state W) (r : res A) (w' : W) (t : list event) :
  rows_written WhatsappCsv t = [] ∧ rows_written NonWhatsappCsv t = []
  ∧ found_on_whatsapp t = [] →
  files_follow st (r, State w' (whatsapp_csv st) (non_whatsapp_csv st), t).
Proof.
  intros (Hw & Hnw & Hfo). split; cbn [fst snd].
  - intros []; cbn [file_of]; by rewrite ?Hw, ?Hnw.
  - intros _. by rewrite Hw, Hfo.
Qed.

Lemma files_follow_ret {A} (a : A) (st : state W) : files_follow st (ret a st).
Proof. destruct st. by apply (files_follow_quiet (State _ _ _)). Qed.

Lemma files_follow_raise {A} (e : exn) (st : state W) :
  files_follow st (@raise W A e st).
Proof. destruct st. by apply (files_follow_quiet (State _ _ _)). Qed.

Lemma files_follow_call (o : op) (st : state W) : files_follow st (call o st).
Proof.
  unfold call. destruct (effect o (world st)) as [r w'].
  apply files_follow_quiet. by destruct o.
Qed.

Lemma files_follow_for_each {A} (l : list A) (body : A → C W unit) (st : state W) :
  (∀ x st1, files_follow st1 (body x st1)) →
  files_follow st (for_each l body st).
Proof.
  intros Hbody. revert st. induction l as [|x l IH]; intros st.
  - apply files_follow_ret.
  - cbn [for_each]. apply files_follow_bind; [apply Hbody|]. intros _ st1. apply IH.
Qed.

Lemma files_follow_check_and_file (phone_number : str) (st : state W) :
  files_follow st (check_and_file phone_number st).
Proof.
  destruct (check_and_file_run phone_number st)
    as (w' & t & on & reason & k & _ & _ & _ & Hfound & Hother
        & [(E & Hrows & Hfail)|(E & Hrows & e & Hfail)]);
    cbn zeta in *; rewrite E; split; cbn [fst snd].
  - intros o. destruct on, o; cbn [other] in Hother; cbn [with_file file_of];
      rewrite ?Hrows, ?Hother; done.
  - intros _. rewrite Hfound. destruct on; cbn [other] in Hother;
      by rewrite ?Hrows, ?Hother.
  - intros o. destruct on, o; cbn [other] in Hother; cbn [file_of];
      rewrite ?Hrows, ?Hother; done.
  - by rewrite Hfail.
Qed.

Lemma files_follow_check_numbers (phone_numbers : list str) (batch_size : Z)
    (st : state W) :
  files_follow st (check_numbers_on_whatsapp phone_numbers batch_size st).
Proof.
  unfold check_numbers_on_whatsapp.
  apply files_follow_bind.
  { unfold read_existing_numbers.
    destruct (scan_existing_numbers (file_of WhatsappCsv st)) as [numbers [e|]];
      destruct st; by apply (files_follow_quiet (State _ _ _)). }
  intros existing_whatsapp_numbers st1. apply files_follow_bind.
  { unfold read_existing_numbers.
    destruct (scan_existing_numbers (file_of NonWhatsappCsv st1)) as [numbers [e|]];
      destruct st1; by apply (files_follow_quiet (State _ _ _)). }
  intros existing_non_whatsapp_numbers st2. apply files_follow_bind.
  { destruct st2. by apply (files_follow_quiet (State _ _ _)). }
  intros _ st3. apply files_follow_bind.
  2: { intros _ st4. destruct st4. by apply (files_follow_quiet (State _ _ _)). }
  unfold get_browser_and_page.
  apply files_follow_bind; [apply files_follow_call|]. intros _ st4.
  apply files_follow_bind; [apply files_follow_call|]. intros _ st5.
  apply files_follow_bind.
  { unfold handle_qr_scan.
    apply files_follow_bind; [apply files_follow_call|]. intros _ st6.
    apply files_follow_bind; [|intros; apply files_follow_call].
    destruct st6. by apply (files_follow_quiet (State _ _ _)). }
  intros _ st6. apply files_follow_try_finally.
  - apply files_follow_try_except.
    + destruct (py_range _ batch_size) as [indices|e]; [|apply files_follow_raise].
      apply files_follow_for_each. intros i st7.
      apply files_follow_bind.
      { destruct st7. by apply (files_follow_quiet (State _ _ _)). }
      intros _ st8. apply files_follow_for_each. intros p st9.
      apply files_follow_check_and_file.
    + intros e st7. apply files_follow_bind; [|intros; apply files_follow_raise].
      destruct st7. by apply (files_follow_quiet (State _ _ _)).
  - intros st7. apply files_follow_try_except.
    + apply files_follow_bind; [apply files_follow_call|].
      intros; apply files_follow_call.
    + intros e st8. destruct st8. by apply (files_follow_quiet (State _ _ _)).
Qed.

(** X26.  A QR code that is not scanned.  In the checker the session is
    set up before the [try] of [get_browser_and_page]: when Chrome starts,
    the page is created and the login page loads but the wait for the login
    raises, the [async with] raises that exception without running its
    block, and neither the handler nor the [finally] block runs: nothing is
    logged and neither the page nor the browser is closed. *)
Theorem unscanned_code_leaves_the_browser_open (body : C W unit)
    (w w1 w2 w3 w4 : W) (f g : file) (e : exn) :
  effect Launch w = (Ok tt, w1) →
  effect NewPage w1 = (Ok tt, w2) →
  effect (Goto (py "https://web.whatsapp.com")) w2 = (Ok tt, w3) →
  effect WaitForLogin w3 = (Raise e, w4) →
  get_browser_and_page body (State w f g)
  = (Raise e, State w4 f g,
     [Call Launch None; Call NewPage None;
      Call (Goto (py "https://web.whatsapp.com")) None;
      Print Please_scan_the_QR_code; Call WaitForLogin (Some e)])
  ∧ closes (snd (get_browser_and_page body (State w f g))) = [].
Proof.
  intros Hlaunch Hpage Hgoto Hlogin.
  assert (E : get_browser_and_page body (State w f g)
              = (Raise e, State w4 f g,
                 [Call Launch None; Call NewPage None;
                  Call (Goto (py "https://web.whatsapp.com")) None;
                  Print Please_scan_the_QR_code; Call WaitForLogin (Some e)])).
  { unfold get_browser_and_page. unfold bind at 1. unfold call at 1.
    cbn [world whatsapp_csv non_whatsapp_csv]. rewrite Hlaunch.
    unfold bind at 1. unfold call at 1.
    cbn [world whatsapp_csv non_whatsapp_csv]. rewrite Hpage.
    unfold bind at 1. unfold handle_qr_scan. unfold bind at 1. unfold call at 1.
    cbn [world whatsapp_csv non_whatsapp_csv]. rewrite Hgoto.
    unfold bind at 1. unfold print at 1, emit at 1. unfold call at 1.
    cbn [world whatsapp_csv non_whatsapp_csv]. by rewrite Hlogin. }
  by rewrite E.
Qed.
End Checking.

(** *** From the checker to the sender *)

Lemma phone_rows_app (rows1 rows2 : list line) (acc l : list str) :
  phone_rows rows1 acc = (l, None) →
  phone_rows (rows1 ++ rows2) acc = phone_rows rows2 l.
Proof.
  revert acc. induction rows1 as [|[[|c0 cs]|] rows1 IH]; intros acc; simpl.
  - by intros [= ->].
  - apply IH.
  - apply IH.
  - done.
Qed.

Lemma found_rows_heads (numbers : list str) :
  omap head ((fun number => [number]) <$> numbers) = numbers.
Proof. induction numbers as [|n numbers IH]; [done|]. simpl. by f_equal. Qed.

Section Handover.
Context {W : Type} `{Checker.Browser W}.

(** X24.  From the checker to the sender.  Take any run of
    [Checker.check_numbers_on_whatsapp], complete or cut short by an exception, in
    which no append failed, from a [whatsapp_numbers.csv] that has its
    first row and that the reader of [main.py] reads without error.  After
    the run the reader of [main.py] reads the file without error again, and
    what it returns is what it returned before followed by the canonical
    forms of the numbers the run reported as found, in the order it found
    them.  The checker files the numbers as given; the sender is the one
    that brings them to canonical form. *)
Theorem found_numbers_reach_the_sender (phone_numbers : list str)
    (batch_size : Z) (st : Checker.state W) (first : list str) (rows : list line) :
  let run := Checker.check_numbers_on_whatsapp phone_numbers batch_size st in
  Checker.whatsapp_csv st = Some (Row first :: rows) →
  snd (scan_phone_numbers (Checker.whatsapp_csv st)) = None →
  Checker.append_failures (snd run) = [] →
  scan_phone_numbers (Checker.whatsapp_csv (snd (fst run)))
  = (fst (scan_phone_numbers (Checker.whatsapp_csv st))
     ++ (clean_number <$> Checker.found_on_whatsapp (snd run)), None).
Proof.
  intros run Hfile Hread Hfail.
  destruct (files_follow_check_numbers phone_numbers batch_size st) as [Hfiles Hrows].
  fold run in Hfiles, Hrows.
  specialize (Hfiles Checker.WhatsappCsv). specialize (Hrows Hfail).
  cbn [Checker.file_of] in Hfiles. rewrite Hfiles, Hrows, Hfile in *.
  unfold scan_phone_numbers in *. cbn [skip_header] in Hread |- *.
  destruct (phone_rows rows []) as [l0 err] eqn:E0. cbn [fst snd] in *. subst err.
  destruct ((fun number => [number]) <$> Checker.found_on_whatsapp (snd run))
    as [|r written] eqn:Ewritten.
  - apply fmap_nil_inv in Ewritten. rewrite Ewritten.
    cbn [Checker.grown skip_header fmap list_fmap]. by rewrite E0, app_nil_r.
  - cbn [Checker.grown default id]. rewrite <- app_comm_cons. cbn [skip_header].
    rewrite (phone_rows_app _ _ _ _ E0), phone_rows_all_rows.
    by rewrite <- Ewritten, found_rows_heads.
Qed.

(** X25.  A file without its first row.  When [whatsapp_numbers.csv] does
    not exist or is empty as [Checker.check_numbers_on_whatsapp] starts -- the
    function itself writes no header, and [main] writes one only to a file
    that does not exist, going on if that fails --, the first number the
    run finds becomes the first row of the file: the reader of [main.py]
    takes it for the header, and the sender never gets it. *)
Theorem first_found_number_is_lost_without_header (phone_numbers : list str)
    (batch_size : Z) (st : Checker.state W) (number : str) (found : list str) :
  let run := Checker.check_numbers_on_whatsapp phone_numbers batch_size st in
  Checker.whatsapp_csv st = None ∨ Checker.whatsapp_csv st = Some [] →
  Checker.append_failures (snd run) = [] →
  Checker.found_on_whatsapp (snd run) = number :: found →
  Checker.whatsapp_csv (snd (fst run))
  = Some (Row [number] :: ((fun n => Row [n]) <$> found))
  ∧ scan_phone_numbers (Checker.whatsapp_csv (snd (fst run)))
    = (clean_number <$> found, None).
Proof.
  intros run Hfile Hfail Hfound.
  destruct (files_follow_check_numbers phone_numbers batch_size st) as [Hfiles Hrows].
  fold run in Hfiles, Hrows.
  specialize (Hfiles Checker.WhatsappCsv). specialize (Hrows Hfail).
  cbn [Checker.file_of] in Hfiles. rewrite Hfiles, Hrows, Hfound.
  assert (Hnew : Checker.grown (Checker.whatsapp_csv st) ((fun n => [n]) <$> number :: found)
                 = Some (Row [number] :: ((fun n => Row [n]) <$> found))).
  { destruct Hfile as [->| ->]; cbn [Checker.grown default id fmap list_fmap app];
      do 2 f_equal; by rewrite <- list_fmap_compose. }
  rewrite Hnew. split; [done|].
  unfold scan_phone_numbers. cbn [skip_header].
  rewrite (list_fmap_compose (fun n => [n]) Row), phone_rows_all_rows.
  by rewrite found_rows_heads.
Qed.
End Handover.

Lemma found_numbers_reach_the_sender_witness :
  scan_phone_numbers
    (Checker.whatsapp_csv
       (snd (fst (Checker.check_numbers_on_whatsapp [py "+1 555"] 5
                    (Checker.State
                       [Script.Fine; Script.Fine; Script.Fine; Script.Fine;
                        Script.Fine; Script.Element (Some 7%N)]
                       (Some [Row [py "Phone Number"]; Row [py "1444"]])
                       (Some [Row [py "Phone Number"; py "Reason"]]))))))
  = ([py "1444"; py "1555"], None).
Proof.
  exact (found_numbers_reach_the_sender [py "+1 555"] 5
           (Checker.State
              [Script.Fine; Script.Fine; Script.Fine; Script.Fine;
               Script.Fine; Script.Element (Some 7%N)]
              (Some [Row [py "Phone Number"]; Row [py "1444"]])
              (Some [Row [py "Phone Number"; py "Reason"]]))
           [py "Phone Number"] [Row [py "1444"]]
           eq_refl eq_refl eq_refl).
Defined.

Lemma first_found_number_is_lost_without_header_witness :
  Checker.whatsapp_csv
    (snd (fst (Checker.check_numbers_on_whatsapp [py "+1 555"; py "1666"] 5
                 (Checker.State
                    [Script.Fine; Script.Fine; Script.Fine; Script.Fine;
                     Script.Fine; Script.Element (Some 7%N); Script.Fine;
                     Script.Fine; Script.Element (Some 7%N)]
                    None None))))
  = Some [Row [py "+1 555"]; Row [py "1666"]]
  ∧ scan_phone_numbers
      (Checker.whatsapp_csv
         (snd (fst (Checker.check_numbers_on_whatsapp [py "+1 555"; py "1666"] 5
                      (Checker.State
                         [Script.Fine; Script.Fine; Script.Fine; Script.Fine;
                          Script.Fine; Script.Element (Some 7%N); Script.Fine;
                          Script.Fine; Script.Element (Some 7%N)]
                         None None)))))
    = ([py "1666"], None).
Proof.
  exact (first_found_number_is_lost_without_header [py "+1 555"; py "1666"] 5
           (Checker.State
              [Script.Fine; Script.Fine; Script.Fine; Script.Fine;
               Script.Fine; Script.Element (Some 7%N); Script.Fine;
               Script.Fine; Script.Element (Some 7%N)]
              None None)
           (py "+1 555") [py "1666"]
           (or_introl eq_refl) eq_refl eq_refl).
Defined.

Lemma unscanned_code_leaves_the_browser_open_witness :
  Checker.closes
    (snd (Checker.get_browser_and_page (Checker.ret tt)
            (Checker.State
               [Script.Fine; Script.Fine; Script.Fine;
                Script.Raises (TimeoutError (py "Waiting for selector failed"))]
               None None)))
  = [].
Proof.
  exact (proj2 (unscanned_code_leaves_the_browser_open (Checker.ret tt)
                  [Script.Fine; Script.Fine; Script.Fine;
                   Script.Raises (TimeoutError (py "Waiting for selector failed"))]
                  [Script.Fine; Script.Fine;
                   Script.Raises (TimeoutError (py "Waiting for selector failed"))]
                  [Script.Fine;
                   Script.Raises (TimeoutError (py "Waiting for selector failed"))]
                  [Script.Raises (TimeoutError (py "Waiting for selector failed"))]
                  [] None None
                  (TimeoutError (py "Waiting for selector failed"))
                  eq_refl eq_refl eq_refl eq_refl)).
Defined.
